(** * Japanrealestate: income tax, mortgage schedule and real-estate pro-forma

    A shallow embedding of [japanrealestate/taxconstants.py],
    [japanrealestate/mortgage.py], [japanrealestate/incometaxcalc.py] and
    [japanrealestate/realestatecalc.py].

    - Python numbers are [num]: an arbitrary-precision [int] (a [Z]) or a
      [float] (an IEEE 754 binary64, Rocq's primitive [float]).  Mixed
      arithmetic converts the [int] operand to [float] as CPython does.
    - A method is a state transformer on [self] that either completes or
      raises; the state reached when an exception is raised is kept.
    - [IncomeTaxCalc] objects referenced from a [RealEstateCalc] live in a
      store ([gmap loc IncomeTaxCalc.t]); [copy.deepcopy] allocates.
    - [numpy.ipmt] and [numpy.ppmt] are parameters ([NumPy] class). *)

From Stdlib Require Import ZArith List Bool Floats Lia.
From stdpp Require Import base option list gmap.

Set Default Proof Using "Type".
Set Warnings "-inexact-float".
Local Open Scope Z_scope.

(** ** Exceptions and results *)

Inductive num : Type :=
| Int (z : Z)
| Flt (f : float).

Inductive value_error : Type :=
| cannot_convert_float_NaN_to_integer
| year_is_out_of_range (y : Z)
| operands_could_not_be_broadcast_together
| is_not_a_valid_income (v : num)
| is_not_a_valid_value_for_is_primary_residence (v : Z).

(** [ModelStuck] is not a Python exception: it marks the two situations
    that the embedding can express and a Python run cannot reach, a
    reference to an object that is not in the store and the end of the
    recursion budget of [calculate_all_fields]. *)
Inductive exn : Type :=
| ValueError (why : value_error)
| TypeError
| OverflowError
| ZeroDivisionError
| ModelStuck.

Inductive res (A : Type) : Type :=
| Ok (a : A)
| Raise (e : exn).
Arguments Ok {A} a.
Arguments Raise {A} e.

Definition res_bind {A B} (r : res A) (k : A -> res B) : res B :=
  match r with
  | Ok a => k a
  | Raise e => Raise e
  end.

Notation "'let!' x ':=' r 'in' k" := (res_bind r (fun x => k))
  (at level 10, x name, r at level 100, k at level 200).

(** Reading an attribute that still holds [None] in an arithmetic
    expression or a comparison is a [TypeError]. *)
Definition get {A} (o : option A) : res A :=
  match o with
  | Some a => Ok a
  | None => Raise TypeError
  end.

(** [o is None] *)
Definition is_None {A} (o : option A) : bool :=
  match o with
  | None => true
  | Some _ => false
  end.

(** ** Python numbers *)

Module Py.

(** *** Conversions between [int] and [float] *)

(** [float(z)]: the nearest binary64, ties to even; [OverflowError] when
    that is not finite. *)
Definition float_of_Z (z : Z) : res float :=
  match binary_normalize prec emax z 0 false with
  | S754_infinity _ => Raise OverflowError
  | sf => Ok (SF2Prim sf)
  end.

Definition to_float (x : num) : res float :=
  match x with
  | Int z => float_of_Z z
  | Flt f => Ok f
  end.

(** The integer of which [m * 2^e] with sign [s] is the floor. *)
Definition SF_floor (s : bool) (m : positive) (e : Z) : Z :=
  Z.shiftl (cond_Zopp s (Zpos m)) e.

(** ... and the truncation toward zero. *)
Definition SF_trunc (s : bool) (m : positive) (e : Z) : Z :=
  cond_Zopp s (Z.shiftl (Zpos m) e).

(** ... and the nearest integer, ties to even. *)
Definition SF_round (s : bool) (m : positive) (e : Z) : Z :=
  if 0 <=? e then cond_Zopp s (Zpos m * 2 ^ e)
  else
    let d := 2 ^ (- e) in
    let q := Zpos m / d in
    let r := Zpos m mod d in
    cond_Zopp s
      match 2 * r ?= d with
      | Lt => q
      | Gt => q + 1
      | Eq => if Z.even q then q else q + 1
      end.

Definition float_to_Z (conv : bool -> positive -> Z -> Z) (f : float) : res Z :=
  match Prim2SF f with
  | S754_nan => Raise (ValueError cannot_convert_float_NaN_to_integer)
  | S754_infinity _ => Raise OverflowError
  | S754_zero _ => Ok 0
  | S754_finite s m e => Ok (conv s m e)
  end.

(** [int(x)] *)
Definition int (x : num) : res num :=
  match x with
  | Int z => Ok (Int z)
  | Flt f => let! z := float_to_Z SF_trunc f in Ok (Int z)
  end.

(** [math.floor(x)] *)
Definition floor (x : num) : res num :=
  match x with
  | Int z => Ok (Int z)
  | Flt f => let! z := float_to_Z SF_floor f in Ok (Int z)
  end.

(** [round(x)] with one argument *)
Definition round (x : num) : res num :=
  match x with
  | Int z => Ok (Int z)
  | Flt f => let! z := float_to_Z SF_round f in Ok (Int z)
  end.

(** *** Arithmetic *)

Definition arith (fz : Z -> Z -> Z) (ff : float -> float -> float)
    (x y : num) : res num :=
  match x, y with
  | Int a, Int b => Ok (Int (fz a b))
  | _, _ =>
      let! a := to_float x in
      let! b := to_float y in
      Ok (Flt (ff a b))
  end.

Definition add : num -> num -> res num := arith Z.add PrimFloat.add.
Definition sub : num -> num -> res num := arith Z.sub PrimFloat.sub.
Definition mul : num -> num -> res num := arith Z.mul PrimFloat.mul.

Definition neg (x : num) : num :=
  match x with
  | Int z => Int (- z)
  | Flt f => Flt (- f)
  end.

Definition Z_to_SF_exact (z : Z) : spec_float :=
  match z with
  | Z0 => S754_zero false
  | Zpos p => S754_finite false p 0
  | Zneg p => S754_finite true p 0
  end.

(** [a / b] on two [int]s: the correctly rounded quotient. *)
Definition Z_truediv (a b : Z) : res float :=
  if b =? 0 then Raise ZeroDivisionError
  else
    match SFdiv prec emax (Z_to_SF_exact a) (Z_to_SF_exact b) with
    | S754_infinity _ => Raise OverflowError
    | sf => Ok (SF2Prim sf)
    end.

(** [x / y] (true division) *)
Definition truediv (x y : num) : res num :=
  match x, y with
  | Int a, Int b => let! q := Z_truediv a b in Ok (Flt q)
  | _, _ =>
      let! a := to_float x in
      let! b := to_float y in
      if PrimFloat.eqb b zero then Raise ZeroDivisionError
      else Ok (Flt (a / b))
  end.

(** *** Comparisons *)

(** An [int] against a [float], exactly. *)
Definition Z_compare_float (z : Z) (f : float) : option comparison :=
  match Prim2SF f with
  | S754_nan => None
  | S754_infinity s => Some (if s then Gt else Lt)
  | S754_zero _ => Some (z ?= 0)
  | S754_finite s m e =>
      let v := cond_Zopp s (Zpos m) in
      Some (if 0 <=? e then z ?= v * 2 ^ e else z * 2 ^ (- e) ?= v)
  end.

Definition float_compare (a b : float) : option comparison :=
  match PrimFloat.compare a b with
  | FEq => Some Eq
  | FLt => Some Lt
  | FGt => Some Gt
  | FNotComparable => None
  end.

Definition compare (x y : num) : option comparison :=
  match x, y with
  | Int a, Int b => Some (a ?= b)
  | Int a, Flt b => Z_compare_float a b
  | Flt a, Int b => CompOpp <$> Z_compare_float b a
  | Flt a, Flt b => float_compare a b
  end.

Definition lt (x y : num) : bool :=
  match compare x y with Some Lt => true | _ => false end.
Definition le (x y : num) : bool :=
  match compare x y with Some (Lt | Eq) => true | _ => false end.
Definition gt (x y : num) : bool :=
  match compare x y with Some Gt => true | _ => false end.
Definition ge (x y : num) : bool :=
  match compare x y with Some (Gt | Eq) => true | _ => false end.
Definition eq (x y : num) : bool :=
  match compare x y with Some Eq => true | _ => false end.

(** [min(x, y)] and [max(x, y)]: the first argument unless the second
    is strictly smaller (resp. greater). *)
Definition min (x y : num) : num := if lt y x then y else x.
Definition max (x y : num) : num := if gt y x then y else x.

(** [sum(l)]: additions from the left, starting at the [int] 0. *)
Definition sum_from (start : num) (l : list num) : res num :=
  fold_left (fun acc x => let! a := acc in add a x) l (Ok start).
Definition sum (l : list num) : res num := sum_from (Int 0) l.

(** [True] is 1 and [False] is 0 in arithmetic. *)
Definition of_bool (b : bool) : num := Int (Z.b2z b).

(** *** Sequences *)

(** [l[i:]] *)
Definition slice_from {A} (i : Z) (l : list A) : list A :=
  let n := Z.of_nat (length l) in
  drop (Z.to_nat (if i <? 0 then Z.max 0 (n + i) else i)) l.

(** [l[:k]] for [k >= 0] *)
Definition slice_to {A} (k : nat) (l : list A) : list A := take k l.

(** [range(a, b)] *)
Definition range (a b : Z) : list Z :=
  map (fun i => a + Z.of_nat i) (seq 0 (Z.to_nat (b - a))).

End Py.

(** ** Methods: state transformers that may raise *)

(** A method body run on the state [S]: its outcome and the state it
    leaves, also when it raises. *)
Definition M (S A : Type) : Type := S -> res A * S.

Definition ret {S A} (a : A) : M S A := fun s => (Ok a, s).

Definition bind {S A B} (m : M S A) (k : A -> M S B) : M S B :=
  fun s =>
    match m s with
    | (Ok a, s') => k a s'
    | (Raise e, s') => (Raise e, s')
    end.

Notation "'let*' x ':=' m 'in' k" := (bind m (fun x => k))
  (at level 10, x name, m at level 100, k at level 200).
Notation "m1 ;; m2" := (bind m1 (fun _ => m2))
  (at level 100, m2 at level 200, right associativity).

(** Evaluate an expression over the state; it may raise. *)
Definition eval {S A} (e : S -> res A) : M S A := fun s => (e s, s).

(** [self.x = e]: the attribute is written once [e] has been evaluated. *)
Definition assign {S V} (set : V -> S -> S) (e : S -> res V) : M S unit :=
  fun s =>
    match e s with
    | Ok v => (Ok tt, set v s)
    | Raise x => (Raise x, s)
    end.

(** [if c: body] *)
Definition when {S} (c : S -> res bool) (body : M S unit) : M S unit :=
  let* b := eval c in if b : bool then body else ret tt.

(** [if c: m1 else: m2] *)
Definition ifelse {S} (c : S -> res bool) (m1 m2 : M S unit) : M S unit :=
  let* b := eval c in if b : bool then m1 else m2.

(** The outcome and the final state of a run. *)
Definition outcome {S A} (r : res A * S) : res A := fst r.
Definition final {S A} (r : res A * S) : S := snd r.

(** Builds the update of one field from the eta-expansion of a record. *)
Ltac setter eta proj v r :=
  let e := eval cbv beta delta [eta] in (eta r) in
  match eval pattern (proj r) in e with
  | ?g _ => let u := eval cbv beta in (g v) in exact u
  end.

(** ** Dates ([datetime.date] and [dateutil.relativedelta])

    Neither library is part of the repository; these definitions follow
    their documented behaviour for the two operations the source uses:
    ordering of dates and [d + relativedelta(years=n)]. *)

Record date : Type := mk_date { year : Z; month : Z; day : Z }.

Definition date_lt (a b : date) : bool :=
  (year a <? year b)
  || ((year a =? year b)
      && ((month a <? month b)
          || ((month a =? month b) && (day a <? day b)))).

Definition is_leap (y : Z) : bool :=
  (y mod 4 =? 0) && (negb (y mod 100 =? 0) || (y mod 400 =? 0)).

Definition days_in_month (y m : Z) : Z :=
  if m =? 2 then (if is_leap y then 29 else 28)
  else if (m =? 4) || (m =? 6) || (m =? 9) || (m =? 11) then 30
  else 31.

(** [d + relativedelta(years=n)]: same month, the day clipped to the
    length of that month, [ValueError] outside the years 1..9999. *)
Definition date_add_years (d : date) (n : Z) : res date :=
  let y := year d + n in
  if (1 <=? y) && (y <=? 9999)
  then Ok (mk_date y (month d) (Z.min (days_in_month y (month d)) (day d)))
  else Raise (ValueError (year_is_out_of_range y)).

(** ** taxconstants.py *)

Module taxconstants.
Definition CONSUMPTION_TAX : num := Flt 0.08.
Definition RESTORATION_TAX : num := Flt 0.021.
Definition RESTORATION_TAX_EXPIRY : date := mk_date 2038 1 1.
End taxconstants.

(** ** numpy

    [numpy.ipmt] and [numpy.ppmt] for one period: [np_ipmt rate per nper pv].
    On an array of periods numpy applies them to each element. *)
Class NumPy : Type := {
  np_ipmt : num -> Z -> Z -> num -> float;
  np_ppmt : num -> Z -> Z -> num -> float
}.

(** [a + b] on two arrays of the same length, element by element. *)
Fixpoint array_add (a b : list num) : res (list num) :=
  match a, b with
  | [], [] => Ok []
  | x :: a', y :: b' =>
      let! z := Py.add x y in
      let! r := array_add a' b' in
      Ok (z :: r)
  | _, _ => Raise (ValueError operands_could_not_be_broadcast_together)
  end.

(** ** mortgage.py *)

Module Mortgage.

Record t : Type := mk {
  principal : num;
  tenor : Z;
  rate : num;
  loan_periods : option (list Z);
  interest_schedule : option (list num);
  principal_schedule : option (list num);
  amortization_schedule : option (list num);
  monthly_payment : option num
}.

Definition eta (r : t) : t :=
  mk (principal r) (tenor r) (rate r) (loan_periods r)
     (interest_schedule r) (principal_schedule r)
     (amortization_schedule r) (monthly_payment r).

Definition set_loan_periods (v : option (list Z)) (r : t) : t :=
  ltac:(setter eta loan_periods v r).
Definition set_interest_schedule (v : option (list num)) (r : t) : t :=
  ltac:(setter eta interest_schedule v r).
Definition set_principal_schedule (v : option (list num)) (r : t) : t :=
  ltac:(setter eta principal_schedule v r).
Definition set_amortization_schedule (v : option (list num)) (r : t) : t :=
  ltac:(setter eta amortization_schedule v r).
Definition set_monthly_payment (v : option num) (r : t) : t :=
  ltac:(setter eta monthly_payment v r).

Section Methods.
Context `{NumPy}.

(** [np.arange(self.tenor * 12) + 1] *)
Definition _calculate_loan_periods : M t unit :=
  assign set_loan_periods (fun self =>
    Ok (Some (map (fun i => i + 1) (Py.range 0 (tenor self * 12))))).

Definition _calculate_interest_schedule : M t unit :=
  assign set_interest_schedule (fun self =>
    if tenor self =? 0 then Ok (Some [])
    else if Py.eq (rate self) (Int 0) then
      let! periods := get (loan_periods self) in
      Ok (Some (map (fun p => Int (p * 0)) periods))
    else
      let! r := Py.truediv (rate self) (Int 12) in
      let! periods := get (loan_periods self) in
      Ok (Some (map (fun p =>
            Py.neg (Flt (np_ipmt r p (tenor self * 12) (principal self))))
          periods))).

Definition _calculate_principal_schedule : M t unit :=
  assign set_principal_schedule (fun self =>
    if tenor self =? 0 then Ok (Some [])
    else if Py.eq (rate self) (Int 0) then
      let! periods := get (loan_periods self) in
      let num_periods := length periods in
      let! q := Py.truediv (principal self) (Int (Z.of_nat num_periods)) in
      Ok (Some (replicate num_periods q))
    else
      let! r := Py.truediv (rate self) (Int 12) in
      let! periods := get (loan_periods self) in
      Ok (Some (map (fun p =>
            Py.neg (Flt (np_ppmt r p (tenor self * 12) (principal self))))
          periods))).

Definition _calculate_amortization_schedule : M t unit :=
  assign set_amortization_schedule (fun self =>
    if tenor self =? 0 then Ok (Some [])
    else
      let! i := get (interest_schedule self) in
      let! p := get (principal_schedule self) in
      let! a := array_add i p in
      Ok (Some a)).

Definition _calculate_monthly_payment : M t unit :=
  assign set_monthly_payment (fun self =>
    let! a := get (amortization_schedule self) in
    match a with
    | first :: _ => Ok (Some first)
    | [] => Ok (Some (Int 0))
    end).

Definition calculate_all_fields : M t unit :=
  _calculate_loan_periods ;;
  _calculate_interest_schedule ;;
  _calculate_principal_schedule ;;
  _calculate_amortization_schedule ;;
  _calculate_monthly_payment.

(** [Mortgage(principal, tenor, rate)]: the object exists only if
    [__init__] returns. *)
Definition __init__ (principal : num) (tenor : Z) (rate : num) : res unit * t :=
  calculate_all_fields (mk principal tenor rate None None None None None).

Definition new (principal : num) (tenor : Z) (rate : num) : res t :=
  let r := __init__ principal tenor rate in
  let! _ := outcome r in Ok (final r).

End Methods.
End Mortgage.

(** ** incometaxcalc.py *)

Module IncomeTaxCalc.

(** An entry of [_EMPLOYMENT_INCOME_FOR_TAX_TABLE]. *)
Record rule : Type := mk_rule {
  rule_bounds : num * num;
  function : num -> res num
}.

(** An entry of [_NATIONAL_INCOME_TAX_TABLE]. *)
Record bracket : Type := mk_bracket {
  bounds : num * num;
  rate : num;
  previous_brackets_sum : num
}.

(** The attributes of an [IncomeTaxCalc] object, in the order of
    [__init__]: the arguments, then the derived fields ([None] until
    they are calculated). *)
Record t : Type := mk {
  employment_income : num;
  rent : num;
  other_income : num;
  life_insurance_premium : num;
  medical_expense : num;
  number_of_dependents : num;
  is_rent_program : bool;
  social_security_expense : option num;
  tax_deduction : num;
  is_resident_for_tax_purposes : bool;
  current_date : option date;
  total_income : option num;
  employment_income_after_rent_program : option num;
  employment_income_deduction : option num;
  employment_income_for_tax : option num;
  total_income_for_tax : option num;
  deduction_dependents : option num;
  deduction_total : option num;
  taxable_income : option num;
  national_income_tax_bracket : option bracket;
  national_income_tax_rate : option num;
  national_income_tax : option num;
  local_income_tax : option num;
  total_income_tax : option num;
  net_income_after_tax : option num;
  effective_tax_rate : option num
}.

Definition eta (r : t) : t :=
  mk
    (employment_income r) (rent r) (other_income r)
    (life_insurance_premium r) (medical_expense r)
    (number_of_dependents r) (is_rent_program r)
    (social_security_expense r) (tax_deduction r)
    (is_resident_for_tax_purposes r) (current_date r) (total_income r)
    (employment_income_after_rent_program r)
    (employment_income_deduction r) (employment_income_for_tax r)
    (total_income_for_tax r) (deduction_dependents r) (deduction_total r)
    (taxable_income r) (national_income_tax_bracket r)
    (national_income_tax_rate r) (national_income_tax r)
    (local_income_tax r) (total_income_tax r) (net_income_after_tax r)
    (effective_tax_rate r).

Definition set_employment_income (v : num) (r : t) : t :=
  ltac:(setter eta employment_income v r).
Definition set_rent (v : num) (r : t) : t :=
  ltac:(setter eta rent v r).
Definition set_other_income (v : num) (r : t) : t :=
  ltac:(setter eta other_income v r).
Definition set_life_insurance_premium (v : num) (r : t) : t :=
  ltac:(setter eta life_insurance_premium v r).
Definition set_medical_expense (v : num) (r : t) : t :=
  ltac:(setter eta medical_expense v r).
Definition set_number_of_dependents (v : num) (r : t) : t :=
  ltac:(setter eta number_of_dependents v r).
Definition set_is_rent_program (v : bool) (r : t) : t :=
  ltac:(setter eta is_rent_program v r).
Definition set_social_security_expense (v : option num) (r : t) : t :=
  ltac:(setter eta social_security_expense v r).
Definition set_tax_deduction (v : num) (r : t) : t :=
  ltac:(setter eta tax_deduction v r).
Definition set_is_resident_for_tax_purposes (v : bool) (r : t) : t :=
  ltac:(setter eta is_resident_for_tax_purposes v r).
Definition set_current_date (v : option date) (r : t) : t :=
  ltac:(setter eta current_date v r).
Definition set_total_income (v : option num) (r : t) : t :=
  ltac:(setter eta total_income v r).
Definition set_employment_income_after_rent_program (v : option num) (r : t) : t :=
  ltac:(setter eta employment_income_after_rent_program v r).
Definition set_employment_income_deduction (v : option num) (r : t) : t :=
  ltac:(setter eta employment_income_deduction v r).
Definition set_employment_income_for_tax (v : option num) (r : t) : t :=
  ltac:(setter eta employment_income_for_tax v r).
Definition set_total_income_for_tax (v : option num) (r : t) : t :=
  ltac:(setter eta total_income_for_tax v r).
Definition set_deduction_dependents (v : option num) (r : t) : t :=
  ltac:(setter eta deduction_dependents v r).
Definition set_deduction_total (v : option num) (r : t) : t :=
  ltac:(setter eta deduction_total v r).
Definition set_taxable_income (v : option num) (r : t) : t :=
  ltac:(setter eta taxable_income v r).
Definition set_national_income_tax_bracket (v : option bracket) (r : t) : t :=
  ltac:(setter eta national_income_tax_bracket v r).
Definition set_national_income_tax_rate (v : option num) (r : t) : t :=
  ltac:(setter eta national_income_tax_rate v r).
Definition set_national_income_tax (v : option num) (r : t) : t :=
  ltac:(setter eta national_income_tax v r).
Definition set_local_income_tax (v : option num) (r : t) : t :=
  ltac:(setter eta local_income_tax v r).
Definition set_total_income_tax (v : option num) (r : t) : t :=
  ltac:(setter eta total_income_tax v r).
Definition set_net_income_after_tax (v : option num) (r : t) : t :=
  ltac:(setter eta net_income_after_tax v r).
Definition set_effective_tax_rate (v : option num) (r : t) : t :=
  ltac:(setter eta effective_tax_rate v r).

(** *** Income tax specific constants *)

Definition _DEDUCTION_BASIC : num := Int 380000.
Definition _DEDUCTION_PER_DEPENDENT : num := Int 380000.
Definition _LEGAL_RENT_RATE : num := Flt 0.95.

(** [round(x / (4 * 1000)) * 1000 * k] *)
Definition rounded_to_4000 (k : num) (x : num) : res num :=
  let! q := Py.truediv x (Int (4 * 1000)) in
  let! r := Py.round q in
  let! a := Py.mul r (Int 1000) in
  Py.mul a k.

Definition _EMPLOYMENT_INCOME_FOR_TAX_TABLE : list rule := [
  mk_rule (Int 0, Int 650999) (fun x => Ok (Int 0));
  mk_rule (Int 651000, Int 1618999) (fun x => Py.sub x (Int 650000));
  mk_rule (Int 1619000, Int 1619999) (fun x => Ok (Int 969000));
  mk_rule (Int 1620000, Int 1621999) (fun x => Ok (Int 970000));
  mk_rule (Int 1622000, Int 1623999) (fun x => Ok (Int 972000));
  mk_rule (Int 1624000, Int 1627999) (fun x => Ok (Int 974000));
  mk_rule (Int 1628000, Int 1799999) (fun x => rounded_to_4000 (Flt 2.4) x);
  mk_rule (Int 1800000, Int 3599999) (fun x =>
    let! a := rounded_to_4000 (Flt 2.8) x in Py.sub a (Int 180000));
  mk_rule (Int 3600000, Int 6599999) (fun x =>
    let! a := rounded_to_4000 (Flt 3.2) x in Py.sub a (Int 540000));
  mk_rule (Int 6600000, Int 9999999) (fun x =>
    let! a := Py.mul x (Flt 0.9) in Py.sub a (Int 1200000));
  mk_rule (Int 10000000, Int 11999999) (fun x =>
    let! a := Py.mul x (Flt 0.95) in Py.sub a (Int 1700000));
  mk_rule (Int 12000000, Int 10000000000000) (fun x => Py.sub x (Int 2300000))
].

Definition _NATIONAL_INCOME_TAX_TABLE : list bracket := [
  mk_bracket (Int 0, Int 1950000) (Flt 0.05) (Int 0);
  mk_bracket (Int (1950000 + 1), Int 3300000) (Flt 0.1) (Int 97500);
  mk_bracket (Int (3300000 + 1), Int 6950000) (Flt 0.2) (Int 232500);
  mk_bracket (Int (6950000 + 1), Int 9000000) (Flt 0.23) (Int 962500);
  mk_bracket (Int (9000000 + 1), Int 18000000) (Flt 0.33) (Int 1434000);
  mk_bracket (Int (18000000 + 1), Int 40000000) (Flt 0.40) (Int 4404000);
  mk_bracket (Int (40000000 + 1), Flt infinity) (Flt 0.45) (Int 13204000)
].

(** 4 percent prefectural + 6 percent municipal *)
Definition _LOCAL_INCOME_TAX_RATE : num := Flt (0.04 + 0.06).
Definition _HEALTH_INSURANCE_RATE : num := Flt 0.0996.
Definition _SOCIAL_PENSION_RATE : num := Flt 0.183.

(** [__lookup_in_tax_table]: the first entry whose bounds contain the
    value, [ValueError] when there is none. *)
Fixpoint lookup_in_tax_table {R} (bounds_of : R -> num * num)
    (lookup_value : num) (rules : list R) : res R :=
  match rules with
  | [] => Raise (ValueError (is_not_a_valid_income lookup_value))
  | r :: rest =>
      if Py.le (fst (bounds_of r)) lookup_value
         && Py.le lookup_value (snd (bounds_of r))
      then Ok r
      else lookup_in_tax_table bounds_of lookup_value rest
  end.

(** *** Methods.  [today] is what [dt.date.today()] returns. *)

Definition _calculate_current_date (today : date) : M t unit :=
  when (fun self => Ok (is_None (current_date self)))
    (assign set_current_date (fun _ => Ok (Some today))).

Definition _calculate_total_income : M t unit :=
  assign set_total_income (fun self =>
    let! v := Py.add (employment_income self) (other_income self) in
    Ok (Some v)).

Definition _calculate_employment_income_after_rent_program : M t unit :=
  assign set_employment_income_after_rent_program (fun self =>
    let! a := Py.mul (Py.of_bool (is_rent_program self)) (rent self) in
    let! b := Py.mul a _LEGAL_RENT_RATE in
    let! v := Py.sub (employment_income self) b in
    Ok (Some v)).

Definition _calculate_social_security_expense : M t unit :=
  when (fun self => Ok (is_None (social_security_expense self)))
    (assign set_social_security_expense (fun self =>
      let! income := get (employment_income_after_rent_program self) in
      let health_insurance_standard_salary :=
        Py.min income (Int (1390000 * 12)) in
      let! health_insurance_expense :=
        Py.mul health_insurance_standard_salary _HEALTH_INSURANCE_RATE in
      let social_pension_standard_salary :=
        Py.min income (Int (635000 * 12)) in
      let! social_pension_standard_expense :=
        Py.mul social_pension_standard_salary _SOCIAL_PENSION_RATE in
      let! total_expense :=
        Py.add health_insurance_expense social_pension_standard_expense in
      let! half := Py.mul total_expense (Flt 0.5) in
      let! v := Py.int half in
      Ok (Some v))).

Definition _calculate_employment_income_for_tax : M t unit :=
  assign set_employment_income_for_tax (fun self =>
    let! income := get (employment_income_after_rent_program self) in
    let! income_for_tax_rule :=
      lookup_in_tax_table rule_bounds income _EMPLOYMENT_INCOME_FOR_TAX_TABLE in
    let! y := function income_for_tax_rule income in
    let! i := Py.int y in
    Ok (Some (Py.min i income))).

Definition _calculate_employment_income_deduction : M t unit :=
  assign set_employment_income_deduction (fun self =>
    let! a := get (employment_income_after_rent_program self) in
    let! b := get (employment_income_for_tax self) in
    let! v := Py.sub a b in
    Ok (Some v)).

Definition _calculate_total_income_for_tax : M t unit :=
  assign set_total_income_for_tax (fun self =>
    let! a := get (employment_income_for_tax self) in
    let! v := Py.add a (other_income self) in
    Ok (Some v)).

Definition _calculate_deduction_dependents : M t unit :=
  assign set_deduction_dependents (fun self =>
    let! v := Py.mul (number_of_dependents self) _DEDUCTION_PER_DEPENDENT in
    Ok (Some v)).

Definition _calculate_deduction_total : M t unit :=
  assign set_deduction_total (fun self =>
    let! sse := get (social_security_expense self) in
    let! a := Py.add (Py.min (Int 2000000) (medical_expense self)) sse in
    let! b := Py.add a (life_insurance_premium self) in
    let! c := Py.add b _DEDUCTION_BASIC in
    let! dd := get (deduction_dependents self) in
    let! v := Py.add c dd in
    Ok (Some v)).

Definition _calculate_taxable_income : M t unit :=
  assign set_taxable_income (fun self =>
    let! a := get (total_income_for_tax self) in
    let! b := get (deduction_total self) in
    let! d := Py.sub a b in
    Ok (Some (Py.max (Int 0) d))).

Definition _calculate_national_income_tax_bracket : M t unit :=
  assign set_national_income_tax_bracket (fun self =>
    let! ti := get (taxable_income self) in
    let! b := lookup_in_tax_table bounds ti _NATIONAL_INCOME_TAX_TABLE in
    Ok (Some b)).

Definition _calculate_national_income_tax_rate : M t unit :=
  assign set_national_income_tax_rate (fun self =>
    let! b := get (national_income_tax_bracket self) in
    Ok (Some (rate b))).

Definition _calculate_national_income_tax : M t unit :=
  assign set_national_income_tax (fun self =>
    let! ti := get (taxable_income self) in
    let! b := get (national_income_tax_bracket self) in
    let! marginal_income := Py.sub ti (fst (bounds b)) in
    let! marginal_rate := get (national_income_tax_rate self) in
    let! marginal_tax := Py.mul marginal_income marginal_rate in
    let! total_tax := Py.add (previous_brackets_sum b) marginal_tax in
    let! d := get (current_date self) in
    let! total_tax :=
      if date_lt d taxconstants.RESTORATION_TAX_EXPIRY then
        let! k := Py.add (Int 1) taxconstants.RESTORATION_TAX in
        Py.mul total_tax k
      else Ok total_tax in
    let! v := Py.int total_tax in
    Ok (Some v)).

Definition _calculate_local_income_tax : M t unit :=
  assign set_local_income_tax (fun self =>
    let! a := Py.mul (Py.of_bool (is_resident_for_tax_purposes self))
                _LOCAL_INCOME_TAX_RATE in
    let! ti := get (taxable_income self) in
    let! v := Py.mul a ti in
    Ok (Some v)).

Definition _calculate_total_income_tax : M t unit :=
  assign set_total_income_tax (fun self =>
    let! n := get (national_income_tax self) in
    let! l := get (local_income_tax self) in
    let! a := Py.add n l in
    let! total_income_tax := Py.sub a (tax_deduction self) in
    Ok (Some (Py.max (Int 0) total_income_tax))).

Definition _calculate_net_income_after_tax : M t unit :=
  assign set_net_income_after_tax (fun self =>
    let! ti := get (total_income self) in
    let! tax := get (total_income_tax self) in
    let! a := Py.sub ti tax in
    let! sse := get (social_security_expense self) in
    let! v := Py.sub a sse in
    Ok (Some v)).

Definition _calculate_effective_tax_rate : M t unit :=
  assign set_effective_tax_rate (fun self =>
    match total_income self with
    | Some ti =>
        if Py.eq ti (Int 0) then Ok (Some (Int 0))
        else
          let! n := get (net_income_after_tax self) in
          let! q := Py.truediv n ti in
          let! v := Py.sub (Int 1) q in
          Ok (Some v)
    | None => Raise TypeError
    end).

Definition calculate_all_fields (today : date) : M t unit :=
  _calculate_current_date today ;;
  _calculate_total_income ;;
  _calculate_employment_income_after_rent_program ;;
  _calculate_social_security_expense ;;
  _calculate_employment_income_for_tax ;;
  _calculate_employment_income_deduction ;;
  _calculate_total_income_for_tax ;;
  _calculate_deduction_dependents ;;
  _calculate_deduction_total ;;
  _calculate_taxable_income ;;
  _calculate_national_income_tax_bracket ;;
  _calculate_national_income_tax_rate ;;
  _calculate_national_income_tax ;;
  _calculate_local_income_tax ;;
  _calculate_total_income_tax ;;
  _calculate_net_income_after_tax ;;
  _calculate_effective_tax_rate.

(** The state [__init__] builds before it calls [calculate_all_fields]. *)
Definition init_fields
    (employment_income rent : num) (is_rent_program : bool)
    (other_income life_insurance_premium medical_expense
     number_of_dependents : num)
    (social_security_expense : option num) (tax_deduction : num)
    (is_resident_for_tax_purposes : bool) (current_date : option date) : t :=
  mk employment_income rent other_income life_insurance_premium
     medical_expense number_of_dependents is_rent_program
     social_security_expense tax_deduction is_resident_for_tax_purposes
     current_date
     None None None None None None None None None None None None None None
     None.

(** [IncomeTaxCalc()] with every argument at its default. *)
Definition default_fields : t :=
  init_fields (Int 0) (Int 0) false (Int 0) (Int 0) (Int 0) (Int 0) None
    (Int 0) true None.

Definition __init__ (today : date) (fields : t) : res unit * t :=
  calculate_all_fields today fields.

(** The object exists only if [__init__] returns. *)
Definition new (today : date) (fields : t) : res t :=
  let r := __init__ today fields in
  let! _ := outcome r in Ok (final r).

End IncomeTaxCalc.

(** ** realestatecalc.py *)

(** References to [IncomeTaxCalc] objects and the store that holds them. *)
Abbreviation loc := positive (only parsing).
Abbreviation heap := (gmap positive IncomeTaxCalc.t) (only parsing).

(** [[f(x) for x in l]] where [f] may raise *)
Fixpoint res_map {A B} (f : A -> res B) (l : list A) : res (list B) :=
  match l with
  | [] => Ok []
  | x :: l' =>
      let! y := f x in
      let! r := res_map f l' in
      Ok (y :: r)
  end.

Module RealEstateCalc.

(** The attributes of a [RealEstateCalc] object, in the order of
    [__init__]: the arguments, then the derived fields ([None] until they
    are calculated).  [income_tax_calculator] is a reference. *)
Record t : Type := mk {
  purchase_date : option date;
  purchase_price : num;
  building_to_land_ratio : num;
  size : num;
  age : num;
  mortgage_loan_to_value : num;
  bank_valuation_to_actual : num;
  mortgage_tenor : Z;
  mortgage_rate : num;
  mortgage_initiation_fees : num;
  renovation_cost : num;
  agent_fee_variable : num;
  agent_fee_fixed : num;
  other_transaction_fees : num;
  monthly_fees : num;
  property_tax_rate : num;
  maintenance_per_m2 : num;
  useful_life : num;
  calc_year : Z;
  income_tax_calculator : option loc;
  gross_rental_yield : num;
  renewal_income_rate : option num;
  rental_management_rental_fee : option num;
  rental_management_renewal_fee : option num;
  is_primary_residence : Z;
  is_resident_for_tax_purposes : bool;
  sale_price : option num;
  purchase_price_financed : option num;
  mortgage : option Mortgage.t;
  purchase_price_building : option num;
  purchase_price_land : option num;
  purchase_agent_fee : option num;
  purchase_other_transaction_fees : option num;
  purchase_price_and_fees : option num;
  purchase_initial_outlay : option num;
  depreciation_years : option num;
  depreciation_percentage : option num;
  depreciation_annual : option num;
  rental_income : option num;
  renewal_income : option num;
  total_income : option num;
  maintenance_expense : option num;
  monthly_fees_annualized : option num;
  rental_management_renewal_expense : option num;
  rental_management_rental_expense : option num;
  rental_management_total_expense : option num;
  property_tax_expense : option num;
  calc_date : option date;
  total_expense : option num;
  net_income_before_taxes : option num;
  depreciation : option num;
  net_income_taxable : option num;
  home_loan_deduction : option num;
  income_tax : option num;
  income_tax_real_estate : option num;
  net_income_after_taxes : option num;
  cumulative_net_income : option num;
  depreciation_cumulative : option num;
  sale_agent_fee : option num;
  sale_other_transaction_fees : option num;
  depreciated_building_value : option num;
  book_value : option num;
  sale_proceeds_after_fees : option num;
  acquisition_cost : option num;
  capital_gains_tax_primary_residence_deduction : option num;
  capital_gains : option num;
  capital_gains_tax_rate : option num;
  capital_gains_tax : option num;
  sale_proceeds_net : option num;
  net_income_on_realestate : option num
}.

Definition eta (r : t) : t :=
  mk
    (purchase_date r) (purchase_price r) (building_to_land_ratio r)
    (size r) (age r) (mortgage_loan_to_value r)
    (bank_valuation_to_actual r) (mortgage_tenor r) (mortgage_rate r)
    (mortgage_initiation_fees r) (renovation_cost r)
    (agent_fee_variable r) (agent_fee_fixed r) (other_transaction_fees r)
    (monthly_fees r) (property_tax_rate r) (maintenance_per_m2 r)
    (useful_life r) (calc_year r) (income_tax_calculator r)
    (gross_rental_yield r) (renewal_income_rate r)
    (rental_management_rental_fee r) (rental_management_renewal_fee r)
    (is_primary_residence r) (is_resident_for_tax_purposes r)
    (sale_price r) (purchase_price_financed r) (mortgage r)
    (purchase_price_building r) (purchase_price_land r)
    (purchase_agent_fee r) (purchase_other_transaction_fees r)
    (purchase_price_and_fees r) (purchase_initial_outlay r)
    (depreciation_years r) (depreciation_percentage r)
    (depreciation_annual r) (rental_income r) (renewal_income r)
    (total_income r) (maintenance_expense r) (monthly_fees_annualized r)
    (rental_management_renewal_expense r)
    (rental_management_rental_expense r)
    (rental_management_total_expense r) (property_tax_expense r)
    (calc_date r) (total_expense r) (net_income_before_taxes r)
    (depreciation r) (net_income_taxable r) (home_loan_deduction r)
    (income_tax r) (income_tax_real_estate r) (net_income_after_taxes r)
    (cumulative_net_income r) (depreciation_cumulative r)
    (sale_agent_fee r) (sale_other_transaction_fees r)
    (depreciated_building_value r) (book_value r)
    (sale_proceeds_after_fees r) (acquisition_cost r)
    (capital_gains_tax_primary_residence_deduction r) (capital_gains r)
    (capital_gains_tax_rate r) (capital_gains_tax r)
    (sale_proceeds_net r) (net_income_on_realestate r).

Definition set_purchase_date (v : option date) (r : t) : t :=
  ltac:(setter eta purchase_date v r).
Definition set_purchase_price (v : num) (r : t) : t :=
  ltac:(setter eta purchase_price v r).
Definition set_building_to_land_ratio (v : num) (r : t) : t :=
  ltac:(setter eta building_to_land_ratio v r).
Definition set_size (v : num) (r : t) : t :=
  ltac:(setter eta size v r).
Definition set_age (v : num) (r : t) : t :=
  ltac:(setter eta age v r).
Definition set_mortgage_loan_to_value (v : num) (r : t) : t :=
  ltac:(setter eta mortgage_loan_to_value v r).
Definition set_bank_valuation_to_actual (v : num) (r : t) : t :=
  ltac:(setter eta bank_valuation_to_actual v r).
Definition set_mortgage_tenor (v : Z) (r : t) : t :=
  ltac:(setter eta mortgage_tenor v r).
Definition set_mortgage_rate (v : num) (r : t) : t :=
  ltac:(setter eta mortgage_rate v r).
Definition set_mortgage_initiation_fees (v : num) (r : t) : t :=
  ltac:(setter eta mortgage_initiation_fees v r).
Definition set_renovation_cost (v : num) (r : t) : t :=
  ltac:(setter eta renovation_cost v r).
Definition set_agent_fee_variable (v : num) (r : t) : t :=
  ltac:(setter eta agent_fee_variable v r).
Definition set_agent_fee_fixed (v : num) (r : t) : t :=
  ltac:(setter eta agent_fee_fixed v r).
Definition set_other_transaction_fees (v : num) (r : t) : t :=
  ltac:(setter eta other_transaction_fees v r).
Definition set_monthly_fees (v : num) (r : t) : t :=
  ltac:(setter eta monthly_fees v r).
Definition set_property_tax_rate (v : num) (r : t) : t :=
  ltac:(setter eta property_tax_rate v r).
Definition set_maintenance_per_m2 (v : num) (r : t) : t :=
  ltac:(setter eta maintenance_per_m2 v r).
Definition set_useful_life (v : num) (r : t) : t :=
  ltac:(setter eta useful_life v r).
Definition set_calc_year (v : Z) (r : t) : t :=
  ltac:(setter eta calc_year v r).
Definition set_income_tax_calculator (v : option loc) (r : t) : t :=
  ltac:(setter eta income_tax_calculator v r).
Definition set_gross_rental_yield (v : num) (r : t) : t :=
  ltac:(setter eta gross_rental_yield v r).
Definition set_renewal_income_rate (v : option num) (r : t) : t :=
  ltac:(setter eta renewal_income_rate v r).
Definition set_rental_management_rental_fee (v : option num) (r : t) : t :=
  ltac:(setter eta rental_management_rental_fee v r).
Definition set_rental_management_renewal_fee (v : option num) (r : t) : t :=
  ltac:(setter eta rental_management_renewal_fee v r).
Definition set_is_primary_residence (v : Z) (r : t) : t :=
  ltac:(setter eta is_primary_residence v r).
Definition set_is_resident_for_tax_purposes (v : bool) (r : t) : t :=
  ltac:(setter eta is_resident_for_tax_purposes v r).
Definition set_sale_price (v : option num) (r : t) : t :=
  ltac:(setter eta sale_price v r).
Definition set_purchase_price_financed (v : option num) (r : t) : t :=
  ltac:(setter eta purchase_price_financed v r).
Definition set_mortgage (v : option Mortgage.t) (r : t) : t :=
  ltac:(setter eta mortgage v r).
Definition set_purchase_price_building (v : option num) (r : t) : t :=
  ltac:(setter eta purchase_price_building v r).
Definition set_purchase_price_land (v : option num) (r : t) : t :=
  ltac:(setter eta purchase_price_land v r).
Definition set_purchase_agent_fee (v : option num) (r : t) : t :=
  ltac:(setter eta purchase_agent_fee v r).
Definition set_purchase_other_transaction_fees (v : option num) (r : t) : t :=
  ltac:(setter eta purchase_other_transaction_fees v r).
Definition set_purchase_price_and_fees (v : option num) (r : t) : t :=
  ltac:(setter eta purchase_price_and_fees v r).
Definition set_purchase_initial_outlay (v : option num) (r : t) : t :=
  ltac:(setter eta purchase_initial_outlay v r).
Definition set_depreciation_years (v : option num) (r : t) : t :=
  ltac:(setter eta depreciation_years v r).
Definition set_depreciation_percentage (v : option num) (r : t) : t :=
  ltac:(setter eta depreciation_percentage v r).
Definition set_depreciation_annual (v : option num) (r : t) : t :=
  ltac:(setter eta depreciation_annual v r).
Definition set_rental_income (v : option num) (r : t) : t :=
  ltac:(setter eta rental_income v r).
Definition set_renewal_income (v : option num) (r : t) : t :=
  ltac:(setter eta renewal_income v r).
Definition set_total_income (v : option num) (r : t) : t :=
  ltac:(setter eta total_income v r).
Definition set_maintenance_expense (v : option num) (r : t) : t :=
  ltac:(setter eta maintenance_expense v r).
Definition set_monthly_fees_annualized (v : option num) (r : t) : t :=
  ltac:(setter eta monthly_fees_annualized v r).
Definition set_rental_management_renewal_expense (v : option num) (r : t) : t :=
  ltac:(setter eta rental_management_renewal_expense v r).
Definition set_rental_management_rental_expense (v : option num) (r : t) : t :=
  ltac:(setter eta rental_management_rental_expense v r).
Definition set_rental_management_total_expense (v : option num) (r : t) : t :=
  ltac:(setter eta rental_management_total_expense v r).
Definition set_property_tax_expense (v : option num) (r : t) : t :=
  ltac:(setter eta property_tax_expense v r).
Definition set_calc_date (v : option date) (r : t) : t :=
  ltac:(setter eta calc_date v r).
Definition set_total_expense (v : option num) (r : t) : t :=
  ltac:(setter eta total_expense v r).
Definition set_net_income_before_taxes (v : option num) (r : t) : t :=
  ltac:(setter eta net_income_before_taxes v r).
Definition set_depreciation (v : option num) (r : t) : t :=
  ltac:(setter eta depreciation v r).
Definition set_net_income_taxable (v : option num) (r : t) : t :=
  ltac:(setter eta net_income_taxable v r).
Definition set_home_loan_deduction (v : option num) (r : t) : t :=
  ltac:(setter eta home_loan_deduction v r).
Definition set_income_tax (v : option num) (r : t) : t :=
  ltac:(setter eta income_tax v r).
Definition set_income_tax_real_estate (v : option num) (r : t) : t :=
  ltac:(setter eta income_tax_real_estate v r).
Definition set_net_income_after_taxes (v : option num) (r : t) : t :=
  ltac:(setter eta net_income_after_taxes v r).
Definition set_cumulative_net_income (v : option num) (r : t) : t :=
  ltac:(setter eta cumulative_net_income v r).
Definition set_depreciation_cumulative (v : option num) (r : t) : t :=
  ltac:(setter eta depreciation_cumulative v r).
Definition set_sale_agent_fee (v : option num) (r : t) : t :=
  ltac:(setter eta sale_agent_fee v r).
Definition set_sale_other_transaction_fees (v : option num) (r : t) : t :=
  ltac:(setter eta sale_other_transaction_fees v r).
Definition set_depreciated_building_value (v : option num) (r : t) : t :=
  ltac:(setter eta depreciated_building_value v r).
Definition set_book_value (v : option num) (r : t) : t :=
  ltac:(setter eta book_value v r).
Definition set_sale_proceeds_after_fees (v : option num) (r : t) : t :=
  ltac:(setter eta sale_proceeds_after_fees v r).
Definition set_acquisition_cost (v : option num) (r : t) : t :=
  ltac:(setter eta acquisition_cost v r).
Definition set_capital_gains_tax_primary_residence_deduction (v : option num) (r : t) : t :=
  ltac:(setter eta capital_gains_tax_primary_residence_deduction v r).
Definition set_capital_gains (v : option num) (r : t) : t :=
  ltac:(setter eta capital_gains v r).
Definition set_capital_gains_tax_rate (v : option num) (r : t) : t :=
  ltac:(setter eta capital_gains_tax_rate v r).
Definition set_capital_gains_tax (v : option num) (r : t) : t :=
  ltac:(setter eta capital_gains_tax v r).
Definition set_sale_proceeds_net (v : option num) (r : t) : t :=
  ltac:(setter eta sale_proceeds_net v r).
Definition set_net_income_on_realestate (v : option num) (r : t) : t :=
  ltac:(setter eta net_income_on_realestate v r).

(** A method of [RealEstateCalc] runs on [self] and the store. *)
Abbreviation world := (t * gmap positive IncomeTaxCalc.t)%type (only parsing).

(** A method that only touches [self]. *)
Definition on_self {A} (m : M t A) : M world A :=
  fun w => let (r, s) := m (fst w) in (r, (s, snd w)).

(** [self.x = e] where [e] also reads objects of the store. *)
Definition assign_w {V} (set : V -> t -> t)
    (e : t -> gmap positive IncomeTaxCalc.t -> res V) : M world unit :=
  fun w =>
    match e (fst w) (snd w) with
    | Ok v => (Ok tt, (set v (fst w), snd w))
    | Raise x => (Raise x, w)
    end.

(** The object a reference points to. *)
Definition deref (l : loc) (h : heap) : res IncomeTaxCalc.t :=
  match h !! l with
  | Some c => Ok c
  | None => Raise ModelStuck
  end.

(** [copy.deepcopy(c)] of an [IncomeTaxCalc]: a new object with the
    same attribute values. *)
Definition deepcopy_calc (l : loc) : M world loc :=
  fun w =>
    match snd w !! l with
    | Some c =>
        let l' := fresh (dom (snd w)) in
        (Ok l', (fst w, <[l' := c]> (snd w)))
    | None => (Raise ModelStuck, w)
    end.

(** [copy.deepcopy(self)]: a new [RealEstateCalc] with the same attribute
    values, whose tax calculator is a deep copy too. *)
Definition deepcopy_self : M world t :=
  fun w =>
    match income_tax_calculator (fst w) with
    | None => (Ok (fst w), w)
    | Some l =>
        match deepcopy_calc l w with
        | (Ok l', w') => (Ok (set_income_tax_calculator (Some l') (fst w)), w')
        | (Raise e, w') => (Raise e, w')
        end
    end.

(** Run a statement on the [IncomeTaxCalc] object at [l]; the statement
    may read [self]. *)
Definition on_object {A} (l : loc) (m : t -> M IncomeTaxCalc.t A) : M world A :=
  fun w =>
    match snd w !! l with
    | Some c =>
        let (r, c') := m (fst w) c in
        (r, (fst w, <[l := c']> (snd w)))
    | None => (Raise ModelStuck, w)
    end.

(** Run a method on another [RealEstateCalc] object, held in a local
    variable; the updated object is returned. *)
Definition on_other (other : t) (m : M world unit) : M world t :=
  fun w =>
    match m (other, snd w) with
    | (Ok _, (other', h')) => (Ok other', (fst w, h'))
    | (Raise e, (_, h')) => (Raise e, (fst w, h'))
    end.

(** *** Real estate specific constants *)

Definition _RENEWAL_INCOME_RATE_DEFAULT : res num := Py.truediv (Int 1) (Int 24).
Definition _RENTAL_MANAGEMENT_FEE_DEFAULT : num := Flt 0.05.
(** [(1 / 24 + 0.5 / 24) / 2] *)
Definition _RENTAL_MANAGEMENT_RENEWAL_DEFAULT : res num :=
  let! a := Py.truediv (Int 1) (Int 24) in
  let! b := Py.truediv (Flt 0.5) (Int 24) in
  let! c := Py.add a b in
  Py.truediv c (Int 2).
Definition _DEPRECIATION_AGE_FACTOR_IF_SECOND_HAND : num := Flt 0.8.
Definition _CAPITAL_GAINS_TAX_SHORT_NATIONAL : num := Flt 0.30.
Definition _CAPITAL_GAINS_TAX_SHORT_MUNICIPAL : num := Flt 0.09.
Definition _CAPITAL_GAINS_TAX_LONG_NATIONAL : num := Flt 0.15.
Definition _CAPITAL_GAINS_TAX_LONG_MUNICIPAL : num := Flt 0.05.
Definition _CAPITAL_GAINS_TAX_PRIMARY_RESIDENCE_DEDUCTION : Z := 30000000.

(** [1 + taxconstants.CONSUMPTION_TAX] *)
Definition one_plus_consumption_tax : res num :=
  Py.add (Int 1) taxconstants.CONSUMPTION_TAX.

(** [self.mortgage is not None and self.calc_year < self.mortgage.tenor] *)
Definition mortgage_is_active (self : t) : bool :=
  match mortgage self with
  | Some m => calc_year self <? Mortgage.tenor m
  | None => false
  end.

Section Methods.
Context `{NumPy}.

(** **** Default inputs *)

Definition _calculate_purchase_date (today : date) : M t unit :=
  when (fun self => Ok (is_None (purchase_date self)))
    (assign set_purchase_date (fun _ => Ok (Some today))).

Definition _calculate_renewal_income_rate : M t unit :=
  when (fun self => Ok (is_None (renewal_income_rate self)))
    (assign set_renewal_income_rate (fun _ =>
      let! v := _RENEWAL_INCOME_RATE_DEFAULT in Ok (Some v))).

Definition _calculate_rental_management_rental_fee : M t unit :=
  when (fun self => Ok (is_None (rental_management_rental_fee self)))
    (assign set_rental_management_rental_fee (fun _ =>
      Ok (Some _RENTAL_MANAGEMENT_FEE_DEFAULT))).

Definition _calculate_rental_management_renewal_fee : M t unit :=
  when (fun self => Ok (is_None (rental_management_renewal_fee self)))
    (assign set_rental_management_renewal_fee (fun _ =>
      let! v := _RENTAL_MANAGEMENT_RENEWAL_DEFAULT in Ok (Some v))).

(** **** Acquisition derived fields *)

Definition _calculate_purchase_price_financed : M t unit :=
  assign set_purchase_price_financed (fun self =>
    let! a := Py.mul (purchase_price self) (bank_valuation_to_actual self) in
    let! b := Py.mul a (mortgage_loan_to_value self) in
    let! v := Py.int b in
    Ok (Some v)).

Definition _calculate_mortgage : M t unit :=
  when (fun self =>
          let! p := get (purchase_price_financed self) in
          Ok (Py.gt p (Int 0)))
    (assign set_mortgage (fun self =>
      let! p := get (purchase_price_financed self) in
      let! m := Mortgage.new p (mortgage_tenor self) (mortgage_rate self) in
      Ok (Some m))).

Definition _calculate_purchase_price_building : M t unit :=
  assign set_purchase_price_building (fun self =>
    let! a := Py.mul (purchase_price self) (building_to_land_ratio self) in
    let! v := Py.int a in
    Ok (Some v)) ;;
  when (fun self => Ok (Py.eq (age self) (Int 0)))
    (assign set_purchase_price_building (fun self =>
      let! b := get (purchase_price_building self) in
      let! k := one_plus_consumption_tax in
      let! v := Py.mul b k in
      Ok (Some v))).

Definition _calculate_purchase_price_land : M t unit :=
  assign set_purchase_price_land (fun self =>
    let! b := get (purchase_price_building self) in
    let! v := Py.sub (purchase_price self) b in
    Ok (Some v)).

Definition _calculate_purchase_agent_fee : M t unit :=
  assign set_purchase_agent_fee (fun self =>
    let! a := Py.mul (purchase_price self) (agent_fee_variable self) in
    let! b := Py.add a (agent_fee_fixed self) in
    let! k := one_plus_consumption_tax in
    let! c := Py.mul b k in
    let! v := Py.int c in
    Ok (Some v)).

Definition _calculate_purchase_other_transaction_fees : M t unit :=
  assign set_purchase_other_transaction_fees (fun self =>
    let! a := Py.mul (purchase_price self) (other_transaction_fees self) in
    let! v := Py.int a in
    Ok (Some v)).

Definition _calculate_purchase_price_and_fees : M t unit :=
  assign set_purchase_price_and_fees (fun self =>
    let! f1 := get (purchase_agent_fee self) in
    let! a := Py.add (purchase_price self) f1 in
    let! f2 := get (purchase_other_transaction_fees self) in
    let! b := Py.add a f2 in
    let! c := Py.add b (mortgage_initiation_fees self) in
    let! d := Py.add c (renovation_cost self) in
    let! v := Py.int d in
    Ok (Some v)).

Definition _calculate_purchase_initial_outlay : M t unit :=
  assign set_purchase_initial_outlay (fun self =>
    let! a := get (purchase_price_and_fees self) in
    let! b := get (purchase_price_financed self) in
    let! v := Py.sub a b in
    Ok (Some v)).

(** **** Ongoing derived fields *)

Definition _calculate_depreciation_years : M t unit :=
  ifelse (fun self => Ok (Py.eq (age self) (Int 0)))
    (assign set_depreciation_years (fun self => Ok (Some (useful_life self))))
    (assign set_depreciation_years (fun self =>
      let! age_for_depreciation :=
        Py.mul (Py.min (useful_life self) (age self))
          _DEPRECIATION_AGE_FACTOR_IF_SECOND_HAND in
      let! a := Py.sub (useful_life self) age_for_depreciation in
      let! v := Py.int a in
      Ok (Some v))).

Definition _calculate_depreciation_percentage : M t unit :=
  assign set_depreciation_percentage (fun self =>
    match depreciation_years self with
    | Some y =>
        if Py.eq y (Int 0) then Ok (Some (Int 0))
        else let! v := Py.truediv (Int 1) y in Ok (Some v)
    | None => Raise TypeError
    end).

Definition _calculate_depreciation_annual : M t unit :=
  assign set_depreciation_annual (fun self =>
    let! b := get (purchase_price_building self) in
    let! p := get (depreciation_percentage self) in
    let! a := Py.mul b p in
    let! v := Py.int a in
    Ok (Some v)).

Definition _calculate_rental_income : M t unit :=
  assign set_rental_income (fun self =>
    let! a := Py.mul (purchase_price self) (gross_rental_yield self) in
    let! v := Py.int a in
    Ok (Some v)).

Definition _calculate_renewal_income : M t unit :=
  assign set_renewal_income (fun self =>
    let! r := get (renewal_income_rate self) in
    let! i := get (rental_income self) in
    let! a := Py.mul r i in
    let! v := Py.int a in
    Ok (Some v)).

Definition _calculate_total_income : M t unit :=
  assign set_total_income (fun self =>
    let! a := get (rental_income self) in
    let! b := get (renewal_income self) in
    let! c := Py.add a b in
    let! v := Py.int c in
    Ok (Some v)).

Definition _calculate_maintenance_expense : M t unit :=
  assign set_maintenance_expense (fun self =>
    let! a := Py.mul (maintenance_per_m2 self) (size self) in
    let! v := Py.int a in
    Ok (Some v)).

Definition _calculate_monthly_fees_annualized : M t unit :=
  assign set_monthly_fees_annualized (fun self =>
    let! v := Py.mul (monthly_fees self) (Int 12) in
    Ok (Some v)).

Definition _calculate_rental_management_renewal_expense : M t unit :=
  assign set_rental_management_renewal_expense (fun self =>
    let! i := get (rental_income self) in
    let! f := get (rental_management_renewal_fee self) in
    let! a := Py.mul i f in
    let! k := one_plus_consumption_tax in
    let! b := Py.mul a k in
    let! v := Py.int b in
    Ok (Some v)).

Definition _calculate_rental_management_rental_expense : M t unit :=
  assign set_rental_management_rental_expense (fun self =>
    let! i := get (rental_income self) in
    let! f := get (rental_management_rental_fee self) in
    let! a := Py.mul i f in
    let! k := one_plus_consumption_tax in
    let! b := Py.mul a k in
    let! v := Py.int b in
    Ok (Some v)).

Definition _calculate_rental_management_total_expense : M t unit :=
  assign set_rental_management_total_expense (fun self =>
    let! a := get (rental_management_renewal_expense self) in
    let! b := get (rental_management_rental_expense self) in
    let! c := Py.add a b in
    let! v := Py.int c in
    Ok (Some v)).

Definition _calculate_property_tax_expense : M t unit :=
  assign set_property_tax_expense (fun self =>
    let! a := Py.mul (purchase_price self) (property_tax_rate self) in
    let! v := Py.int a in
    Ok (Some v)).

Definition _calculate_calc_date : M t unit :=
  assign set_calc_date (fun self =>
    let! d := get (purchase_date self) in
    let! v := date_add_years d (calc_year self) in
    Ok (Some v)).

Definition _calculate_total_expense : M t unit :=
  assign set_total_expense (fun self =>
    let! a := get (maintenance_expense self) in
    let! b := get (monthly_fees_annualized self) in
    let! ab := Py.add a b in
    let! c := get (rental_management_total_expense self) in
    let! abc := Py.add ab c in
    let! d := get (property_tax_expense self) in
    let! abcd := Py.add abc d in
    let! v := Py.int abcd in
    Ok (Some v)) ;;
  when (fun self => Ok (mortgage_is_active self))
    (assign set_total_expense (fun self =>
      let! e := get (total_expense self) in
      let! m := get (mortgage self) in
      let! p := get (Mortgage.monthly_payment m) in
      let! a := Py.mul p (Int 12) in
      let! i := Py.int a in
      let! v := Py.add e i in
      Ok (Some v))).

Definition _calculate_net_income_before_taxes : M t unit :=
  assign set_net_income_before_taxes (fun self =>
    let! a := get (total_income self) in
    let! b := get (total_expense self) in
    let! v := Py.sub a b in
    Ok (Some v)).

(** The value may be [None] (an attribute not calculated yet). *)
Definition depreciation_for_year (year : Z) (self : t) : res (option num) :=
  let! y := get (depreciation_years self) in
  if Py.lt (Int year) y then Ok (depreciation_annual self)
  else Ok (Some (Int 0)).

Definition _calculate_depreciation : M t unit :=
  assign set_depreciation (fun self =>
    depreciation_for_year (calc_year self) self).

Definition _calculate_net_income_taxable : M t unit :=
  ifelse (fun self => Ok (negb (is_primary_residence self =? 0)))
    (assign set_net_income_taxable (fun _ => Ok (Some (Int 0))))
    (assign set_net_income_taxable (fun self =>
       let! a := get (total_income self) in
       let! b := get (total_expense self) in
       let! ab := Py.sub a b in
       let! d := get (depreciation self) in
       let! v := Py.sub ab d in
       Ok (Some v)) ;;
     when (fun self => Ok (mortgage_is_active self))
       (assign set_net_income_taxable (fun self =>
         let month := calc_year self * 12 in
         let! m := get (mortgage self) in
         let! schedule := get (Mortgage.interest_schedule m) in
         let interest_payments :=
           Py.slice_to 12 (Py.slice_from month schedule) in
         let! s := Py.sum interest_payments in
         let! interest_payment_for_year := Py.int s in
         let! n := get (net_income_taxable self) in
         let! v := Py.sub n interest_payment_for_year in
         Ok (Some v)))).

Definition is_qualified_for_deduction (self : t) (h : heap) : res bool :=
  if negb (negb (is_primary_residence self =? 0)
           && (calc_year self <? 10)
           && Py.gt (size self) (Int 50)
           && mortgage_is_active self)
  then Ok false
  else
    match income_tax_calculator self with
    | None => Ok false
    | Some l =>
        let! c := deref l h in
        let! ti := get (IncomeTaxCalc.taxable_income c) in
        Ok (Py.lt ti (Int 30000000))
    end.

Definition _calculate_home_loan_deduction : M world unit :=
  on_self (assign set_home_loan_deduction (fun _ => Ok (Some (Int 0)))) ;;
  let* qualified :=
    (fun w => (is_qualified_for_deduction (fst w) (snd w), w)) in
  if qualified : bool then
    on_self (
      ifelse (fun self => Ok (Py.eq (age self) (Int 0)))
        (assign set_home_loan_deduction (fun _ => Ok (Some (Int 400000))))
        (assign set_home_loan_deduction (fun _ => Ok (Some (Int 200000)))) ;;
      assign set_home_loan_deduction (fun self =>
        let month := calc_year self * 12 in
        let! m := get (mortgage self) in
        let! schedule := get (Mortgage.amortization_schedule m) in
        let! remaining_loan_balance :=
          Py.sum (Py.slice_from month schedule) in
        let! d := get (home_loan_deduction self) in
        let! v := Py.int (Py.min d remaining_loan_balance) in
        Ok (Some v)))
  else ret tt.

Definition _calculate_income_tax (today : date) : M world unit :=
  on_self (assign set_income_tax (fun _ => Ok (Some (Int 0)))) ;;
  let* calculator := on_self (eval (fun self => Ok (income_tax_calculator self))) in
  match calculator with
  | None => ret tt
  | Some l =>
      let* copied_calc := deepcopy_calc l in
      on_object copied_calc (fun self =>
        assign IncomeTaxCalc.set_current_date (fun _ => Ok (calc_date self))) ;;
      on_object copied_calc (fun self =>
        assign IncomeTaxCalc.set_other_income (fun c =>
          let! n := get (net_income_taxable self) in
          Py.add (IncomeTaxCalc.other_income c) n)) ;;
      on_object copied_calc (fun self =>
        assign IncomeTaxCalc.set_tax_deduction (fun c =>
          let! d := get (home_loan_deduction self) in
          Py.add (IncomeTaxCalc.tax_deduction c) d)) ;;
      on_object copied_calc (fun _ => IncomeTaxCalc.calculate_all_fields today) ;;
      assign_w set_income_tax (fun _ h =>
        let! c := deref copied_calc h in
        Ok (IncomeTaxCalc.total_income_tax c))
  end.

Definition _calculate_income_tax_real_estate : M world unit :=
  on_self (assign set_income_tax_real_estate (fun _ => Ok (Some (Int 0)))) ;;
  let* calculator := on_self (eval (fun self => Ok (income_tax_calculator self))) in
  match calculator with
  | None => ret tt
  | Some l =>
      assign_w set_income_tax_real_estate (fun self h =>
        let! tax := get (income_tax self) in
        let! c := deref l h in
        let! base := get (IncomeTaxCalc.total_income_tax c) in
        let! d := Py.sub tax base in
        Ok (Some (Py.max (Int 0) d)))
  end.

Definition _calculate_net_income_after_taxes : M t unit :=
  assign set_net_income_after_taxes (fun self =>
    let! a := get (net_income_before_taxes self) in
    let! b := get (income_tax_real_estate self) in
    let! v := Py.sub a b in
    Ok (Some v)).

(** [calculate_all_fields] is the method this one calls on the copy. *)
Definition _calculate_cumulative_net_income
    (calculate_all_fields : M world unit) : M world unit :=
  let* first_year := on_self (eval (fun self => Ok (calc_year self <? 0))) in
  if first_year : bool then
    on_self (assign set_cumulative_net_income (fun _ => Ok (Some (Int 0))))
  else
    on_self (assign set_cumulative_net_income (fun self =>
      Ok (net_income_after_taxes self))) ;;
    let* copy_of_self := deepcopy_self in
    let copy_of_self :=
      set_calc_year (calc_year copy_of_self - 1) copy_of_self in
    let* copy_of_self := on_other copy_of_self calculate_all_fields in
    on_self (assign set_cumulative_net_income (fun self =>
      let! a := get (cumulative_net_income self) in
      let! b := get (cumulative_net_income copy_of_self) in
      let! v := Py.add a b in
      Ok (Some v))).

(** **** Disposal derived fields *)

Definition _calculate_depreciation_cumulative : M t unit :=
  assign set_depreciation_cumulative (fun self =>
    let years_until_calc_year := Py.range 0 (calc_year self + 1) in
    let! depreciation_per_year :=
      res_map (fun x => depreciation_for_year x self) years_until_calc_year in
    let! v :=
      fold_left (fun acc d =>
          let! a := acc in let! x := get d in Py.add a x)
        depreciation_per_year (Ok (Int 0)) in
    Ok (Some v)).

Definition _calculate_depreciated_building_value : M t unit :=
  assign set_depreciated_building_value (fun self =>
    let! a := get (purchase_price_building self) in
    let! b := get (depreciation_cumulative self) in
    let! v := Py.sub a b in
    Ok (Some v)).

Definition _calculate_book_value : M t unit :=
  assign set_book_value (fun self =>
    let! a := get (purchase_price_land self) in
    let! b := get (depreciated_building_value self) in
    let! v := Py.add a b in
    Ok (Some v)).

Definition _calculate_sale_price : M t unit :=
  when (fun self => Ok (is_None (sale_price self)))
    (assign set_sale_price (fun self => Ok (book_value self))).

Definition _calculate_sale_agent_fee : M t unit :=
  assign set_sale_agent_fee (fun self =>
    let! p := get (sale_price self) in
    let! a := Py.mul p (agent_fee_variable self) in
    let! b := Py.add a (agent_fee_fixed self) in
    let! k := one_plus_consumption_tax in
    let! c := Py.mul b k in
    let! v := Py.int c in
    Ok (Some v)).

Definition _calculate_sale_other_transaction_fees : M t unit :=
  assign set_sale_other_transaction_fees (fun self =>
    let! p := get (sale_price self) in
    let! a := Py.mul p (other_transaction_fees self) in
    let! v := Py.int a in
    Ok (Some v)).

Definition _calculate_sale_proceeds_after_fees : M t unit :=
  assign set_sale_proceeds_after_fees (fun self =>
    let! p := get (sale_price self) in
    let! f1 := get (sale_agent_fee self) in
    let! a := Py.sub p f1 in
    let! f2 := get (sale_other_transaction_fees self) in
    let! v := Py.sub a f2 in
    Ok (Some v)).

Definition _calculate_acquisition_cost : M t unit :=
  assign set_acquisition_cost (fun self =>
    let! f1 := get (purchase_agent_fee self) in
    let! a := Py.add (purchase_price self) f1 in
    let! f2 := get (purchase_other_transaction_fees self) in
    let! v := Py.add a f2 in
    Ok (Some v)).

Definition _calculate_capital_gains_tax_primary_residence_deduction : M t unit :=
  assign set_capital_gains_tax_primary_residence_deduction (fun self =>
    let code := is_primary_residence self in
    if (code =? 0) || (code =? 1) || (code =? 2) then
      Ok (Some (Int (_CAPITAL_GAINS_TAX_PRIMARY_RESIDENCE_DEDUCTION * code)))
    else
      Raise (ValueError (is_not_a_valid_value_for_is_primary_residence code))).

Definition _calculate_capital_gains : M t unit :=
  assign set_capital_gains (fun self =>
    let! p := get (sale_proceeds_after_fees self) in
    let! c := get (acquisition_cost self) in
    let! d := get (depreciation_cumulative self) in
    let! basis := Py.sub c d in
    let! g := Py.sub p basis in
    Ok (Some (Py.max (Int 0) g))).

(** [self.capital_gains_tax_rate += k] *)
Definition add_to_capital_gains_tax_rate (k : num) : M t unit :=
  assign set_capital_gains_tax_rate (fun self =>
    let! r := get (capital_gains_tax_rate self) in
    let! v := Py.add r k in
    Ok (Some v)).

Definition _calculate_capital_gains_tax_rate : M t unit :=
  ifelse (fun self => Ok (calc_year self <? 5))
    (assign set_capital_gains_tax_rate (fun _ =>
       Ok (Some _CAPITAL_GAINS_TAX_SHORT_NATIONAL)) ;;
     when (fun self => Ok (is_resident_for_tax_purposes self))
       (add_to_capital_gains_tax_rate _CAPITAL_GAINS_TAX_SHORT_MUNICIPAL))
    (assign set_capital_gains_tax_rate (fun _ =>
       Ok (Some _CAPITAL_GAINS_TAX_LONG_NATIONAL)) ;;
     when (fun self => Ok (is_resident_for_tax_purposes self))
       (add_to_capital_gains_tax_rate _CAPITAL_GAINS_TAX_LONG_MUNICIPAL)) ;;
  when (fun self =>
          let! d := get (calc_date self) in
          Ok (date_lt d taxconstants.RESTORATION_TAX_EXPIRY))
    (assign set_capital_gains_tax_rate (fun self =>
      let! r := get (capital_gains_tax_rate self) in
      let! k := Py.add (Int 1) taxconstants.RESTORATION_TAX in
      let! v := Py.mul r k in
      Ok (Some v))).

Definition _calculate_capital_gains_tax : M t unit :=
  assign set_capital_gains_tax (fun self =>
    let! g := get (capital_gains self) in
    let! r := get (capital_gains_tax_rate self) in
    let! a := Py.mul g r in
    let! d := get (capital_gains_tax_primary_residence_deduction self) in
    let! b := Py.sub a d in
    let! i := Py.int b in
    Ok (Some (Py.max (Int 0) i))).

Definition _calculate_sale_proceeds_net : M t unit :=
  assign set_sale_proceeds_net (fun self =>
    let! a := get (sale_proceeds_after_fees self) in
    let! b := get (capital_gains_tax self) in
    let! v := Py.sub a b in
    Ok (Some v)).

Definition _calculate_net_income_on_realestate : M t unit :=
  assign set_net_income_on_realestate (fun self =>
    let! a := get (sale_proceeds_net self) in
    let! b := get (cumulative_net_income self) in
    let! ab := Py.add a b in
    let! c := get (purchase_price_and_fees self) in
    let! v := Py.sub ab c in
    Ok (Some v)).

(** **** [calculate_all_fields]

    [self_call] is [calculate_all_fields] itself, as
    [_calculate_cumulative_net_income] calls it on the copy. *)
Definition calculate_all_fields_body (today : date)
    (self_call : M world unit) : M world unit :=
  (* Default inputs *)
  on_self (_calculate_purchase_date today) ;;
  on_self _calculate_renewal_income_rate ;;
  on_self _calculate_rental_management_rental_fee ;;
  on_self _calculate_rental_management_renewal_fee ;;
  (* Acquisition derived fields *)
  on_self _calculate_purchase_price_financed ;;
  on_self _calculate_mortgage ;;
  on_self _calculate_purchase_price_building ;;
  on_self _calculate_purchase_price_land ;;
  on_self _calculate_purchase_agent_fee ;;
  on_self _calculate_purchase_other_transaction_fees ;;
  on_self _calculate_purchase_price_and_fees ;;
  on_self _calculate_purchase_initial_outlay ;;
  (* Ongoing derived fields *)
  on_self _calculate_depreciation_years ;;
  on_self _calculate_depreciation_percentage ;;
  on_self _calculate_depreciation_annual ;;
  on_self _calculate_rental_income ;;
  on_self _calculate_renewal_income ;;
  on_self _calculate_total_income ;;
  on_self _calculate_maintenance_expense ;;
  on_self _calculate_monthly_fees_annualized ;;
  on_self _calculate_rental_management_renewal_expense ;;
  on_self _calculate_rental_management_rental_expense ;;
  on_self _calculate_rental_management_total_expense ;;
  on_self _calculate_property_tax_expense ;;
  on_self _calculate_total_expense ;;
  on_self _calculate_depreciation ;;
  on_self _calculate_calc_date ;;
  on_self _calculate_net_income_before_taxes ;;
  on_self _calculate_net_income_taxable ;;
  _calculate_home_loan_deduction ;;
  _calculate_income_tax today ;;
  _calculate_income_tax_real_estate ;;
  on_self _calculate_net_income_after_taxes ;;
  _calculate_cumulative_net_income self_call ;;
  (* Disposal derived fields *)
  on_self _calculate_depreciation_cumulative ;;
  on_self _calculate_sale_agent_fee ;;
  on_self _calculate_sale_other_transaction_fees ;;
  on_self _calculate_depreciated_building_value ;;
  on_self _calculate_book_value ;;
  on_self _calculate_sale_proceeds_after_fees ;;
  on_self _calculate_acquisition_cost ;;
  on_self _calculate_capital_gains_tax_primary_residence_deduction ;;
  on_self _calculate_capital_gains ;;
  on_self _calculate_capital_gains_tax_rate ;;
  on_self _calculate_capital_gains_tax ;;
  on_self _calculate_sale_proceeds_net ;;
  on_self _calculate_net_income_on_realestate.

(** The recursion goes from [calc_year] down to -1, so [calc_year + 1]
    nested calls are enough; [depth] counts them. *)
Fixpoint calculate_all_fields_rec (depth : nat) (today : date) : M world unit :=
  calculate_all_fields_body today
    match depth with
    | O => fun w => (Raise ModelStuck, w)
    | S depth' => calculate_all_fields_rec depth' today
    end.

Definition calculate_all_fields (today : date) : M world unit :=
  fun w =>
    calculate_all_fields_rec (Z.to_nat (calc_year (fst w) + 1)) today w.

End Methods.

(** The state [__init__] builds before it calls [calculate_all_fields]. *)
Definition init_fields
    (purchase_date : option date)
    (purchase_price building_to_land_ratio size age mortgage_loan_to_value
     bank_valuation_to_actual : num)
    (mortgage_tenor : Z)
    (mortgage_rate mortgage_initiation_fees renovation_cost
     agent_fee_variable agent_fee_fixed other_transaction_fees
     monthly_fees property_tax_rate maintenance_per_m2 useful_life : num)
    (calc_year : Z) (income_tax_calculator : option loc)
    (gross_rental_yield : num)
    (renewal_income_rate rental_management_rental_fee
     rental_management_renewal_fee : option num)
    (is_primary_residence : Z) (is_resident_for_tax_purposes : bool)
    (sale_price : option num) : t :=
  mk purchase_date purchase_price building_to_land_ratio size age
     mortgage_loan_to_value bank_valuation_to_actual mortgage_tenor
     mortgage_rate mortgage_initiation_fees renovation_cost
     agent_fee_variable agent_fee_fixed other_transaction_fees
     monthly_fees property_tax_rate maintenance_per_m2 useful_life
     calc_year income_tax_calculator gross_rental_yield
     renewal_income_rate rental_management_rental_fee
     rental_management_renewal_fee is_primary_residence
     is_resident_for_tax_purposes sale_price
     None None None None None None None None None None None None None
     None None None None None None None None None None None None None
     None None None None None None None None None None None None None
     None None None None.

(** [RealEstateCalc()] with every argument at its default. *)
Definition default_fields : t :=
  init_fields None (Int 0) (Flt 0.7) (Int 0) (Int 0) (Int 0) (Int 1) 0
    (Int 0) (Int 0) (Int 0) (Int 0) (Int 0) (Int 0) (Int 0) (Int 0)
    (Int 1000) (Int 47) 0 None (Int 0) None None None 0 false
    (Some (Int 0)).

Definition __init__ `{NumPy} (today : date) (fields : t) (h : heap)
    : res unit * world :=
  calculate_all_fields today (fields, h).

End RealEstateCalc.

(** ** What a recomputation depends on

    [forget k calculator r] keeps the arguments of [r], its mortgage and
    the derived fields written by the first [k] methods of
    [calculate_all_fields], empties the other derived fields and replaces
    the reference to the tax calculator. *)

Definition kept {A} (k i : nat) (o : option A) : option A :=
  if (i <=? k)%nat then o else None.

Definition forget (k : nat) (calculator : option loc)
    (r : RealEstateCalc.t) : RealEstateCalc.t :=
  RealEstateCalc.mk
    (RealEstateCalc.purchase_date r) (RealEstateCalc.purchase_price r) (RealEstateCalc.building_to_land_ratio r)
    (RealEstateCalc.size r) (RealEstateCalc.age r) (RealEstateCalc.mortgage_loan_to_value r)
    (RealEstateCalc.bank_valuation_to_actual r) (RealEstateCalc.mortgage_tenor r) (RealEstateCalc.mortgage_rate r)
    (RealEstateCalc.mortgage_initiation_fees r) (RealEstateCalc.renovation_cost r) (RealEstateCalc.agent_fee_variable r)
    (RealEstateCalc.agent_fee_fixed r) (RealEstateCalc.other_transaction_fees r) (RealEstateCalc.monthly_fees r)
    (RealEstateCalc.property_tax_rate r) (RealEstateCalc.maintenance_per_m2 r) (RealEstateCalc.useful_life r)
    (RealEstateCalc.calc_year r) calculator (RealEstateCalc.gross_rental_yield r) (RealEstateCalc.renewal_income_rate r)
    (RealEstateCalc.rental_management_rental_fee r) (RealEstateCalc.rental_management_renewal_fee r)
    (RealEstateCalc.is_primary_residence r) (RealEstateCalc.is_resident_for_tax_purposes r)
    (RealEstateCalc.sale_price r) (kept k 5 (RealEstateCalc.purchase_price_financed r)) (RealEstateCalc.mortgage r)
    (kept k 7 (RealEstateCalc.purchase_price_building r))
    (kept k 8 (RealEstateCalc.purchase_price_land r)) (kept k 9 (RealEstateCalc.purchase_agent_fee r))
    (kept k 10 (RealEstateCalc.purchase_other_transaction_fees r))
    (kept k 11 (RealEstateCalc.purchase_price_and_fees r))
    (kept k 12 (RealEstateCalc.purchase_initial_outlay r))
    (kept k 13 (RealEstateCalc.depreciation_years r))
    (kept k 14 (RealEstateCalc.depreciation_percentage r))
    (kept k 15 (RealEstateCalc.depreciation_annual r)) (kept k 16 (RealEstateCalc.rental_income r))
    (kept k 17 (RealEstateCalc.renewal_income r)) (kept k 18 (RealEstateCalc.total_income r))
    (kept k 19 (RealEstateCalc.maintenance_expense r))
    (kept k 20 (RealEstateCalc.monthly_fees_annualized r))
    (kept k 21 (RealEstateCalc.rental_management_renewal_expense r))
    (kept k 22 (RealEstateCalc.rental_management_rental_expense r))
    (kept k 23 (RealEstateCalc.rental_management_total_expense r))
    (kept k 24 (RealEstateCalc.property_tax_expense r)) (kept k 27 (RealEstateCalc.calc_date r))
    (kept k 25 (RealEstateCalc.total_expense r)) (kept k 28 (RealEstateCalc.net_income_before_taxes r))
    (kept k 26 (RealEstateCalc.depreciation r)) (kept k 29 (RealEstateCalc.net_income_taxable r))
    (kept k 30 (RealEstateCalc.home_loan_deduction r)) (kept k 31 (RealEstateCalc.income_tax r))
    (kept k 32 (RealEstateCalc.income_tax_real_estate r))
    (kept k 33 (RealEstateCalc.net_income_after_taxes r))
    (kept k 34 (RealEstateCalc.cumulative_net_income r))
    (kept k 35 (RealEstateCalc.depreciation_cumulative r)) (kept k 36 (RealEstateCalc.sale_agent_fee r))
    (kept k 37 (RealEstateCalc.sale_other_transaction_fees r))
    (kept k 38 (RealEstateCalc.depreciated_building_value r)) (kept k 39 (RealEstateCalc.book_value r))
    (kept k 40 (RealEstateCalc.sale_proceeds_after_fees r))
    (kept k 41 (RealEstateCalc.acquisition_cost r))
    (kept k 42 (RealEstateCalc.capital_gains_tax_primary_residence_deduction r))
    (kept k 43 (RealEstateCalc.capital_gains r)) (kept k 44 (RealEstateCalc.capital_gains_tax_rate r))
    (kept k 45 (RealEstateCalc.capital_gains_tax r)) (kept k 46 (RealEstateCalc.sale_proceeds_net r))
    (kept k 47 (RealEstateCalc.net_income_on_realestate r)).

(** ** A numpy instance for examples

    numpy's formulas for [ipmt] and [ppmt] (payments at the end of the
    period, no future value), with the power computed by repeated
    multiplication; numpy's own results may differ in the last bits.  It
    is used to evaluate examples only: every theorem holds for any
    [NumPy]. *)

Fixpoint float_pow (b : float) (n : nat) : float :=
  match n with
  | O => 1%float
  | S k => (b * float_pow b k)%float
  end.

Definition float_of_num (x : num) : float :=
  match Py.to_float x with
  | Ok f => f
  | Raise _ => nan
  end.

Definition formula_pmt (rate : float) (nper : Z) (pv : float) : float :=
  let temp := float_pow (1 + rate) (Z.to_nat nper) in
  let fact := ((temp - 1) / rate)%float in
  (- (pv * temp) / fact)%float.

Definition formula_fv (rate : float) (nper : Z) (pmt pv : float) : float :=
  let temp := float_pow (1 + rate) (Z.to_nat nper) in
  let fact := ((temp - 1) / rate)%float in
  (- (pv * temp + pmt * fact))%float.

Definition formula_ipmt (rate : num) (per nper : Z) (pv : num) : float :=
  let r := float_of_num rate in
  let p := float_of_num pv in
  (formula_fv r (per - 1) (formula_pmt r nper p) p * r)%float.

Definition formula_ppmt (rate : num) (per nper : Z) (pv : num) : float :=
  let r := float_of_num rate in
  let p := float_of_num pv in
  (formula_pmt r nper p - formula_ipmt rate per nper pv)%float.

Definition numpy_formulas : NumPy :=
  {| np_ipmt := formula_ipmt; np_ppmt := formula_ppmt |}.

(** * Vocabulary of the statements *)

(** The automatic estimate of the social security expense, as the
    specification words it: half of the health insurance (9.96 percent of
    the income capped at 16,680,000) plus the pension (18.3 percent of the
    income capped at 7,620,000), truncated to an integer. *)
Definition estimated_social_security_expense (income : num) : res num :=
  let! h := Py.mul (Py.min income (Int 16680000)) (Flt 0.0996) in
  let! s := Py.mul (Py.min income (Int 7620000)) (Flt 0.183) in
  let! t := Py.add h s in
  let! half := Py.mul t (Flt 0.5) in
  Py.int half.

(** [m] leaves the projection [pi] of the state as it is, whether it
    completes or raises. *)
Definition preserves {S A X} (pi : S -> X) (m : M S A) : Prop :=
  forall s, pi (final (m s)) = pi s.

(** [m] keeps the property [I] of the state, whether it completes or
    raises. *)
Definition invariant {S A} (I : S -> Prop) (m : M S A) : Prop :=
  forall s, I s -> I (final (m s)).

(** Running the method [m] of [RealEstateCalc] on a state whose derived
    fields after the first [k0] methods have been forgotten gives the same
    outcome and, when it completes, the same state up to the fields after
    the first [k1] methods. *)
Definition commutes (k0 k1 : nat) (m : M RealEstateCalc.t unit) : Prop :=
  forall l s,
    outcome (m (forget k0 l s)) = outcome (m s)
    /\ (outcome (m s) = Ok tt ->
        final (m (forget k0 l s)) = forget k1 l (final (m s))).

(** The tax calculator attached to a scenario, dereferenced: [None] when
    there is none, [Some None] for a reference to nothing. *)
Definition attached (w : RealEstateCalc.t * gmap positive IncomeTaxCalc.t)
    : option (option IncomeTaxCalc.t) :=
  (fun l => snd w !! l) <$> RealEstateCalc.income_tax_calculator (fst w).

(** Two scenarios agree on what a recomputation reads after its first [k]
    methods: same arguments, mortgage and first [k] derived fields, and
    tax calculators with the same attribute values. *)
Definition related (k : nat)
    (w w' : RealEstateCalc.t * gmap positive IncomeTaxCalc.t) : Prop :=
  forget k None (fst w) = forget k None (fst w') /\ attached w = attached w'.

(** [m] and [m'] map related scenarios to the same outcome and, when they
    complete, to related scenarios. *)
Definition sim (k0 k1 : nat)
    (m m' : M (RealEstateCalc.t * gmap positive IncomeTaxCalc.t) unit) : Prop :=
  forall w w', related k0 w w' ->
    outcome (m w) = outcome (m' w')
    /\ (outcome (m w) = Ok tt -> related k1 (final (m w)) (final (m' w'))).

(** [m] does not touch the objects that are in the store when it starts. *)
Definition keeps_store {A}
    (m : M (RealEstateCalc.t * gmap positive IncomeTaxCalc.t) A) : Prop :=
  forall w l c, snd w !! l = Some c -> snd (final (m w)) !! l = Some c.

(** The statements that [_calculate_income_tax] runs on the copy of the
    tax calculator, as one method of that copy. *)
Definition hypothetical_calc (today : date) (self : RealEstateCalc.t)
    : M IncomeTaxCalc.t unit :=
  assign IncomeTaxCalc.set_current_date (fun _ =>
    Ok (RealEstateCalc.calc_date self)) ;;
  assign IncomeTaxCalc.set_other_income (fun c =>
    let! n := get (RealEstateCalc.net_income_taxable self) in
    Py.add (IncomeTaxCalc.other_income c) n) ;;
  assign IncomeTaxCalc.set_tax_deduction (fun c =>
    let! d := get (RealEstateCalc.home_loan_deduction self) in
    Py.add (IncomeTaxCalc.tax_deduction c) d) ;;
  IncomeTaxCalc.calculate_all_fields today.

(** The deep copy of a scenario with its evaluation year decremented, and
    the store after the copy. *)
Definition previous_year_copy
    (w : RealEstateCalc.t * gmap positive IncomeTaxCalc.t)
    : res (RealEstateCalc.t * gmap positive IncomeTaxCalc.t) :=
  let self := fst w in
  let year := RealEstateCalc.calc_year self - 1 in
  match RealEstateCalc.income_tax_calculator self with
  | None => Ok (RealEstateCalc.set_calc_year year self, snd w)
  | Some l =>
      match snd w !! l with
      | Some c =>
          let l' := fresh (dom (snd w)) in
          Ok (RealEstateCalc.set_calc_year year
                (RealEstateCalc.set_income_tax_calculator (Some l') self),
              <[l' := c]> (snd w))
      | None => Raise ModelStuck
      end
  end.

(** The first six methods of [RealEstateCalc.calculate_all_fields]: they
    fill in the arguments left to their defaults, the financed amount and
    the mortgage. *)
Definition resolve_inputs `{NumPy} (today : date) : M RealEstateCalc.t unit :=
  RealEstateCalc._calculate_purchase_date today ;;
  RealEstateCalc._calculate_renewal_income_rate ;;
  RealEstateCalc._calculate_rental_management_rental_fee ;;
  RealEstateCalc._calculate_rental_management_renewal_fee ;;
  RealEstateCalc._calculate_purchase_price_financed ;;
  RealEstateCalc._calculate_mortgage.

(** The methods of [RealEstateCalc.calculate_all_fields] after the
    first six. *)
Definition derive_fields `{NumPy} (today : date)
    (self_call : M (RealEstateCalc.t * gmap positive IncomeTaxCalc.t) unit)
    : M (RealEstateCalc.t * gmap positive IncomeTaxCalc.t) unit :=
  ltac:(
    let b := eval cbv delta [RealEstateCalc.calculate_all_fields_body] beta in
      (RealEstateCalc.calculate_all_fields_body today self_call) in
    lazymatch b with
    | bind _ (fun _ => bind _ (fun _ => bind _ (fun _ => bind _ (fun _ =>
        bind _ (fun _ => bind _ (fun _ => ?rest)))))) => exact rest
    end).


(** From a state where [I] holds, [m] raises, and leaves the projection
    [pi] of the state as it is. *)
Definition never_completes {S A X} (I : S -> Prop) (pi : S -> X)
    (m : M S A) : Prop :=
  forall s, I s -> (forall a, outcome (m s) <> Ok a) /\ pi (final (m s)) = pi s.

(** The methods of [RealEstateCalc.calculate_all_fields] from
    [_calculate_purchase_price_building] to
    [_calculate_net_income_after_taxes]. *)
Definition ongoing_fields `{NumPy} (today : date)
    : M (RealEstateCalc.t * gmap positive IncomeTaxCalc.t) unit :=
  ltac:(
    let b := eval cbv delta [derive_fields] beta in
      (derive_fields today (ret tt)) in
    let rec before b :=
      lazymatch b with
      | bind (RealEstateCalc._calculate_cumulative_net_income _) _ =>
          constr:(ret tt : M (RealEstateCalc.t * gmap positive IncomeTaxCalc.t) unit)
      | bind ?m (fun _ => ?rest) =>
          let r := before rest in constr:(bind m (fun _ => r))
      end in
    let p := before b in exact p).

(** Its methods after [_calculate_cumulative_net_income]. *)
Definition disposal_fields `{NumPy}
    : M (RealEstateCalc.t * gmap positive IncomeTaxCalc.t) unit :=
  ltac:(
    let b := eval cbv delta [derive_fields] beta in
      (derive_fields (mk_date 1 1 1) (ret tt)) in
    lazymatch b with
    | context [bind (RealEstateCalc._calculate_cumulative_net_income _)
                 (fun _ => ?rest)] => exact rest
    end).

(** The [cumulative_net_income] of the deep copy of a scenario, with its
    evaluation year decremented and recomputed. *)
Definition previous_year_cumulative_net_income `{NumPy} (today : date)
    (w : RealEstateCalc.t * gmap positive IncomeTaxCalc.t) : res num :=
  let! copy := previous_year_copy w in
  let (r, w') := RealEstateCalc.calculate_all_fields today copy in
  let! _ := r in
  get (RealEstateCalc.cumulative_net_income (fst w')).

(** [m] does the same on a scenario and on its image by [f]. *)
Definition transports (f : RealEstateCalc.t -> RealEstateCalc.t)
    (m : M RealEstateCalc.t unit) : Prop :=
  forall s, m (f s) = (outcome (m s), f (final (m s))).

(** The conditions of the home loan deduction, as the specification
    lists them: a primary residence, an evaluation year below 10, a size
    above 50, a mortgage that the evaluation year has not outlived, and an
    attached tax calculator with a taxable income below 30,000,000. *)
Definition qualifies_for_home_loan_deduction
    (w : RealEstateCalc.t * gmap positive IncomeTaxCalc.t) : Prop :=
  let self := fst w in
  RealEstateCalc.is_primary_residence self <> 0
  /\ RealEstateCalc.calc_year self < 10
  /\ Py.gt (RealEstateCalc.size self) (Int 50) = true
  /\ (exists m, RealEstateCalc.mortgage self = Some m
                /\ RealEstateCalc.calc_year self < Mortgage.tenor m)
  /\ (exists l c ti,
        RealEstateCalc.income_tax_calculator self = Some l
        /\ snd w !! l = Some c
        /\ IncomeTaxCalc.taxable_income c = Some ti
        /\ Py.lt ti (Int 30000000) = true).

(** The fields of the disposal that use the sale price. *)
Definition sale_fields (r : RealEstateCalc.t) :=
  (RealEstateCalc.sale_price r, RealEstateCalc.sale_agent_fee r,
   RealEstateCalc.sale_other_transaction_fees r,
   RealEstateCalc.sale_proceeds_after_fees r,
   RealEstateCalc.capital_gains r, RealEstateCalc.capital_gains_tax r,
   RealEstateCalc.sale_proceeds_net r,
   RealEstateCalc.net_income_on_realestate r).

(** [is_primary_residence in [0, 1, 2]] *)
Definition valid_residence_code (code : Z) : bool :=
  (code =? 0) || (code =? 1) || (code =? 2).

Definition has_valid_residence_code (r : RealEstateCalc.t) : bool :=
  valid_residence_code (RealEstateCalc.is_primary_residence r).

(** The deduction for a primary residence and the fields computed from
    it. *)
Definition deduction_fields (r : RealEstateCalc.t) :=
  (RealEstateCalc.capital_gains_tax_primary_residence_deduction r,
   RealEstateCalc.capital_gains r, RealEstateCalc.capital_gains_tax_rate r,
   RealEstateCalc.capital_gains_tax r, RealEstateCalc.sale_proceeds_net r,
   RealEstateCalc.net_income_on_realestate r).

(** The methods of [RealEstateCalc.calculate_all_fields] before
    [_calculate_capital_gains_tax_primary_residence_deduction]. *)
Definition methods_before_deduction `{NumPy} (today : date)
    (self_call : M (RealEstateCalc.t * gmap positive IncomeTaxCalc.t) unit)
    : M (RealEstateCalc.t * gmap positive IncomeTaxCalc.t) unit :=
  ltac:(
    let b := eval cbv delta [RealEstateCalc.calculate_all_fields_body] beta in
      (RealEstateCalc.calculate_all_fields_body today self_call) in
    let rec before b :=
      lazymatch b with
      | bind (RealEstateCalc.on_self
                RealEstateCalc._calculate_capital_gains_tax_primary_residence_deduction) _ =>
          constr:(ret tt : M (RealEstateCalc.t * gmap positive IncomeTaxCalc.t) unit)
      | bind ?m (fun _ => ?rest) =>
          let r := before rest in constr:(bind m (fun _ => r))
      end in
    let p := before b in exact p).

(** The method that [RealEstateCalc.calculate_all_fields] calls on the
    copy of a scenario with the evaluation year [year]. *)
Definition self_call `{NumPy} (today : date) (year : Z)
    : M (RealEstateCalc.t * gmap positive IncomeTaxCalc.t) unit :=
  match Z.to_nat (year + 1) with
  | O => fun w => (Raise ModelStuck, w)
  | S depth => RealEstateCalc.calculate_all_fields_rec depth today
  end.

(** A recomputation gets as far as
    [_calculate_capital_gains_tax_primary_residence_deduction]: either the
    evaluation year is negative and the methods before it complete, or the
    methods before [_calculate_cumulative_net_income] complete and the
    recomputation of the copy for the previous year gets as far. *)
Inductive reaches_deduction `{NumPy} (today : date)
    : RealEstateCalc.t * gmap positive IncomeTaxCalc.t -> Prop :=
| reaches_deduction_now w w1 :
    RealEstateCalc.calc_year (fst w) < 0 ->
    methods_before_deduction today (fun w => (Raise ModelStuck, w)) w
    = (Ok tt, w1) ->
    reaches_deduction today w
| reaches_deduction_in_copy w s6 s33 h33 copy :
    0 <= RealEstateCalc.calc_year (fst w) ->
    resolve_inputs today (fst w) = (Ok tt, s6) ->
    ongoing_fields today (s6, snd w) = (Ok tt, (s33, h33)) ->
    previous_year_copy
      (RealEstateCalc.set_cumulative_net_income
         (RealEstateCalc.net_income_after_taxes s33) s33, h33) = Ok copy ->
    reaches_deduction today copy ->
    reaches_deduction today w.

(** A float that is not below zero: a zero of either sign, a positive
    number, plus infinity, or not a number. *)
Definition sign_free (sf : spec_float) : Prop :=
  match sf with
  | S754_finite true _ _ | S754_infinity true => False
  | _ => True
  end.

Definition not_negative (x : num) : Prop :=
  match x with
  | Int z => 0 <= z
  | Flt f => sign_free (Prim2SF f)
  end.

(** The national income tax table as the specification lists it: bounds,
    rate and sum of the taxes of the lower brackets. *)
Definition national_income_tax_table_of_spec : list IncomeTaxCalc.bracket := [
  IncomeTaxCalc.mk_bracket (Int 0, Int 1950000) (Flt 0.05) (Int 0);
  IncomeTaxCalc.mk_bracket (Int 1950001, Int 3300000) (Flt 0.1) (Int 97500);
  IncomeTaxCalc.mk_bracket (Int 3300001, Int 6950000) (Flt 0.2) (Int 232500);
  IncomeTaxCalc.mk_bracket (Int 6950001, Int 9000000) (Flt 0.23) (Int 962500);
  IncomeTaxCalc.mk_bracket (Int 9000001, Int 18000000) (Flt 0.33)
    (Int 1434000);
  IncomeTaxCalc.mk_bracket (Int 18000001, Int 40000000) (Flt 0.4)
    (Int 4404000);
  IncomeTaxCalc.mk_bracket (Int 40000001, Flt infinity) (Flt 0.45)
    (Int 13204000)
].

(** The national income tax as the specification gives it, in the
    arithmetic of Python: the floor of the income above the lower bound of
    the bracket times the rate plus the sum for the lower brackets, the
    whole multiplied by 1.021 before 2038-01-01. *)
Definition national_income_tax_of_spec (b : IncomeTaxCalc.bracket)
    (taxable_income : num) (evaluation_date : date) : res num :=
  let! above := Py.sub taxable_income (fst (IncomeTaxCalc.bounds b)) in
  let! marginal := Py.mul above (IncomeTaxCalc.rate b) in
  let! amount := Py.add marginal (IncomeTaxCalc.previous_brackets_sum b) in
  let! amount :=
    if date_lt evaluation_date (mk_date 2038 1 1)
    then Py.mul amount (Flt 1.021)
    else Ok amount in
  Py.floor amount.

(** ** Examples *)

Definition example_day : date := mk_date 2017 6 1.

(** A tax payer with a loss as other income and a medical expense above
    the cap. *)
Definition example_profile : IncomeTaxCalc.t :=
  IncomeTaxCalc.init_fields (Int 10000000) (Int 0) false (Int (-3000000))
    (Int 0) (Int 50000000) (Int 2) None (Int 0) true None.

(** [IncomeTaxCalc(...)] of that profile. *)
Definition example_calculator : IncomeTaxCalc.t :=
  final (IncomeTaxCalc.calculate_all_fields example_day example_profile).

(** A tax payer without employment income, with a loss of 1,000,000 as
    other income, a life insurance premium of 10^30 and a tax deduction of
    500,000: [IncomeTaxCalc(other_income=-1000000,
    life_insurance_premium=10**30, tax_deduction=500000)]. *)
Definition example_loss_profile : IncomeTaxCalc.t :=
  IncomeTaxCalc.init_fields (Int 0) (Int 0) false (Int (-1000000))
    (Int (10 ^ 30)) (Int 0) (Int 0) None (Int 500000) true None.

(** The same tax payer with a tax deduction of 10^400, which no [float]
    holds. *)
Definition example_overflow_profile : IncomeTaxCalc.t :=
  IncomeTaxCalc.set_tax_deduction (Int (10 ^ 400)) example_loss_profile.

(** A new flat of 60 m2 bought as a primary residence for 100,000,000 with
    a loan of 90 percent over 30 years at 1 percent, evaluated at year 1
    with the tax calculator above. *)
Definition example_scenario : RealEstateCalc.t :=
  RealEstateCalc.init_fields None (Int 100000000) (Flt 0.7) (Int 60) (Int 0)
    (Flt 0.9) (Int 1) 30 (Flt 0.01) (Int 0) (Int 0) (Flt 0.03) (Int 60000)
    (Flt 0.01) (Int 20000) (Flt 0.01) (Int 1000) (Int 47) 1 (Some 1%positive)
    (Flt 0.04) None None None 1 true (Some (Int 110000000)).

Definition example_store : gmap positive IncomeTaxCalc.t :=
  {[ 1%positive := example_calculator ]}.

(** [RealEstateCalc(...)] of that scenario. *)
Definition example_recomputed
    : RealEstateCalc.t * gmap positive IncomeTaxCalc.t :=
  final (RealEstateCalc.calculate_all_fields (H := numpy_formulas)
           example_day (example_scenario, example_store)).

(** [bounds[0] <= lookup_value <= bounds[1]] *)
Definition within {R} (bounds_of : R -> num * num) (lookup_value : num)
    (r : R) : bool :=
  Py.le (fst (bounds_of r)) lookup_value
  && Py.le lookup_value (snd (bounds_of r)).

(** The arguments of [RealEstateCalc(...)] that have a value of their own
    as default. *)
Definition given_arguments (r : RealEstateCalc.t) :=
  (RealEstateCalc.purchase_price r, RealEstateCalc.building_to_land_ratio r,
   RealEstateCalc.size r, RealEstateCalc.age r,
   RealEstateCalc.mortgage_loan_to_value r,
   RealEstateCalc.bank_valuation_to_actual r,
   RealEstateCalc.mortgage_tenor r, RealEstateCalc.mortgage_rate r,
   RealEstateCalc.mortgage_initiation_fees r,
   RealEstateCalc.renovation_cost r, RealEstateCalc.agent_fee_variable r,
   RealEstateCalc.agent_fee_fixed r,
   RealEstateCalc.other_transaction_fees r, RealEstateCalc.monthly_fees r,
   RealEstateCalc.property_tax_rate r, RealEstateCalc.maintenance_per_m2 r,
   RealEstateCalc.useful_life r, RealEstateCalc.calc_year r,
   RealEstateCalc.income_tax_calculator r,
   RealEstateCalc.gross_rental_yield r,
   RealEstateCalc.is_primary_residence r,
   RealEstateCalc.is_resident_for_tax_purposes r,
   RealEstateCalc.sale_price r).

(** The float that [binary_round_aux] makes of the mantissa and the exponent
    left by its second shift. *)
Definition rounded (s : bool) (r : shr_record * Z) : spec_float :=
  match shr_m (fst r) with
  | Z0 => S754_zero s
  | Zpos m =>
      if snd r <=? emax - prec then S754_finite s m (snd r)
      else S754_infinity s
  | _ => S754_nan
  end.

(** A binary64 that is an infinity or a finite number other than zero. *)
Definition representable (sf : spec_float) : Prop :=
  match sf with
  | S754_finite _ m e => bounded prec emax m e = true
  | S754_infinity _ => True
  | _ => False
  end.

(** The only exceptions that [r] may raise are those of [P]. *)
Definition raises_only {A} (P : exn -> Prop) (r : res A) : Prop :=
  forall e, r = Raise e -> P e.

(** The exceptions of the arithmetic of Python: the conversion of an [int]
    too large for a [float], of an infinite [float] or of a NaN to an
    [int]. *)
Definition arithmetic_error (e : exn) : Prop :=
  e = OverflowError \/ e = ValueError cannot_convert_float_NaN_to_integer.

(** The exceptions of an income tax calculation: those of the arithmetic
    and the [ValueError] of an amount that no rule of a table contains. *)
Definition income_tax_error (e : exn) : Prop :=
  arithmetic_error e \/ exists v, e = ValueError (is_not_a_valid_income v).

(** The methods that [IncomeTaxCalc.calculate_all_fields] calls, in its
    order, and the derived field that each one sets. *)
Definition calculation_order (today : date) : list (M IncomeTaxCalc.t unit) :=
  [ IncomeTaxCalc._calculate_current_date today;
    IncomeTaxCalc._calculate_total_income;
    IncomeTaxCalc._calculate_employment_income_after_rent_program;
    IncomeTaxCalc._calculate_social_security_expense;
    IncomeTaxCalc._calculate_employment_income_for_tax;
    IncomeTaxCalc._calculate_employment_income_deduction;
    IncomeTaxCalc._calculate_total_income_for_tax;
    IncomeTaxCalc._calculate_deduction_dependents;
    IncomeTaxCalc._calculate_deduction_total;
    IncomeTaxCalc._calculate_taxable_income;
    IncomeTaxCalc._calculate_national_income_tax_bracket;
    IncomeTaxCalc._calculate_national_income_tax_rate;
    IncomeTaxCalc._calculate_national_income_tax;
    IncomeTaxCalc._calculate_local_income_tax;
    IncomeTaxCalc._calculate_total_income_tax;
    IncomeTaxCalc._calculate_net_income_after_tax;
    IncomeTaxCalc._calculate_effective_tax_rate ].

Definition fields_in_order : list (IncomeTaxCalc.t -> Prop) :=
  [ fun p => is_Some (IncomeTaxCalc.current_date p);
    fun p => is_Some (IncomeTaxCalc.total_income p);
    fun p => is_Some (IncomeTaxCalc.employment_income_after_rent_program p);
    fun p => is_Some (IncomeTaxCalc.social_security_expense p);
    fun p => is_Some (IncomeTaxCalc.employment_income_for_tax p);
    fun p => is_Some (IncomeTaxCalc.employment_income_deduction p);
    fun p => is_Some (IncomeTaxCalc.total_income_for_tax p);
    fun p => is_Some (IncomeTaxCalc.deduction_dependents p);
    fun p => is_Some (IncomeTaxCalc.deduction_total p);
    fun p => is_Some (IncomeTaxCalc.taxable_income p);
    fun p => is_Some (IncomeTaxCalc.national_income_tax_bracket p);
    fun p => is_Some (IncomeTaxCalc.national_income_tax_rate p);
    fun p => is_Some (IncomeTaxCalc.national_income_tax p);
    fun p => is_Some (IncomeTaxCalc.local_income_tax p);
    fun p => is_Some (IncomeTaxCalc.total_income_tax p);
    fun p => is_Some (IncomeTaxCalc.net_income_after_tax p);
    fun p => is_Some (IncomeTaxCalc.effective_tax_rate p) ].

(** The fields of the first [n] methods are set. *)
Definition computed (n : nat) (p : IncomeTaxCalc.t) : Prop :=
  Forall (fun field => field p) (take n fields_in_order).

(** * Runs of methods *)

Section Runs.
Context {S : Type}.

Lemma run_bind {A B} (m : M S A) (k : A -> M S B) s b s'' :
  bind m k s = (Ok b, s'') <->
  exists a s', m s = (Ok a, s') /\ k a s' = (Ok b, s'').
Proof.
  unfold bind. destruct (m s) as [[a|e] s']; split;
    [ eauto | intros (? & ? & ? & ?) | discriminate | intros (? & ? & ? & ?) ];
    by simplify_eq.
Qed.

Lemma run_assign {V} (set : V -> S -> S) (e : S -> res V) s u s' :
  assign set e s = (Ok u, s') <-> exists v, e s = Ok v /\ s' = set v s.
Proof.
  unfold assign. destruct u, (e s) as [v|x]; split;
    [ intros; simplify_eq; eauto | intros (? & ? & ?)
    | discriminate | intros (? & ? & ?) ];
    by simplify_eq.
Qed.

Lemma run_when (c : S -> res bool) (body : M S unit) s u s' :
  when c body s = (Ok u, s') <->
  (c s = Ok true /\ body s = (Ok u, s')) \/ (c s = Ok false /\ s' = s).
Proof.
  unfold when, bind, eval, ret. destruct u, (c s) as [[]|x]; split;
    try (intros [[? ?]|[? ?]]); intros; simplify_eq; eauto.
Qed.

Lemma run_ifelse (c : S -> res bool) (m1 m2 : M S unit) s u s' :
  ifelse c m1 m2 s = (Ok u, s') <->
  (c s = Ok true /\ m1 s = (Ok u, s')) \/ (c s = Ok false /\ m2 s = (Ok u, s')).
Proof.
  unfold ifelse, bind, eval. destruct (c s) as [[]|x]; split;
    try (intros [[? ?]|[? ?]]); intros; simplify_eq; eauto.
Qed.

Lemma bind_ok {A B} (m : M S A) (k : A -> M S B) s a s' :
  m s = (Ok a, s') -> bind m k s = k a s'.
Proof. unfold bind. by intros ->. Qed.

Lemma bind_raise {A B} (m : M S A) (k : A -> M S B) s e s' :
  m s = (Raise e, s') -> bind m k s = (Raise e, s').
Proof. unfold bind. by intros ->. Qed.

Lemma assign_ok {V} (set : V -> S -> S) (e : S -> res V) s v :
  e s = Ok v -> assign set e s = (Ok tt, set v s).
Proof. unfold assign. by intros ->. Qed.

Lemma assign_raise {V} (set : V -> S -> S) (e : S -> res V) s x :
  e s = Raise x -> assign set e s = (Raise x, s).
Proof. unfold assign. by intros ->. Qed.

Lemma when_true (c : S -> res bool) (body : M S unit) s :
  c s = Ok true -> when c body s = body s.
Proof. unfold when, bind, eval. by intros ->. Qed.

Lemma when_false (c : S -> res bool) (body : M S unit) s :
  c s = Ok false -> when c body s = (Ok tt, s).
Proof. unfold when, bind, eval. by intros ->. Qed.

(** *** Sequences that stop *)

Lemma never_completes_first {A B X} (I : S -> Prop) (pi : S -> X)
    (m : M S A) (k : A -> M S B) :
  never_completes I pi m -> never_completes I pi (bind m k).
Proof.
  intros Hm s Hs. destruct (Hm s Hs) as [Ho Hpi]. unfold bind.
  destruct (m s) as [[a|x] s1]; cbn in *; [by destruct (Ho a)|].
  split; [done|exact Hpi].
Qed.

Lemma never_completes_later {A B X} (I : S -> Prop) (pi : S -> X)
    (m : M S A) (k : A -> M S B) :
  invariant I m -> preserves pi m ->
  (forall a, never_completes I pi (k a)) ->
  never_completes I pi (bind m k).
Proof.
  intros HI Hpi Hk s Hs. unfold bind.
  specialize (HI s Hs). specialize (Hpi s).
  destruct (m s) as [[a|x] s1]; cbn in *; [|done].
  destruct (Hk a s1 HI) as [Ho Hf]. split; [done|congruence].
Qed.

(** *** Sequences that continue alike *)

Lemma bind_ext {A B} (m : M S A) (k k' : A -> M S B) s :
  (forall a s1, m s = (Ok a, s1) -> k a s1 = k' a s1) ->
  bind m k s = bind m k' s.
Proof.
  intros Hk. unfold bind. destruct (m s) as [[a|x] s1]; [|done]. by apply Hk.
Qed.

(** An assignment of the value that the attribute already has. *)
Lemma assign_fixed {V} (set : V -> S -> S) (proj : S -> V) (e : S -> res V)
    s v :
  (forall r, set (proj r) r = r) -> e s = Ok v -> proj s = v ->
  assign set e s = (Ok tt, s).
Proof. unfold assign. intros Hset -> <-. by rewrite Hset. Qed.

(** *** The exceptions of a sequence *)

Lemma run_raises_bind {A B} (P : exn -> Prop) (m : M S A) (k : A -> M S B) s :
  raises_only P (outcome (m s)) ->
  (forall a s', m s = (Ok a, s') -> raises_only P (outcome (k a s'))) ->
  raises_only P (outcome (bind m k s)).
Proof.
  intros Hm Hk. unfold bind. destruct (m s) as [[a|x] s'] eqn:E.
  - by apply Hk.
  - intros err [= <-]. by apply Hm.
Qed.

Lemma run_raises_assign {V} (P : exn -> Prop) (set : V -> S -> S) e s :
  raises_only P (e s) -> raises_only P (outcome (assign set e s)).
Proof.
  unfold assign. intros He. destruct (e s) as [v|x]; [done|].
  intros e0 [= <-]. by apply He.
Qed.

Lemma run_raises_when (P : exn -> Prop) (c : S -> res bool) body s b :
  c s = Ok b -> (b = true -> raises_only P (outcome (body s))) ->
  raises_only P (outcome (when c body s)).
Proof.
  unfold when, bind, eval. intros -> Hb. destruct b; [by apply Hb|done].
Qed.

(** *** Projections that a method leaves alone *)

Lemma preserves_assign {V X} (pi : S -> X) (set : V -> S -> S) e :
  (forall v s, pi (set v s) = pi s) -> preserves pi (assign set e).
Proof. intros Hset s. unfold assign. destruct (e s); cbn; auto. Qed.

Lemma preserves_bind {A B X} (pi : S -> X) (m : M S A) (k : A -> M S B) :
  preserves pi m -> (forall a, preserves pi (k a)) -> preserves pi (bind m k).
Proof.
  intros Hm Hk s. unfold bind. specialize (Hm s).
  destruct (m s) as [[a|x] s1]; cbn in *; [|done]. by rewrite Hk.
Qed.

Lemma preserves_eval {A X} (pi : S -> X) (e : S -> res A) :
  preserves pi (eval e).
Proof. by intros s. Qed.

Lemma preserves_ret {A X} (pi : S -> X) (a : A) : preserves pi (ret a).
Proof. by intros s. Qed.

Lemma preserves_when {X} (pi : S -> X) c (body : M S unit) :
  preserves pi body -> preserves pi (when c body).
Proof.
  intros Hb. apply preserves_bind; [apply preserves_eval|].
  intros []; [done|apply preserves_ret].
Qed.

Lemma preserves_ifelse {X} (pi : S -> X) c (m1 m2 : M S unit) :
  preserves pi m1 -> preserves pi m2 -> preserves pi (ifelse c m1 m2).
Proof.
  intros H1 H2. apply preserves_bind; [apply preserves_eval|]. by intros [].
Qed.

Lemma invariant_bind {A B} (I : S -> Prop) (m : M S A) (k : A -> M S B) :
  invariant I m -> (forall a, invariant I (k a)) -> invariant I (bind m k).
Proof.
  intros Hm Hk s Hs. unfold bind. specialize (Hm s Hs).
  destruct (m s) as [[a|x] s1]; cbn in *; [|done]. by apply Hk.
Qed.

Lemma invariant_of_preserves {A X} (pi : S -> X) (c : X) (m : M S A) :
  preserves pi m -> invariant (fun s => pi s = c) m.
Proof. intros Hm s Hs. by rewrite Hm. Qed.

Lemma invariant_through {A X} (pi : S -> X) (P : X -> Prop) (m : M S A) :
  preserves pi m -> invariant (fun s => P (pi s)) m.
Proof. intros Hm s Hs. by rewrite Hm. Qed.

Lemma invariant_assign {V} (I : S -> Prop) (set : V -> S -> S) e :
  (forall s v, I s -> e s = Ok v -> I (set v s)) ->
  invariant I (assign set e).
Proof.
  intros Hset s Hs. unfold assign. destruct (e s) as [v|x] eqn:E; cbn; auto.
Qed.

End Runs.

(** Splits the hypothesis that a sequence of statements completed into one
    hypothesis per statement. *)
Ltac run_inv H :=
  lazymatch type of H with
  | bind _ _ _ = (Ok _, _) =>
      let a := fresh "a" in
      let s := fresh "s" in
      let H1 := fresh "Hrun" in
      apply run_bind in H; destruct H as (a & s & H1 & H);
      try (destruct a); run_inv H
  | _ => idtac
  end.

(** Inverts a successful evaluation [let! x := r in ... = Ok v]. *)
Ltac res_inv H :=
  repeat lazymatch type of H with
  | res_bind ?r _ = Ok _ =>
      let E := fresh "E" in
      destruct r eqn:E; cbn [res_bind] in H; [|discriminate H]
  | (if ?b then _ else _) = Ok _ =>
      let E := fresh "E" in destruct b eqn:E
  | Raise _ = Ok _ => discriminate H
  end.

(** Turns the hypothesis that a method completed into the value of its
    final state. *)
Ltac method_inv H :=
  lazymatch type of H with
  | _ = (Ok _, ?s') =>
      first
        [ apply run_assign in H; destruct H as (? & H & ->); cbv beta in H
        | apply run_when in H; destruct H as [[? H]|[? ->]]; [method_inv H|]
        | apply run_ifelse in H; destruct H as [[? H]|[? H]]; method_inv H
        | run_inv H; method_inv_all ]
  end
with method_inv_all :=
  repeat match goal with
  | H : _ = (Ok _, ?s') |- _ => is_var s'; method_inv H
  end.

Ltac head_of m :=
  lazymatch m with
  | ?f _ => head_of f
  | _ => m
  end.

(** Proves [preserves pi m] for a method made of assignments to
    attributes that [pi] does not read. *)
Ltac preserves_tac :=
  lazymatch goal with
  | |- preserves _ (bind _ _) =>
      apply preserves_bind; [preserves_tac | intros ?; preserves_tac]
  | |- preserves _ (when _ _) => apply preserves_when; preserves_tac
  | |- preserves _ (ifelse _ _ _) => apply preserves_ifelse; preserves_tac
  | |- preserves _ (assign _ _) =>
      apply preserves_assign;
      let v := fresh in let s := fresh in intros v s; destruct s; reflexivity
  | |- preserves _ (eval _) => apply preserves_eval
  | |- preserves _ (ret _) => apply preserves_ret
  | |- preserves _ (if ?b then _ else _) => destruct b; preserves_tac
  | |- preserves _ ?m => let h := head_of m in unfold h; preserves_tac
  end.

(** As [method_inv], by the shape of the method. *)
Ltac step_inv H :=
  lazymatch type of H with
  | assign _ _ _ = (Ok _, _) =>
      apply run_assign in H; destruct H as (? & H & ->); cbv beta in H
  | when _ _ _ = (Ok _, _) =>
      apply run_when in H; destruct H as [[? H]|[? ->]]; [step_inv H|]
  | ifelse _ _ _ _ = (Ok _, _) =>
      apply run_ifelse in H; destruct H as [[? H]|[? H]]; step_inv H
  | ?m _ = (Ok _, _) => let h := head_of m in unfold h in H; step_inv H
  end.

(** * Python numbers *)

Lemma max_zero_ge x : Py.ge (Py.max (Int 0) x) (Int 0) = true.
Proof.
  unfold Py.max, Py.gt, Py.ge.
  destruct x as [z|f]; cbn [Py.compare].
  - destruct (z ?= 0) eqn:E; cbn [Py.compare]; rewrite ?E; reflexivity.
  - destruct (Py.Z_compare_float 0 f) as [[]|] eqn:E; cbn; rewrite ?E;
      reflexivity.
Qed.



Lemma range_length a b : length (Py.range a b) = Z.to_nat (b - a).
Proof. unfold Py.range. by rewrite length_map, length_seq. Qed.


(** [x + 0] is [x], except that [-0.0 + 0] is [0.0]. *)
Lemma float_add_zero f :
  (f + 0)%float = f \/ (f = (-0)%float /\ (f + 0)%float = 0%float).
Proof.
  pose proof (add_spec f 0) as Hs.
  pose proof (SF2Prim_Prim2SF f) as Hf.
  pose proof (SF2Prim_Prim2SF (f + 0)) as Hf0.
  change (Prim2SF 0) with (S754_zero false) in Hs.
  destruct (Prim2SF f) as [[]| | |] eqn:E; cbn in Hs;
    rewrite Hs in Hf0; rewrite <- Hf0, <- Hf; auto.
Qed.

Lemma add_zero a v :
  Py.add a (Int 0) = Ok v ->
  v = a \/ (a = Flt (-0)%float /\ v = Flt 0%float).
Proof.
  destruct a as [z|f].
  - intros [= <-]. left. f_equal. lia.
  - change (Py.add (Flt f) (Int 0)) with (Ok (Flt (f + 0))).
    intros [= <-]. destruct (float_add_zero f) as [->|[-> ->]]; auto.
Qed.

(** ** Numbers that are not negative *)

Lemma binary_round_aux_sign m e l :
  sign_free (binary_round_aux prec emax false m e l).
Proof.
  unfold binary_round_aux.
  destruct (shr_fexp _ _ _ _ _) as [mrs' e'].
  destruct (shr_fexp _ _ _ _ _) as [mrs'' e''].
  destruct (shr_m mrs''); [done| |done]. by destruct (_ <=? _).
Qed.

Lemma binary_round_sign m e : sign_free (binary_round prec emax false m e).
Proof.
  unfold binary_round. destruct (shl_align _ _ _).
  apply binary_round_aux_sign.
Qed.

Lemma binary_normalize_sign n e sz :
  0 <= n -> sign_free (binary_normalize prec emax n e sz).
Proof.
  destruct n; [done| |lia]. intros _. apply binary_round_sign.
Qed.

Lemma SF2Prim_sign sf : sign_free sf -> sign_free (Prim2SF (SF2Prim sf)).
Proof.
  destruct sf as [[]|[]| |[] m e]; try done. intros _.
  unfold SF2Prim. rewrite Z_ldexp_spec, of_uint63_spec.
  pose proof (Uint63.to_Z_bounded (Uint63.of_Z (Z.pos m))) as [Hm _].
  pose proof (binary_normalize_sign _ 0 false Hm) as Hs.
  destruct (binary_normalize _ _ _ _ _) as [| | |[] m' e']; try done.
  apply binary_round_sign.
Qed.

Lemma float_of_Z_sign z f :
  0 <= z -> Py.float_of_Z z = Ok f -> not_negative (Flt f).
Proof.
  unfold Py.float_of_Z. intros Hz.
  pose proof (binary_normalize_sign z 0 false Hz) as Hs.
  destruct (binary_normalize _ _ _ _ _) as [s|s| |s m e] eqn:E;
    intros [= <-].
  - by apply (SF2Prim_sign (S754_zero s)).
  - by apply (SF2Prim_sign S754_nan).
  - by apply (SF2Prim_sign (S754_finite s m e)).
Qed.

Lemma to_float_sign x f :
  not_negative x -> Py.to_float x = Ok f -> not_negative (Flt f).
Proof.
  destruct x as [z|g]; cbn.
  - apply float_of_Z_sign.
  - by intros Hg [= <-].
Qed.

Lemma float_mul_sign x y :
  sign_free (Prim2SF x) -> sign_free (Prim2SF y) ->
  sign_free (Prim2SF (x * y)).
Proof.
  rewrite mul_spec. unfold SF64mul, SFmul.
  destruct (Prim2SF x) as [[]|[]| |[] mx ex], (Prim2SF y) as [[]|[]| |[] my ey];
    try done; intros _ _; apply binary_round_aux_sign.
Qed.

Lemma float_add_sign x y :
  sign_free (Prim2SF x) -> sign_free (Prim2SF y) ->
  sign_free (Prim2SF (x + y)).
Proof.
  rewrite add_spec. unfold SF64add, SFadd.
  destruct (Prim2SF x) as [[]|[]| |[] mx ex], (Prim2SF y) as [[]|[]| |[] my ey];
    try done; intros _ _.
  apply binary_normalize_sign. cbn [cond_Zopp]. lia.
Qed.

Lemma mul_sign x y v :
  not_negative x -> not_negative y -> Py.mul x y = Ok v -> not_negative v.
Proof.
  intros Hx Hy. unfold Py.mul, Py.arith.
  destruct x as [a|f], y as [b|g].
  - intros [= <-]. cbn in *. nia.
  - destruct (Py.to_float (Int a)) as [fa|] eqn:Ea; [|done].
    cbn. intros [= <-]. cbn.
    by apply float_mul_sign; [apply (to_float_sign (Int a))|].
  - destruct (Py.to_float (Int b)) as [fb|] eqn:Eb; [|done].
    cbn. intros [= <-]. cbn.
    by apply float_mul_sign; [|apply (to_float_sign (Int b))].
  - cbn. intros [= <-]. by apply float_mul_sign.
Qed.

Lemma add_sign x y v :
  not_negative x -> not_negative y -> Py.add x y = Ok v -> not_negative v.
Proof.
  intros Hx Hy. unfold Py.add, Py.arith.
  destruct x as [a|f], y as [b|g].
  - intros [= <-]. cbn in *. lia.
  - destruct (Py.to_float (Int a)) as [fa|] eqn:Ea; [|done].
    cbn. intros [= <-]. cbn.
    by apply float_add_sign; [apply (to_float_sign (Int a))|].
  - destruct (Py.to_float (Int b)) as [fb|] eqn:Eb; [|done].
    cbn. intros [= <-]. cbn.
    by apply float_add_sign; [|apply (to_float_sign (Int b))].
  - cbn. intros [= <-]. by apply float_add_sign.
Qed.

(** [int(x)] is [math.floor(x)] when [x] is not negative. *)
Lemma int_is_floor x : not_negative x -> Py.int x = Py.floor x.
Proof.
  destruct x as [z|f]; [done|]. cbn. unfold Py.float_to_Z.
  by destruct (Prim2SF f) as [| | |[] m e].
Qed.

Lemma shl_align_value m e e' :
  e' <= e -> Z.pos (fst (shl_align m e e')) = Z.pos m * 2 ^ (e - e').
Proof.
  intros He. unfold shl_align. destruct (e' - e) as [|p|d] eqn:E.
  - replace (e - e') with 0 by lia. cbn [fst]. lia.
  - lia.
  - replace (e - e') with (Z.pos d) by lia. cbn [fst].
    change (Pos.iter xO m d) with (shift_pos d m).
    rewrite shift_pos_correct, Z.pow_pos_fold. lia.
Qed.

(** [t - l] is not negative when the float [t] is at least the integer
    that the float [l] stands for. *)
Lemma float_sub_sign t fl l :
  (Prim2SF fl = S754_zero false /\ l = 0)
  \/ (exists my ey, Prim2SF fl = S754_finite false my ey /\ ey <= 0
                    /\ Z.pos my = l * 2 ^ (- ey)) ->
  Py.le (Int l) (Flt t) = true ->
  sign_free (Prim2SF (t - fl)).
Proof.
  intros Hfl. unfold Py.le, Py.compare, Py.Z_compare_float.
  rewrite sub_spec. unfold SF64sub, SFsub.
  destruct (Prim2SF t) as [st|[]| |sx mx ex] eqn:Et; try done.
  - (* a zero *)
    destruct Hfl as [[-> ->]|(my & ey & -> & Hey & Hmy)];
      [by destruct st|].
    assert (0 < 2 ^ (- ey)) by (apply Z.pow_pos_nonneg; lia).
    set (P := 2 ^ (- ey)) in *.
    intros Hle. exfalso.
    assert (l <= 0) as Hl0.
    { destruct (l ?= 0) eqn:Hl; try done.
      - apply Z.compare_eq in Hl. lia.
      - rewrite Z.compare_lt_iff in Hl. lia. }
    clearbody P. nia.
  - (* plus infinity *)
    by destruct Hfl as [[-> ->]|(my & ey & -> & _)].
  - (* a number *)
    set (v := cond_Zopp sx (Z.pos mx)).
    intros Hle.
    assert (if 0 <=? ex then l <= v * 2 ^ ex else l * 2 ^ (- ex) <= v)
      as Hv.
    { destruct (0 <=? ex);
        [destruct (l ?= v * 2 ^ ex) eqn:Hc
        |destruct (l * 2 ^ (- ex) ?= v) eqn:Hc]; try done;
        first [apply Z.compare_eq in Hc|rewrite Z.compare_lt_iff in Hc]; lia. }
    clear Hle.
    destruct Hfl as [[-> ->]|(my & ey & -> & Hey & Hmy)].
    + destruct sx; [|done]. subst v. cbn [cond_Zopp] in Hv.
      destruct (0 <=? ex) eqn:Hex.
      * apply Z.leb_le in Hex.
        assert (0 < 2 ^ ex) by (apply Z.pow_pos_nonneg; lia).
        set (P := 2 ^ ex) in *. nia.
      * lia.
    + apply binary_normalize_sign.
      rewrite !shl_align_value by lia. cbn [cond_Zopp].
      replace (cond_Zopp sx (Z.pos mx * 2 ^ (ex - Z.min ex ey)))
        with (v * 2 ^ (ex - Z.min ex ey))
        by (subst v; destruct sx; cbn [cond_Zopp]; ring).
      rewrite Hmy. clearbody v.
      destruct (0 <=? ex) eqn:Hex;
        [apply Z.leb_le in Hex|apply Z.leb_gt in Hex].
      * replace (Z.min ex ey) with ey by lia.
        replace (ey - ey) with 0 by lia.
        replace (ex - ey) with (ex + - ey) by lia.
        rewrite Z.pow_add_r by lia.
        assert (0 < 2 ^ (- ey)) by (apply Z.pow_pos_nonneg; lia).
        assert (0 < 2 ^ ex) by (apply Z.pow_pos_nonneg; lia).
        set (P := 2 ^ (- ey)) in *. set (Q := 2 ^ ex) in *.
        rewrite Z.pow_0_r. nia.
      * destruct (Z.le_gt_cases ey ex) as [Hc|Hc].
        -- replace (Z.min ex ey) with ey by lia.
           replace (ey - ey) with 0 by lia.
           replace (- ey) with (- ex + (ex - ey)) by lia.
           rewrite Z.pow_add_r by lia.
           assert (0 < 2 ^ (ex - ey)) by (apply Z.pow_pos_nonneg; lia).
           assert (0 < 2 ^ (- ex)) by (apply Z.pow_pos_nonneg; lia).
           set (P := 2 ^ (ex - ey)) in *. set (Q := 2 ^ (- ex)) in *.
           rewrite Z.pow_0_r. nia.
        -- replace (Z.min ex ey) with ex by lia.
           replace (ex - ex) with 0 by lia.
           replace (l * 2 ^ (- ey) * 2 ^ (ey - ex)) with (l * 2 ^ (- ex)).
           { rewrite Z.pow_0_r. lia. }
           rewrite <- Z.mul_assoc, <- Z.pow_add_r by lia.
           f_equal. f_equal. lia.
Qed.

Lemma float_add_comm x y : (x + y)%float = (y + x)%float.
Proof.
  apply Prim2SF_inj. rewrite !add_spec. unfold SF64add, SFadd.
  destruct (Prim2SF x) as [[]|[]| |sx mx ex], (Prim2SF y) as [[]|[]| |sy my ey];
    try reflexivity.
  by rewrite (Z.min_comm ey ex), Z.add_comm.
Qed.

Lemma add_comm x y : Py.add x y = Py.add y x.
Proof.
  unfold Py.add, Py.arith. destruct x as [a|f], y as [b|g]; cbn.
  - by rewrite Z.add_comm.
  - destruct (Py.float_of_Z a); cbn; [|done]. by rewrite float_add_comm.
  - destruct (Py.float_of_Z b); cbn; [|done]. by rewrite float_add_comm.
  - by rewrite float_add_comm.
Qed.

(** ** Comparisons with an [int] *)

Lemma le_Int a b : Py.le (Int a) (Int b) = (a <=? b).
Proof.
  unfold Py.le. cbn [Py.compare].
  destruct (Z.compare_spec a b), (Z.leb_spec a b); try done; lia.
Qed.

Lemma Z_compare_float_Lt_mono a a' f :
  Py.Z_compare_float a f = Some Lt -> a' <= a ->
  Py.Z_compare_float a' f = Some Lt.
Proof.
  unfold Py.Z_compare_float. destruct (Prim2SF f) as [s|s| |s m e]; try done.
  - intros [= Ha] Hle. f_equal. apply Z.compare_lt_iff.
    rewrite Z.compare_lt_iff in Ha. lia.
  - assert (0 < 2 ^ (- e) \/ - e < 0) as Hp
      by (destruct (Z.le_gt_cases 0 (- e)); [left; by apply Z.pow_pos_nonneg|by right]).
    destruct (0 <=? e) eqn:He; intros [= Ha] Hle; f_equal;
      apply Z.compare_lt_iff; rewrite Z.compare_lt_iff in Ha; [lia|].
    destruct Hp as [Hp|Hp]; [|lia]. nia.
Qed.

Lemma Z_compare_float_Gt_mono a a' f :
  Py.Z_compare_float a f = Some Gt -> a <= a' ->
  Py.Z_compare_float a' f = Some Gt.
Proof.
  unfold Py.Z_compare_float. destruct (Prim2SF f) as [s|s| |s m e]; try done.
  - intros [= Ha] Hle. f_equal. apply Z.compare_gt_iff.
    rewrite Z.compare_gt_iff in Ha. lia.
  - assert (0 < 2 ^ (- e) \/ - e < 0) as Hp
      by (destruct (Z.le_gt_cases 0 (- e)); [left; by apply Z.pow_pos_nonneg|by right]).
    destruct (0 <=? e) eqn:He; intros [= Ha] Hle; f_equal;
      apply Z.compare_gt_iff; rewrite Z.compare_gt_iff in Ha; [lia|].
    destruct Hp as [Hp|Hp]; [|lia]. nia.
Qed.

Lemma Z_compare_float_Eq a z f :
  Py.Z_compare_float z f = Some Eq ->
  Py.Z_compare_float a f = Some (a ?= z).
Proof.
  unfold Py.Z_compare_float. destruct (Prim2SF f) as [s|s| |s m e]; try done.
  - intros [= Hz]. apply Z.compare_eq_iff in Hz. by subst z.
  - by destruct s.
  - destruct (0 <=? e) eqn:He; intros [= Hz]; apply Z.compare_eq_iff in Hz;
      f_equal.
    + by subst z.
    + apply Z.leb_gt in He. rewrite <- Hz.
      assert (0 < 2 ^ (- e)) as Hp by (apply Z.pow_pos_nonneg; lia).
      destruct (Z.compare_spec a z), (Z.compare_spec (a * 2 ^ (- e)) (z * 2 ^ (- e)));
        try done; nia.
Qed.

(** A number above [a] is not below or at a smaller bound, ... *)
Lemma lt_below x a a' :
  Py.lt (Int a) x = true -> a' <= a -> Py.le x (Int a') = false.
Proof.
  unfold Py.lt, Py.le. destruct x as [z|f]; cbn [Py.compare].
  - destruct (Z.compare_spec a z); try done. intros _ Hle.
    destruct (Z.compare_spec z a'); try done; lia.
  - destruct (Py.Z_compare_float a f) as [[]|] eqn:Ha; try done.
    intros _ Hle. by rewrite (Z_compare_float_Lt_mono _ _ _ Ha Hle).
Qed.

(** ... and a number below [b] is not above or at a larger bound. *)
Lemma lt_above x b b' :
  Py.lt x (Int b) = true -> b <= b' -> Py.le (Int b') x = false.
Proof.
  unfold Py.lt, Py.le. destruct x as [z|f]; cbn [Py.compare].
  - destruct (Z.compare_spec z b); try done. intros _ Hle.
    destruct (Z.compare_spec b' z); try done; lia.
  - destruct (Py.Z_compare_float b f) as [[]|] eqn:Hb; try done.
    intros _ Hle. by rewrite (Z_compare_float_Gt_mono _ _ _ Hb Hle).
Qed.

(** A number equal to the [int] [z] compares with an [int] as [z] does. *)
Lemma eq_le_l x z a : Py.eq x (Int z) = true -> Py.le (Int a) x = (a <=? z).
Proof.
  unfold Py.eq, Py.le. destruct x as [y|f]; cbn [Py.compare].
  - destruct (Z.compare_spec y z); try done. subst y. intros _.
    destruct (Z.compare_spec a z), (Z.leb_spec a z); try done; lia.
  - destruct (Py.Z_compare_float z f) as [[]|] eqn:Hz; try done. intros _.
    rewrite (Z_compare_float_Eq a _ _ Hz).
    destruct (Z.compare_spec a z), (Z.leb_spec a z); try done; lia.
Qed.

Lemma eq_le_r x z b : Py.eq x (Int z) = true -> Py.le x (Int b) = (z <=? b).
Proof.
  unfold Py.eq, Py.le. destruct x as [y|f]; cbn [Py.compare].
  - destruct (Z.compare_spec y z); try done. subst y. intros _.
    destruct (Z.compare_spec z b), (Z.leb_spec z b); try done; lia.
  - destruct (Py.Z_compare_float z f) as [[]|] eqn:Hz; try done. intros _.
    rewrite (Z_compare_float_Eq b _ _ Hz). cbn.
    destruct (Z.compare_spec b z), (Z.leb_spec z b); try done; lia.
Qed.

Lemma eq_le_infinity x z :
  Py.eq x (Int z) = true -> Py.le x (Flt infinity) = true.
Proof.
  unfold Py.eq, Py.le. destruct x as [y|f]; cbn [Py.compare]; [done|].
  unfold Py.Z_compare_float, Py.float_compare.
  rewrite FloatAxioms.compare_spec.
  destruct (Prim2SF f) as [s|s| |s m e]; try done; by destruct s.
Qed.

Lemma int_is_Int x v : Py.int x = Ok v -> exists z, v = Int z.
Proof.
  destruct x as [z|f]; cbn [Py.int].
  - intros [= <-]. by exists z.
  - destruct (Py.float_to_Z _ f) as [z|]; [|done]. cbn [res_bind].
    intros [= <-]. by exists z.
Qed.

(** [x - 0] is [x]. *)
Lemma float_sub_zero f : (f - 0)%float = f.
Proof.
  pose proof (sub_spec f 0) as Hs.
  pose proof (SF2Prim_Prim2SF f) as Hf.
  pose proof (SF2Prim_Prim2SF (f - 0)) as Hf0.
  change (Prim2SF 0) with (S754_zero false) in Hs.
  destruct (Prim2SF f) as [[]| | |] eqn:E; cbn in Hs;
    rewrite Hs in Hf0; by rewrite <- Hf0, <- Hf.
Qed.

Lemma sub_zero a v : Py.sub a (Int 0) = Ok v -> v = a.
Proof.
  destruct a as [z|f].
  - intros [= <-]. f_equal. lia.
  - change (Py.sub (Flt f) (Int 0)) with (Ok (Flt (f - 0))).
    intros [= <-]. by rewrite float_sub_zero.
Qed.

(** ** The float of an integer *)

Lemma digits2_pos_bounds p :
  2 ^ (Z.pos (digits2_pos p) - 1) <= Z.pos p < 2 ^ Z.pos (digits2_pos p).
Proof.
  induction p as [p IH|p IH|]; cbn [digits2_pos]; [| |done].
  - rewrite Pos2Z.inj_succ. change (Z.pos p~1) with (2 * Z.pos p + 1).
    replace (Z.succ (Z.pos (digits2_pos p)) - 1)
      with (Z.succ (Z.pos (digits2_pos p) - 1)) by lia.
    rewrite !Z.pow_succ_r by lia. lia.
  - rewrite Pos2Z.inj_succ. change (Z.pos p~0) with (2 * Z.pos p).
    replace (Z.succ (Z.pos (digits2_pos p)) - 1)
      with (Z.succ (Z.pos (digits2_pos p) - 1)) by lia.
    rewrite !Z.pow_succ_r by lia. lia.
Qed.

Lemma digits2_pos_unique p k :
  2 ^ (k - 1) <= Z.pos p < 2 ^ k -> Z.pos (digits2_pos p) = k.
Proof.
  intros [Hl Hu]. pose proof (digits2_pos_bounds p) as [Hl' Hu'].
  set (d := Z.pos (digits2_pos p)) in *.
  assert (0 < d) by (unfold d; lia).
  assert (0 < k).
  { destruct (Z.lt_ge_cases 0 k); [done|]. exfalso.
    assert (2 ^ k <= 1); [|lia].
    destruct (Z.eq_dec k 0) as [->|]; [done|].
    rewrite Z.pow_neg_r by lia. lia. }
  destruct (Z.lt_trichotomy d k) as [Hlt|[Heq|Hgt]]; [|done|].
  - assert (2 ^ d <= 2 ^ (k - 1)) by (apply Z.pow_le_mono_r; lia). lia.
  - assert (2 ^ k <= 2 ^ (d - 1)) by (apply Z.pow_le_mono_r; lia). lia.
Qed.

Lemma shr_1_m mrs : 0 <= shr_m mrs -> shr_m (shr_1 mrs) = shr_m mrs / 2.
Proof.
  destruct mrs as [m r s]. cbn [shr_m].
  destruct m as [|[p|p|]|p]; cbn [shr_1 shr_m]; intros Hm; try lia.
  - reflexivity.
  - change (Z.pos p~1) with (2 * Z.pos p + 1). apply (Z.div_unique _ _ _ 1); lia.
  - change (Z.pos p~0) with (2 * Z.pos p). apply (Z.div_unique _ _ _ 0); lia.
  - reflexivity.
Qed.

Lemma iter_shr_m n mrs :
  0 <= shr_m mrs ->
  shr_m (SpecFloat.iter_pos shr_1 n mrs) = shr_m mrs / 2 ^ Z.pos n.
Proof.
  revert mrs. induction n as [n IH|n IH|]; intros mrs Hm; cbn [SpecFloat.iter_pos].
  - assert (0 <= shr_m (shr_1 mrs))
      by (rewrite shr_1_m by done; apply Z.div_pos; lia).
    assert (0 <= shr_m (SpecFloat.iter_pos shr_1 n (shr_1 mrs)))
      by (rewrite IH by done; apply Z.div_pos; lia).
    rewrite !IH, shr_1_m by done.
    rewrite !Z.div_div by lia. f_equal.
    change (Z.pos n~1) with (2 * Z.pos n + 1).
    replace (2 * Z.pos n + 1) with (1 + Z.pos n + Z.pos n) by lia.
    rewrite !Z.pow_add_r by lia. lia.
  - assert (0 <= shr_m (SpecFloat.iter_pos shr_1 n mrs))
      by (rewrite IH by done; apply Z.div_pos; lia).
    rewrite !IH by done. rewrite Z.div_div by lia. f_equal.
    change (Z.pos n~0) with (2 * Z.pos n).
    replace (2 * Z.pos n) with (Z.pos n + Z.pos n) by lia.
    rewrite Z.pow_add_r by lia. lia.
  - rewrite shr_1_m by done. reflexivity.
Qed.

Lemma fexp_normal x : -1021 <= x -> fexp prec emax x = x - 53.
Proof. unfold fexp, SpecFloat.emin, prec, emax. lia. Qed.

Lemma shr_fexp_noshift q e :
  Z.pos (digits2_pos q) = 53 -> -1074 <= e ->
  shr_fexp prec emax (Z.pos q) e loc_Exact
  = ({| shr_m := Z.pos q; shr_r := false; shr_s := false |}, e).
Proof.
  intros Hq He. unfold shr_fexp. cbn [Zdigits2 shr_record_of_loc].
  rewrite Hq, fexp_normal by lia.
  replace (53 + e - 53 - e) with 0 by lia. reflexivity.
Qed.

Lemma bounded_normal q e :
  Z.pos (digits2_pos q) = 53 -> -1074 <= e -> e <= 971 ->
  bounded prec emax q e = true.
Proof.
  intros Hq He He'. unfold bounded, canonical_mantissa.
  rewrite Hq, fexp_normal by lia. apply andb_true_iff. split.
  - apply Z.eqb_eq. lia.
  - apply Z.leb_le. unfold emax, prec. lia.
Qed.

Lemma round_tail s m e :
  2 ^ 52 <= m <= 2 ^ 53 -> -1074 <= e ->
  representable (rounded s (shr_fexp prec emax m e loc_Exact)).
Proof.
  intros [Hl Hu] He.
  change (2 ^ 52) with 4503599627370496 in Hl.
  change (2 ^ 53) with 9007199254740992 in Hu.
  destruct m as [|q|q]; [lia| |lia].
  destruct (Z.eq_dec (Z.pos q) 9007199254740992) as [Heq|Hne].
  - injection Heq as ->. unfold shr_fexp.
    cbn [Zdigits2 shr_record_of_loc].
    change (Z.pos (digits2_pos 9007199254740992)) with 54.
    rewrite fexp_normal by lia.
    replace (54 + e - 53 - e) with 1 by lia.
    unfold rounded. cbn [shr SpecFloat.iter_pos shr_1 fst snd shr_m].
    destruct (Z.leb_spec (e + 1) (emax - prec)); [|done].
    apply bounded_normal; [done|lia|]. unfold emax, prec in *. lia.
  - assert (Z.pos (digits2_pos q) = 53) as Hq
      by (apply digits2_pos_unique; change (2 ^ (53 - 1)) with 4503599627370496;
          change (2 ^ 53) with 9007199254740992; lia).
    rewrite shr_fexp_noshift by done. unfold rounded. cbn [fst snd shr_m].
    destruct (Z.leb_spec e (emax - prec)); [|done].
    apply bounded_normal; [done|lia|]. unfold emax, prec in *. lia.
Qed.

Lemma binary_round_aux_rounded s m e l :
  binary_round_aux prec emax s m e l
  = let r := shr_fexp prec emax m e l in
    rounded s
      (shr_fexp prec emax
         (round_nearest_even (shr_m (fst r)) (loc_of_shr_record (fst r)))
         (snd r) loc_Exact).
Proof.
  unfold binary_round_aux, rounded. cbv zeta.
  destruct (shr_fexp prec emax m e l) as [mrs' e'].
  cbn [fst snd].
  by destruct (shr_fexp prec emax _ e' loc_Exact) as [mrs'' e''].
Qed.

Lemma round_nearest_even_bounds m l :
  m <= round_nearest_even m l <= m + 1.
Proof.
  unfold round_nearest_even. destruct l as [|[]]; try lia.
  destruct (Z.even m); lia.
Qed.

Lemma shl_align_spec m e e' :
  e' <= e ->
  Z.pos (fst (shl_align m e e')) = Z.pos m * 2 ^ (e - e')
  /\ snd (shl_align m e e') = e'.
Proof.
  intros He. unfold shl_align. destruct (e' - e) as [|p|d] eqn:E.
  - replace (e - e') with 0 by lia. cbn [fst snd]. lia.
  - lia.
  - replace (e - e') with (Z.pos d) by lia. cbn [fst snd]. split; [|done].
    change (Pos.iter xO m d) with (shift_pos d m).
    rewrite shift_pos_correct, Z.pow_pos_fold. lia.
Qed.

(** The nearest binary64 of a non-zero integer is a binary64 or an
    infinity, not a zero. *)
Lemma binary_round_int s p : representable (binary_round prec emax s p 0).
Proof.
  unfold binary_round.
  pose proof (digits2_pos_bounds p) as [Hl Hu].
  set (d := Z.pos (digits2_pos p)) in *.
  assert (0 < d) as Hd by (unfold d; lia).
  rewrite Z.add_0_r, fexp_normal by lia.
  destruct (Z.le_gt_cases d 53) as [Hsmall|Hlarge].
  - destruct (shl_align_spec p 0 (d - 53) ltac:(lia)) as [Hm He].
    destruct (shl_align p 0 (d - 53)) as [mz ez]. cbn [fst snd] in *.
    subst ez. replace (0 - (d - 53)) with (53 - d) in Hm by lia.
    assert (Z.pos (digits2_pos mz) = 53) as Hq.
    { apply digits2_pos_unique. rewrite Hm. change (53 - 1) with 52.
      replace 52 with ((d - 1) + (53 - d)) at 1 by lia.
      replace 53 with (d + (53 - d)) at 4 by lia.
      rewrite !Z.pow_add_r by lia.
      assert (0 < 2 ^ (53 - d)) by (apply Z.pow_pos_nonneg; lia). nia. }
    rewrite binary_round_aux_rounded. cbv zeta.
    rewrite shr_fexp_noshift by (done || lia).
    cbn [fst snd shr_m loc_of_shr_record round_nearest_even].
    apply round_tail; [|lia].
    pose proof (digits2_pos_bounds mz) as Hb. rewrite Hq in Hb.
    change (53 - 1) with 52 in Hb. lia.
  - assert (shl_align p 0 (d - 53) = (p, 0)) as ->.
    { unfold shl_align. destruct (d - 53 - 0) eqn:E; try done; lia. }
    rewrite binary_round_aux_rounded. cbv zeta.
    unfold shr_fexp at 2 3 4. cbn [Zdigits2 shr_record_of_loc]. fold d.
    rewrite Z.add_0_r, fexp_normal by lia.
    destruct (d - 53 - 0) as [|n|n] eqn:Hn; try lia.
    cbn [shr fst snd].
    pose proof (iter_shr_m n {| shr_m := Z.pos p; shr_r := false; shr_s := false |}
                  ltac:(cbn; lia)) as Hm.
    cbn [shr_m] in Hm.
    set (mrs := SpecFloat.iter_pos shr_1 n _) in *.
    assert (2 ^ 52 <= shr_m mrs < 2 ^ 53) as [Hl' Hu'].
    { rewrite Hm. assert (0 < 2 ^ Z.pos n) by (apply Z.pow_pos_nonneg; lia).
      split.
      - apply Z.div_le_lower_bound; [done|].
        rewrite <- Z.pow_add_r by lia.
        replace (Z.pos n + 52) with (d - 1) by lia. done.
      - apply Z.div_lt_upper_bound; [done|].
        rewrite <- Z.pow_add_r by lia.
        replace (Z.pos n + 53) with d by lia. done. }
    pose proof (round_nearest_even_bounds (shr_m mrs) (loc_of_shr_record mrs)).
    apply round_tail; lia.
Qed.

Lemma float_of_Z_nonzero z :
  z <> 0 ->
  match binary_normalize prec emax z 0 false with
  | S754_infinity _ => True
  | sf => (SF2Prim sf =? 0)%float = false
  end.
Proof.
  intros Hz.
  assert (representable (binary_normalize prec emax z 0 false)) as Hr
    by (destruct z; [done|apply binary_round_int..]).
  destruct (binary_normalize prec emax z 0 false) as [| | |s m e] eqn:E;
    try done.
  cbn in Hr. rewrite FloatAxioms.eqb_spec, Prim2SF_SF2Prim by done. by destruct s.
Qed.

(** ** The exceptions of the arithmetic *)

Lemma raises_only_Ok {A} (P : exn -> Prop) (a : A) : raises_only P (Ok a).
Proof. done. Qed.

Lemma raises_only_bind {A B} (P : exn -> Prop) (r : res A) (k : A -> res B) :
  raises_only P r -> (forall a, r = Ok a -> raises_only P (k a)) ->
  raises_only P (res_bind r k).
Proof.
  intros Hr Hk. destruct r as [a|x]; [by apply Hk|].
  intros err [= <-]. by apply Hr.
Qed.

Lemma to_float_raises x : raises_only (eq OverflowError) (Py.to_float x).
Proof.
  destruct x as [z|f]; [|done]. unfold Py.to_float, Py.float_of_Z.
  destruct (binary_normalize _ _ _ _ _); by intros err [= <-].
Qed.

Lemma arith_raises (P : exn -> Prop) fz ff x y :
  P OverflowError -> raises_only P (Py.arith fz ff x y).
Proof.
  intros HP. unfold Py.arith.
  pose proof (to_float_raises x) as Hx. pose proof (to_float_raises y) as Hy.
  destruct x as [a|fa], y as [b|fb]; try done.
  all: destruct (Py.to_float _) as [u|eu]; cbn [res_bind];
    [|intros err [= <-]; by rewrite <- (Hx eu eq_refl) || rewrite <- (Hy eu eq_refl)].
  all: try done.
  all: destruct (Py.to_float _) as [w|ew]; cbn [res_bind];
    [done|intros err [= <-]; by rewrite <- (Hy ew eq_refl)].
Qed.

Lemma float_to_Z_raises (P : exn -> Prop) conv f :
  P OverflowError -> P (ValueError cannot_convert_float_NaN_to_integer) ->
  raises_only P (Py.float_to_Z conv f).
Proof.
  intros HO HN. unfold Py.float_to_Z.
  destruct (Prim2SF f); by intros err [= <-].
Qed.

Lemma int_raises (P : exn -> Prop) x :
  P OverflowError -> P (ValueError cannot_convert_float_NaN_to_integer) ->
  raises_only P (Py.int x).
Proof.
  intros HO HN. destruct x as [z|f]; [done|]. cbn [Py.int].
  apply raises_only_bind; [by apply float_to_Z_raises|done].
Qed.

Lemma round_raises (P : exn -> Prop) x :
  P OverflowError -> P (ValueError cannot_convert_float_NaN_to_integer) ->
  raises_only P (Py.round x).
Proof.
  intros HO HN. destruct x as [z|f]; [done|]. cbn [Py.round].
  apply raises_only_bind; [by apply float_to_Z_raises|done].
Qed.

Lemma eq_zero_float f :
  Py.eq (Flt f) (Int 0) = false -> (f =? 0)%float = false.
Proof.
  unfold Py.eq. cbn [Py.compare]. unfold Py.Z_compare_float.
  rewrite FloatAxioms.eqb_spec.
  destruct (Prim2SF f) as [s|s| |s m e]; try done; by destruct s.
Qed.

(** A division by a number that is not equal to 0 does not raise
    [ZeroDivisionError]. *)
Lemma truediv_raises (P : exn -> Prop) x y :
  P OverflowError -> Py.eq y (Int 0) = false ->
  raises_only P (Py.truediv x y).
Proof.
  intros HP Hy. unfold Py.truediv.
  pose proof (to_float_raises x) as Hx.
  assert (forall a, raises_only P
            (let! b := Py.to_float y in
             if (b =? 0)%float then Raise ZeroDivisionError
             else Ok (Flt (a / b)))) as Hdiv.
  { intros a. destruct y as [b|fb]; cbn [Py.to_float res_bind].
    - unfold Py.float_of_Z.
      assert (b <> 0) as Hb.
      { intros ->. by rewrite le_Int in Hy || (unfold Py.eq in Hy; cbn in Hy). }
      pose proof (float_of_Z_nonzero b Hb) as Hnz.
      destruct (binary_normalize _ _ _ _ _); cbn [res_bind];
        try (by intros err [= <-]); by rewrite Hnz.
    - by rewrite (eq_zero_float _ Hy). }
  destruct x as [a|fa].
  - destruct y as [b|fb].
    + unfold Py.Z_truediv.
      assert ((b =? 0) = false) as ->.
      { apply Z.eqb_neq. intros ->. unfold Py.eq in Hy. by cbn in Hy. }
      destruct (SFdiv _ _ _ _); cbn [res_bind]; try done;
        by intros err [= <-].
    + destruct (Py.to_float (Int a)) as [u|eu] eqn:E; cbn [res_bind].
      * apply Hdiv.
      * intros err [= <-]. by rewrite <- (Hx eu eq_refl).
  - cbn [Py.to_float res_bind]. destruct y; apply Hdiv.
Qed.

(** * The mortgage schedule *)

Ltac simpl_mortgage :=
  cbn [Mortgage.principal Mortgage.tenor Mortgage.rate Mortgage.loan_periods
       Mortgage.interest_schedule Mortgage.principal_schedule
       Mortgage.amortization_schedule Mortgage.monthly_payment
       Mortgage.set_loan_periods Mortgage.set_interest_schedule
       Mortgage.set_principal_schedule Mortgage.set_amortization_schedule
       Mortgage.set_monthly_payment] in *.

Section MortgageFacts.
Context `{NumPy}.




(** ** The shape of a schedule *)

Lemma array_add_length a b c :
  array_add a b = Ok c -> length a = length c /\ length b = length c.
Proof.
  revert b c. induction a as [|x a IH]; intros [|y b] c; cbn [array_add];
    try discriminate.
  - by intros [= <-].
  - destruct (Py.add x y) as [z|]; [|discriminate]. cbn [res_bind].
    destruct (array_add a b) as [r|] eqn:Hr; [|discriminate].
    cbn [res_bind]. intros [= <-]. destruct (IH _ _ Hr) as [Ha Hb].
    cbn [length]. by rewrite Ha, Hb.
Qed.

Lemma array_add_lookup a b c k x y :
  array_add a b = Ok c -> a !! k = Some x -> b !! k = Some y ->
  exists z, Py.add x y = Ok z /\ c !! k = Some z.
Proof.
  revert b c k. induction a as [|x' a IH]; intros [|y' b] c k;
    cbn [array_add]; try discriminate.
  destruct (Py.add x' y') as [z|] eqn:Hz; [|discriminate]. cbn [res_bind].
  destruct (array_add a b) as [r|] eqn:Hr; [|discriminate].
  cbn [res_bind]. intros [= <-]. destruct k as [|k]; cbn.
  - intros [= <-] [= <-]. eauto.
  - apply IH. exact Hr.
Qed.

Lemma loan_periods_range T :
  map (fun i => i + 1) (Py.range 0 (T * 12)) = Py.range 1 (T * 12 + 1).
Proof.
  unfold Py.range. rewrite map_map.
  replace (T * 12 + 1 - 1) with (T * 12 - 0) by lia.
  apply map_ext. intros i. lia.
Qed.

(** What [Mortgage.calculate_all_fields] leaves when it completes. *)
Lemma Mortgage_new_inv P T r m :
  Mortgage.new P T r = Ok m ->
  Mortgage.principal m = P /\ Mortgage.tenor m = T /\ Mortgage.rate m = r
  /\ Mortgage.loan_periods m = Some (Py.range 1 (T * 12 + 1))
  /\ exists i p a,
       Mortgage.interest_schedule m = Some i
       /\ Mortgage.principal_schedule m = Some p
       /\ Mortgage.amortization_schedule m = Some a
       /\ length i = Z.to_nat (T * 12)
       /\ length p = Z.to_nat (T * 12)
       /\ array_add i p = Ok a
       /\ Mortgage.monthly_payment m = Some (default (Int 0) (head a)).
Proof.
  unfold Mortgage.new, Mortgage.__init__.
  destruct (Mortgage.calculate_all_fields _) as [[[]|e] m'] eqn:Hrun;
    cbn [outcome final fst snd res_bind]; [|discriminate].
  intros [= ->]. unfold Mortgage.calculate_all_fields in Hrun.
  run_inv Hrun.
  repeat match goal with
         | H : _ = (Ok _, _) |- _ => step_inv H
         end.
  simpl_mortgage.
  repeat match goal with
         | H : Ok _ = Ok ?x |- _ =>
             is_var x; injection H; clear H; intros H; subst x
         end.
  rewrite loan_periods_range in *.
  assert (length (Py.range 1 (T * 12 + 1)) = Z.to_nat (T * 12)) as Hlen
    by (rewrite range_length; f_equal; lia).
  do 4 (split; [done|]).
  destruct (T =? 0) eqn:HT.
  - apply Z.eqb_eq in HT. subst T. simplify_eq. cbn [get res_bind] in *.
    simplify_eq. by eexists [], [], [].
  - cbn [get res_bind] in *.
    repeat match goal with
           | H : res_bind _ _ = Ok _ |- _ => res_inv H
           | H : (if ?b then _ else _) = Ok _ |- _ => destruct b eqn:?
           | H : Ok _ = Ok _ |- _ => injection H; clear H; intros H; subst
           end;
      cbn [get res_bind] in *; simplify_eq;
      (eexists _, _, _; do 3 (split; [reflexivity|]);
       do 2 (split; [by rewrite ?length_map, ?length_replicate, ?Hlen|]);
       split; [eassumption|];
       by (destruct a; simplify_eq)).
Qed.

(** Whenever [Mortgage(principal, tenor, rate)] is built, its arguments are
    kept, [loan_periods] counts the months from 1 to [12 * tenor], and the
    interest, principal and amortization schedules have one entry per
    month (none when the tenor is negative). *)
Theorem mortgage_schedules_cover_the_tenor P T r m :
  Mortgage.new P T r = Ok m ->
  Mortgage.principal m = P /\ Mortgage.tenor m = T /\ Mortgage.rate m = r
  /\ Mortgage.loan_periods m = Some (Py.range 1 (T * 12 + 1))
  /\ exists i p a,
       Mortgage.interest_schedule m = Some i
       /\ Mortgage.principal_schedule m = Some p
       /\ Mortgage.amortization_schedule m = Some a
       /\ length i = Z.to_nat (T * 12)
       /\ length p = Z.to_nat (T * 12)
       /\ length a = Z.to_nat (T * 12).
Proof.
  intros Hm.
  destruct (Mortgage_new_inv _ _ _ _ Hm)
    as (HP & HT & Hr & Hl & i & p & a & Hi & Hp & Ha & Hli & Hlp & Hadd & _).
  do 4 (split; [done|]). exists i, p, a. do 5 (split; [done|]).
  destruct (array_add_length _ _ _ Hadd) as [<- _]. done.
Qed.

(** Whenever a mortgage is built, each entry of its amortization schedule
    is the sum of the interest and of the principal paid that month, and
    the monthly payment is the first entry, or 0 when the schedule is
    empty. *)
Theorem mortgage_payment_is_interest_plus_principal P T r m :
  Mortgage.new P T r = Ok m ->
  exists i p a,
    Mortgage.interest_schedule m = Some i
    /\ Mortgage.principal_schedule m = Some p
    /\ Mortgage.amortization_schedule m = Some a
    /\ (forall k x y,
          i !! k = Some x -> p !! k = Some y ->
          exists z, Py.add x y = Ok z /\ a !! k = Some z)
    /\ Mortgage.monthly_payment m = Some (default (Int 0) (head a))
    /\ (T <= 0 -> Mortgage.monthly_payment m = Some (Int 0)).
Proof.
  intros Hm.
  destruct (Mortgage_new_inv _ _ _ _ Hm)
    as (HP & HT & Hr & Hl & i & p & a & Hi & Hp & Ha & Hli & Hlp & Hadd & Hmp).
  exists i, p, a. do 3 (split; [done|]).
  split; [intros k x y; by apply array_add_lookup|].
  split; [done|]. intros Hneg. rewrite Hmp.
  destruct (array_add_length _ _ _ Hadd) as [Hia _].
  rewrite Hli in Hia. replace (Z.to_nat (T * 12)) with 0%nat in Hia by lia.
  by destruct a.
Qed.

Lemma truediv_by_zero P : Py.truediv P (Int 0) = Raise ZeroDivisionError.
Proof. destruct P; reflexivity. Qed.

(** A negative tenor gives no month.  At a rate equal to 0 the principal
    is then divided by 0 periods and the constructor raises
    [ZeroDivisionError]; at another rate, once [rate / 12] is computed, the
    mortgage is built, with empty schedules and a monthly payment of 0. *)
Theorem mortgage_negative_tenor P T r :
  T < 0 ->
  Mortgage.new P T r
  = if Py.eq r (Int 0) then Raise ZeroDivisionError
    else
      let! _ := Py.truediv r (Int 12) in
      Ok (Mortgage.mk P T r (Some []) (Some []) (Some []) (Some [])
            (Some (Int 0))).
Proof.
  intros HT.
  assert (Py.range 0 (T * 12) = []) as Hrange.
  { unfold Py.range. by replace (Z.to_nat (T * 12 - 0)) with 0%nat by lia. }
  assert ((T =? 0) = false) as HT0 by lia.
  unfold Mortgage.new, Mortgage.__init__, Mortgage.calculate_all_fields.
  erewrite bind_ok by (apply assign_ok; reflexivity).
  destruct (Py.eq r (Int 0)) eqn:Hr.
  - erewrite bind_ok
      by (apply assign_ok; simpl_mortgage; rewrite HT0, Hr, Hrange;
          reflexivity).
    erewrite bind_raise; [reflexivity|].
    apply assign_raise. simpl_mortgage. rewrite HT0, Hr, Hrange.
    cbn [get res_bind map length Z.of_nat]. by rewrite truediv_by_zero.
  - destruct (Py.truediv r (Int 12)) as [q|e] eqn:Hq.
    + erewrite bind_ok
        by (apply assign_ok; simpl_mortgage; rewrite HT0, Hr, Hq, Hrange;
            reflexivity).
      erewrite bind_ok
        by (apply assign_ok; simpl_mortgage; rewrite HT0, Hr, Hq, Hrange;
            reflexivity).
      erewrite bind_ok
        by (apply assign_ok; simpl_mortgage; rewrite HT0; reflexivity).
      unfold Mortgage._calculate_monthly_payment.
      erewrite assign_ok by reflexivity.
      cbn [outcome final fst snd res_bind]. simpl_mortgage.
      rewrite Hrange. reflexivity.
    + erewrite bind_raise; [reflexivity|].
      apply assign_raise. simpl_mortgage. by rewrite HT0, Hr, Hq.
Qed.

End MortgageFacts.



(** * The income tax calculator *)

Ltac simpl_calc :=
  cbn [
    IncomeTaxCalc.employment_income IncomeTaxCalc.rent
    IncomeTaxCalc.other_income IncomeTaxCalc.life_insurance_premium
    IncomeTaxCalc.medical_expense IncomeTaxCalc.number_of_dependents
    IncomeTaxCalc.is_rent_program IncomeTaxCalc.social_security_expense
    IncomeTaxCalc.tax_deduction IncomeTaxCalc.is_resident_for_tax_purposes
    IncomeTaxCalc.current_date IncomeTaxCalc.total_income
    IncomeTaxCalc.employment_income_after_rent_program
    IncomeTaxCalc.employment_income_deduction
    IncomeTaxCalc.employment_income_for_tax
    IncomeTaxCalc.total_income_for_tax IncomeTaxCalc.deduction_dependents
    IncomeTaxCalc.deduction_total IncomeTaxCalc.taxable_income
    IncomeTaxCalc.national_income_tax_bracket
    IncomeTaxCalc.national_income_tax_rate
    IncomeTaxCalc.national_income_tax IncomeTaxCalc.local_income_tax
    IncomeTaxCalc.total_income_tax IncomeTaxCalc.net_income_after_tax
    IncomeTaxCalc.effective_tax_rate IncomeTaxCalc.set_employment_income
    IncomeTaxCalc.set_rent IncomeTaxCalc.set_other_income
    IncomeTaxCalc.set_life_insurance_premium
    IncomeTaxCalc.set_medical_expense
    IncomeTaxCalc.set_number_of_dependents
    IncomeTaxCalc.set_is_rent_program
    IncomeTaxCalc.set_social_security_expense
    IncomeTaxCalc.set_tax_deduction
    IncomeTaxCalc.set_is_resident_for_tax_purposes
    IncomeTaxCalc.set_current_date IncomeTaxCalc.set_total_income
    IncomeTaxCalc.set_employment_income_after_rent_program
    IncomeTaxCalc.set_employment_income_deduction
    IncomeTaxCalc.set_employment_income_for_tax
    IncomeTaxCalc.set_total_income_for_tax
    IncomeTaxCalc.set_deduction_dependents
    IncomeTaxCalc.set_deduction_total IncomeTaxCalc.set_taxable_income
    IncomeTaxCalc.set_national_income_tax_bracket
    IncomeTaxCalc.set_national_income_tax_rate
    IncomeTaxCalc.set_national_income_tax
    IncomeTaxCalc.set_local_income_tax IncomeTaxCalc.set_total_income_tax
    IncomeTaxCalc.set_net_income_after_tax
    IncomeTaxCalc.set_effective_tax_rate
  ] in *.

Section IncomeTaxFacts.
Import IncomeTaxCalc.

(** The values that a completed recomputation leaves. *)
Lemma completed_recomputation_floors today p p' :
  calculate_all_fields today p = (Ok tt, p') ->
  exists ti tax,
    taxable_income p' = Some ti /\ Py.ge ti (Int 0) = true
    /\ total_income_tax p' = Some tax /\ Py.ge tax (Int 0) = true.
Proof.
  intros H. unfold calculate_all_fields in H. run_inv H.
  method_inv_all; simpl_calc;
  repeat match goal with
  | H : res_bind _ _ = Ok ?x |- context [?x] => res_inv H; simplify_eq
  end;
  eexists _, _; (split; [reflexivity|]); (split; [apply max_zero_ge|]);
  (split; [reflexivity|apply max_zero_ge]).
Qed.

(** Every method leaves the field [pi] alone, but for the one that computes
    it, which floors it at 0. *)
Ltac floor_steps pi :=
  unfold calculate_all_fields;
  repeat (apply invariant_bind; [|intros _]);
  first
    [ apply (invariant_through pi
               (fun o => o = _ \/ exists v, o = Some v /\ _));
      preserves_tac
    | lazymatch goal with
      | |- invariant _ ?m => let h := head_of m in unfold h
      end;
      apply invariant_assign;
      let s := fresh "s" in
      let v := fresh "v" in
      let Hv := fresh "Hv" in
      intros s v _ Hv; res_inv Hv; injection Hv as <-;
      right; eexists; split; [by destruct s|apply max_zero_ge] ].

Lemma taxable_income_floored today p :
  invariant
    (fun q => taxable_income q = taxable_income p
              \/ exists ti, taxable_income q = Some ti
                            /\ Py.ge ti (Int 0) = true)
    (calculate_all_fields today).
Proof. floor_steps taxable_income. Qed.

Lemma total_income_tax_floored today p :
  invariant
    (fun q => total_income_tax q = total_income_tax p
              \/ exists tax, total_income_tax q = Some tax
                             /\ Py.ge tax (Int 0) = true)
    (calculate_all_fields today).
Proof. floor_steps total_income_tax. Qed.

(** C6.  Whatever the inputs of an income-tax profile are, and whether its
    recomputation completes or raises, the [taxable_income] that the
    recomputation leaves is either the one that was there before (the
    recomputation raised before it computed the field) or a value that is
    [>= 0], and so is the [total_income_tax]; when the recomputation
    completes, both fields are set and [>= 0]. *)
Theorem income_tax_floors today p :
  (taxable_income (final (calculate_all_fields today p)) = taxable_income p
   \/ exists ti,
        taxable_income (final (calculate_all_fields today p)) = Some ti
        /\ Py.ge ti (Int 0) = true)
  /\ (total_income_tax (final (calculate_all_fields today p))
       = total_income_tax p
      \/ exists tax,
           total_income_tax (final (calculate_all_fields today p)) = Some tax
           /\ Py.ge tax (Int 0) = true)
  /\ (outcome (calculate_all_fields today p) = Ok tt ->
      exists ti tax,
        taxable_income (final (calculate_all_fields today p)) = Some ti
        /\ Py.ge ti (Int 0) = true
        /\ total_income_tax (final (calculate_all_fields today p)) = Some tax
        /\ Py.ge tax (Int 0) = true).
Proof.
  split; [by apply taxable_income_floored; left|].
  split; [by apply total_income_tax_floored; left|].
  intros Hrun. apply (completed_recomputation_floors today p).
  destruct (calculate_all_fields today p) as [[[]|x] p']; [done|discriminate].
Qed.

(** *** The defaulted inputs *)

Lemma run_social_security_expense s s' :
  _calculate_social_security_expense s = (Ok tt, s') ->
  (exists v, social_security_expense s = Some v /\ s' = s)
  \/ (social_security_expense s = None
      /\ exists income v,
           employment_income_after_rent_program s = Some income
           /\ estimated_social_security_expense income = Ok v
           /\ s' = set_social_security_expense (Some v) s).
Proof.
  intros H. method_inv H.
  - right. destruct (social_security_expense s); [discriminate|].
    split; [done|].
    destruct (employment_income_after_rent_program s) as [income|];
      [|discriminate].
    cbn [get res_bind] in H. cbv zeta in H. res_inv H. simplify_eq.
    exists income. eexists. split; [done|]. split; [|done].
    unfold estimated_social_security_expense.
    unfold _HEALTH_INSURANCE_RATE, _SOCIAL_PENSION_RATE in *.
    change (1390000 * 12) with 16680000 in *.
    change (635000 * 12) with 7620000 in *.
    rewrite E, E0. cbn [res_bind]. rewrite E1. cbn [res_bind].
    rewrite E2. done.
  - left. destruct (social_security_expense s); [eauto|discriminate].
Qed.

Lemma first_recomputation_estimates today p p' :
  social_security_expense p = None ->
  calculate_all_fields today p = (Ok tt, p') ->
  exists income v,
    employment_income_after_rent_program p' = Some income
    /\ estimated_social_security_expense income = Ok v
    /\ social_security_expense p' = Some v.
Proof.
  intros Hv H. unfold calculate_all_fields in H. run_inv H.
  match goal with
  | H : _calculate_social_security_expense _ = _ |- _ =>
      apply run_social_security_expense in H;
      destruct H as [(v & Hs & ->)|(_ & income & v & Hi & He & ->)]
  end.
  - method_inv_all; simpl_calc; congruence.
  - exists income, v. method_inv_all; simpl_calc; done.
Qed.

Lemma first_recomputation_dates today p p' :
  current_date p = None ->
  calculate_all_fields today p = (Ok tt, p') ->
  current_date p' = Some today.
Proof.
  intros Hv H. unfold calculate_all_fields in H. run_inv H.
  method_inv_all; simpl_calc; try done; rewrite Hv in *; by simplify_eq.
Qed.

(** Once set, the two defaulted inputs are never written again, whether
    the recomputation completes or raises. *)
Lemma social_security_expense_kept today v :
  invariant (fun p => social_security_expense p = Some v)
    (calculate_all_fields today).
Proof.
  unfold calculate_all_fields.
  repeat (apply invariant_bind; [|intros _]);
    try (apply invariant_of_preserves; preserves_tac).
  intros s Hs. unfold _calculate_social_security_expense, when, bind, eval.
  rewrite Hs. exact Hs.
Qed.

Lemma current_date_kept today d :
  invariant (fun p => current_date p = Some d) (calculate_all_fields today).
Proof.
  unfold calculate_all_fields.
  repeat (apply invariant_bind; [|intros _]);
    try (apply invariant_of_preserves; preserves_tac).
  intros s Hs. unfold _calculate_current_date, when, bind, eval.
  rewrite Hs. exact Hs.
Qed.

(** C10.  When a profile whose [social_security_expense] is unset is
    recomputed for the first time, the estimate computed from
    [employment_income_after_rent_program] is stored in the input field
    [social_security_expense] itself.  Every later recomputation of the
    object, on whatever day and whatever else has been assigned in between
    (employment income, rent, rent-program flag, ...), leaves that value
    in the field, whether it completes or raises.  The same holds of a
    [current_date] defaulted to the day of the first recomputation. *)
Theorem defaulted_inputs_are_sticky today p p1 :
  social_security_expense p = None ->
  calculate_all_fields today p = (Ok tt, p1) ->
  (exists income v,
      employment_income_after_rent_program p1 = Some income
      /\ estimated_social_security_expense income = Ok v
      /\ social_security_expense p1 = Some v
      /\ forall today' q,
           social_security_expense q = social_security_expense p1 ->
           social_security_expense (final (calculate_all_fields today' q))
           = Some v)
  /\ (current_date p = None ->
      current_date p1 = Some today
      /\ forall today' q,
           current_date q = current_date p1 ->
           current_date (final (calculate_all_fields today' q)) = Some today).
Proof.
  intros Hnone Hrun. split.
  - destruct (first_recomputation_estimates _ _ _ Hnone Hrun)
      as (income & v & Hi & He & Hv).
    exists income, v. repeat split; try done.
    intros today' q Hq. apply social_security_expense_kept. congruence.
  - intros Hd. pose proof (first_recomputation_dates _ _ _ Hd Hrun) as Hd1.
    split; [done|]. intros today' q Hq. apply current_date_kept. congruence.
Qed.

(** *** The national income tax *)

Lemma lookup_in_tax_table_In {R} (bounds_of : R -> num * num) v rules r :
  lookup_in_tax_table bounds_of v rules = Ok r ->
  In r rules
  /\ Py.le (fst (bounds_of r)) v = true
  /\ Py.le v (snd (bounds_of r)) = true.
Proof.
  induction rules as [|r0 rules IH]; cbn [lookup_in_tax_table]; [done|].
  destruct (Py.le _ _ && Py.le _ _) eqn:E.
  - intros [= <-]. apply andb_true_iff in E. split; [by left|done].
  - intros Hr. destruct (IH Hr) as (? & ? & ?). split; [by right|done].
Qed.

(** The income above the lower bound of its bracket is not negative. *)
Lemma income_above_bound_sign b ti above :
  In b national_income_tax_table_of_spec ->
  Py.le (fst (bounds b)) ti = true ->
  Py.sub ti (fst (bounds b)) = Ok above ->
  not_negative above.
Proof.
  intros Hb. cbn in Hb.
  repeat (destruct Hb as [<-|Hb]; [|]); [..|done]; cbn [bounds fst];
    (destruct ti as [z|t];
     [ intros Hle [= <-]; cbn [not_negative];
       unfold Py.le, Py.compare in Hle;
       match type of Hle with
       | context [?a ?= ?b] =>
           destruct (a ?= b) eqn:Hc; try done;
           [apply Z.compare_eq in Hc|rewrite Z.compare_lt_iff in Hc]; lia
       end
     | intros Hle; unfold Py.sub, Py.arith, Py.to_float;
       match goal with
       | |- context [Py.float_of_Z ?l] =>
           destruct (Py.float_of_Z l) as [fl|] eqn:Efl; [|done];
           vm_compute in Efl; injection Efl as <-
       end;
       cbn [res_bind]; intros [= <-]; cbn [not_negative];
       eapply float_sub_sign; [|exact Hle] ]).
  all: first [ left; split; reflexivity
             | right; eexists _, _; split; [vm_compute; reflexivity|];
               split; [done|vm_compute; reflexivity] ].
Qed.

Lemma bracket_sign b :
  In b national_income_tax_table_of_spec ->
  not_negative (rate b) /\ not_negative (previous_brackets_sum b).
Proof.
  intros Hb. cbn in Hb.
  repeat (destruct Hb as [<-|Hb]; [by vm_compute|]). done.
Qed.

(** C3: after a recomputation that completes, [national_income_tax] is
    the floor of the taxable income above the lower bound of its bracket
    times the rate of the bracket plus the sum for the lower brackets,
    multiplied by 1.021 before the floor exactly when the evaluation date
    is before 2038-01-01; the bracket is the one of the seven of the
    specification whose bounds contain the taxable income. *)
Theorem national_income_tax_formula today p p' :
  calculate_all_fields today p = (Ok tt, p') ->
  _NATIONAL_INCOME_TAX_TABLE = national_income_tax_table_of_spec
  /\ exists ti d b v,
       taxable_income p' = Some ti
       /\ current_date p' = Some d
       /\ national_income_tax_bracket p' = Some b
       /\ lookup_in_tax_table bounds ti national_income_tax_table_of_spec
          = Ok b
       /\ In b national_income_tax_table_of_spec
       /\ Py.le (fst (bounds b)) ti = true
       /\ Py.le ti (snd (bounds b)) = true
       /\ national_income_tax_of_spec b ti d = Ok v
       /\ national_income_tax p' = Some v.
Proof.
  intros H. split; [reflexivity|].
  unfold calculate_all_fields in H. run_inv H.
  method_inv_all; simpl_calc.
  all: repeat match goal with
       | H : res_bind _ _ = Ok ?x |- context [?x] => res_inv H; simplify_eq
       end.
  all: do 2 (cbn [get res_bind] in *; simplify_eq).
  all: repeat match goal with
       | Hg : get ?o = Ok _ |- _ =>
           destruct o eqn:?; [|done]; cbn [get] in Hg; simplify_eq
       end.
  all: lazymatch goal with
       | Hl : lookup_in_tax_table bounds ?ti _ = Ok ?b,
         Hs : Py.sub ?ti (fst (bounds ?b)) = Ok ?above,
         Hm : Py.mul ?above (rate ?b) = Ok ?marginal,
         Ha : Py.add (previous_brackets_sum ?b) ?marginal = Ok ?amount,
         Hd : (if date_lt ?d _ then _ else _) = Ok ?total,
         Hi : Py.int ?total = Ok ?v |- _ =>
           change _NATIONAL_INCOME_TAX_TABLE
             with national_income_tax_table_of_spec in Hl;
           change (Py.add (Int 1) taxconstants.RESTORATION_TAX)
             with (Ok (Flt 1.021)) in Hd;
           change taxconstants.RESTORATION_TAX_EXPIRY
             with (mk_date 2038 1 1) in Hd;
           cbn [res_bind] in Hd;
           destruct (lookup_in_tax_table_In _ _ _ _ Hl) as (Hin & Hlb & Hub);
           destruct (bracket_sign _ Hin) as [Hrate Hsum];
           pose proof (income_above_bound_sign _ _ _ Hin Hlb Hs) as Habove;
           pose proof (mul_sign _ _ _ Habove Hrate Hm) as Hmarginal;
           pose proof (add_sign _ _ _ Hsum Hmarginal Ha) as Hamount;
           assert (not_negative total) as Htotal
             by (destruct (date_lt d _);
                 [by apply (mul_sign amount (Flt 1.021))|by simplify_eq]);
           exists ti, d, b, v;
           repeat (split; [done|]); split; [|done];
           unfold national_income_tax_of_spec;
           rewrite Hs; cbn [res_bind]; rewrite Hm; cbn [res_bind];
           rewrite add_comm, Ha; cbn [res_bind]; rewrite Hd;
           cbn [res_bind]; by rewrite <- int_is_floor
       end.
Qed.

(** *** The day of the recomputation *)

(** The day only serves as the default of [current_date]. *)
Lemma calculate_all_fields_dated today today' c d :
  current_date c = Some d ->
  calculate_all_fields today c = calculate_all_fields today' c.
Proof.
  intros Hd. unfold calculate_all_fields.
  assert (forall day, _calculate_current_date day c = (Ok tt, c)) as Hday
    by (intros day; apply when_false; by rewrite Hd).
  by rewrite !(bind_ok _ _ _ _ _ (Hday _)).
Qed.

(** *** The tax tables *)

Lemma lookup_in_tax_table_spec {R} (bounds_of : R -> num * num) v rules :
  match lookup_in_tax_table bounds_of v rules with
  | Ok r =>
      exists before after,
        rules = before ++ r :: after
        /\ within bounds_of v r = true
        /\ Forall (fun x => within bounds_of v x = false) before
  | Raise e =>
      e = ValueError (is_not_a_valid_income v)
      /\ Forall (fun x => within bounds_of v x = false) rules
  end.
Proof.
  induction rules as [|r rules IH]; cbn [lookup_in_tax_table]; [done|].
  fold (within bounds_of v r). destruct (within bounds_of v r) eqn:Hw.
  - by exists [], rules.
  - destruct (lookup_in_tax_table bounds_of v rules) as [r'|e].
    + destruct IH as (before & after & -> & Hr' & Hb).
      exists (r :: before), after. split; [done|]. split; [done|].
      by constructor.
    + destruct IH as [-> Hall]. split; [done|]. by constructor.
Qed.

(** [__lookup_in_tax_table] returns the first rule of the table whose
    bounds contain the value, both bounds included, and raises
    [ValueError] exactly when no rule does. *)
Theorem lookup_in_tax_table_first_match {R} (bounds_of : R -> num * num)
    v rules :
  match lookup_in_tax_table bounds_of v rules with
  | Ok r =>
      exists before after,
        rules = before ++ r :: after
        /\ within bounds_of v r = true
        /\ Forall (fun x => within bounds_of v x = false) before
  | Raise e =>
      e = ValueError (is_not_a_valid_income v)
      /\ Forall (fun x => within bounds_of v x = false) rules
  end.
Proof. apply lookup_in_tax_table_spec. Qed.

Ltac find_rule x z Hx :=
  cbn [lookup_in_tax_table bounds rule_bounds fst snd];
  rewrite ?(eq_le_l x z _ Hx), ?(eq_le_r x z _ Hx), ?(eq_le_infinity x z Hx);
  repeat match goal with
         | |- context [?a <=? ?b] =>
             destruct (Z.leb_spec a b); try lia; cbn [andb]
         end;
  eauto.

(** Both tables have a rule for every whole amount of their range: from 0
    yen for the national income tax, from 0 to 10,000,000,000,000 yen for
    the employment income.  The amount may be an [int] or a [float]. *)
Theorem tax_tables_cover_whole_amounts x z :
  Py.eq x (Int z) = true -> 0 <= z ->
  (exists b, lookup_in_tax_table bounds x _NATIONAL_INCOME_TAX_TABLE = Ok b)
  /\ (z <= 10000000000000 ->
      exists r,
        lookup_in_tax_table rule_bounds x _EMPLOYMENT_INCOME_FOR_TAX_TABLE
        = Ok r).
Proof.
  intros Hx Hz. split; [|intros Hmax].
  - unfold _NATIONAL_INCOME_TAX_TABLE. find_rule x z Hx.
  - unfold _EMPLOYMENT_INCOME_FOR_TAX_TABLE. find_rule x z Hx.
Qed.

Ltac no_rule x Hlo Hhi :=
  cbn [lookup_in_tax_table bounds rule_bounds fst snd];
  repeat match goal with
         | |- context [Py.le (Int ?lo) x && Py.le x ?hi] =>
             first
               [ lazymatch hi with
                 | Int ?h => rewrite (lt_below x _ h Hlo) by lia
                 end;
                 rewrite ?andb_false_r
               | rewrite (lt_above x _ lo Hhi) by lia ];
             cbn [andb]
         end;
  reflexivity.

(** The bounds of the rules are whole numbers of yen, one yen apart from
    a rule to the next: an amount with a fraction that falls between two
    rules has no rule, and the method that looks it up raises
    [ValueError], leaving the object as it was. *)
Theorem fraction_between_rules_is_rejected p x u :
  Py.lt (Int u) x = true -> Py.lt x (Int (u + 1)) = true ->
  (In u [1950000; 3300000; 6950000; 9000000; 18000000; 40000000] ->
   taxable_income p = Some x ->
   _calculate_national_income_tax_bracket p
   = (Raise (ValueError (is_not_a_valid_income x)), p))
  /\ (In u [650999; 1618999; 1619999; 1621999; 1623999; 1627999; 1799999;
            3599999; 6599999; 9999999; 11999999] ->
      employment_income_after_rent_program p = Some x ->
      _calculate_employment_income_for_tax p
      = (Raise (ValueError (is_not_a_valid_income x)), p)).
Proof.
  intros Hlo Hhi. split; intros Hu Hp.
  - unfold _calculate_national_income_tax_bracket. apply assign_raise.
    rewrite Hp. cbn [get res_bind].
    assert (lookup_in_tax_table bounds x _NATIONAL_INCOME_TAX_TABLE
            = Raise (ValueError (is_not_a_valid_income x))) as ->; [|done].
    unfold _NATIONAL_INCOME_TAX_TABLE.
    cbn [In] in Hu.
    repeat (destruct Hu as [<-|Hu]; [no_rule x Hlo Hhi|]); done.
  - unfold _calculate_employment_income_for_tax. apply assign_raise.
    rewrite Hp. cbn [get res_bind].
    assert (lookup_in_tax_table rule_bounds x _EMPLOYMENT_INCOME_FOR_TAX_TABLE
            = Raise (ValueError (is_not_a_valid_income x))) as ->; [|done].
    unfold _EMPLOYMENT_INCOME_FOR_TAX_TABLE.
    cbn [In] in Hu.
    repeat (destruct Hu as [<-|Hu]; [no_rule x Hlo Hhi|]); done.
Qed.

(** An employment income after rent program below 0 or above
    10,000,000,000,000 yen has no rule:
    [_calculate_employment_income_for_tax] raises [ValueError]. *)
Theorem employment_income_out_of_range_is_rejected p x :
  employment_income_after_rent_program p = Some x ->
  Py.lt x (Int 0) = true \/ Py.lt (Int 10000000000000) x = true ->
  _calculate_employment_income_for_tax p
  = (Raise (ValueError (is_not_a_valid_income x)), p).
Proof.
  intros Hp Hx. unfold _calculate_employment_income_for_tax.
  apply assign_raise. rewrite Hp. cbn [get res_bind].
  assert (lookup_in_tax_table rule_bounds x _EMPLOYMENT_INCOME_FOR_TAX_TABLE
          = Raise (ValueError (is_not_a_valid_income x))) as ->; [|done].
  unfold _EMPLOYMENT_INCOME_FOR_TAX_TABLE.
  cbn [lookup_in_tax_table rule_bounds fst snd].
  destruct Hx as [Hx|Hx].
  - repeat match goal with
           | |- context [Py.le (Int ?lo) x && _] =>
               rewrite (lt_above x 0 lo Hx) by lia; cbn [andb]
           end.
    reflexivity.
  - repeat match goal with
           | |- context [Py.le (Int ?lo) x && Py.le x (Int ?hi)] =>
               rewrite (lt_below x 10000000000000 hi Hx) by lia;
               rewrite ?andb_false_r
           end.
    reflexivity.
Qed.

(** *** Recomputing a recomputed profile *)

Ltac field_of f :=
  lazymatch f with
  | set_current_date => constr:(current_date)
  | set_social_security_expense => constr:(social_security_expense)
  | set_total_income => constr:(total_income)
  | set_employment_income_after_rent_program =>
      constr:(employment_income_after_rent_program)
  | set_employment_income_deduction => constr:(employment_income_deduction)
  | set_employment_income_for_tax => constr:(employment_income_for_tax)
  | set_total_income_for_tax => constr:(total_income_for_tax)
  | set_deduction_dependents => constr:(deduction_dependents)
  | set_deduction_total => constr:(deduction_total)
  | set_taxable_income => constr:(taxable_income)
  | set_national_income_tax_bracket => constr:(national_income_tax_bracket)
  | set_national_income_tax_rate => constr:(national_income_tax_rate)
  | set_national_income_tax => constr:(national_income_tax)
  | set_local_income_tax => constr:(local_income_tax)
  | set_total_income_tax => constr:(total_income_tax)
  | set_net_income_after_tax => constr:(net_income_after_tax)
  | set_effective_tax_rate => constr:(effective_tax_rate)
  end.

(** A method run on a recomputed profile finds the value it computes
    already there. *)
Ltac recomputed_step :=
  lazymatch goal with
  | |- ?m _ = _ => let h := head_of m in unfold h
  end;
  lazymatch goal with
  | |- when _ _ _ = _ =>
      apply when_false; simpl_calc; first [done|congruence]
  | |- assign ?f _ _ = _ =>
      let proj := field_of f in
      eapply (assign_fixed f proj);
      [ by intros []
      | simpl_calc; cbn [get res_bind];
        repeat (match goal with
                | E : _ = Ok _ |- _ => rewrite E
                | E : _ = true |- _ => rewrite E
                | E : _ = false |- _ => rewrite E
                end; cbn [get res_bind]);
        reflexivity
      | simpl_calc; reflexivity ]
  end.

(** When a recomputation of a profile completes, recomputing it once more,
    on the same day or on another one, completes too and leaves every
    attribute, derived fields included, with the value it had. *)
Theorem income_tax_recomputation_is_idempotent today today' p p1 :
  calculate_all_fields today p = (Ok tt, p1) ->
  calculate_all_fields today' p1 = (Ok tt, p1).
Proof.
  intros Hrun. unfold calculate_all_fields in Hrun. run_inv Hrun.
  repeat match goal with
         | H : _ = (Ok _, _) |- _ => step_inv H
         end.
  all: simpl_calc; cbn [get res_bind] in *.
  all: repeat match goal with
       | H : res_bind _ _ = Ok _ |- _ => res_inv H; cbn [get res_bind] in *
       | H : (if _ then _ else _) = Ok _ |- _ => res_inv H
       | H : Ok _ = Ok ?x |- _ =>
           is_var x; injection H; clear H; intros H; subst x
       end.
  all: cbn [get res_bind] in *; simplify_eq.
  all: set (p1 := set_effective_tax_rate _ _).
  all: assert (forall (m : M t unit) (k : unit -> M t unit),
                 m p1 = (Ok tt, p1) -> bind m k p1 = k tt p1) as Hstep
         by (intros m k Hm; by apply bind_ok).
  all: unfold calculate_all_fields.
  all: repeat (rewrite Hstep; [|subst p1; recomputed_step]).
  all: subst p1; recomputed_step.
Qed.

(** *** The exceptions of a recomputation *)

(** The exceptions of an expression, statement by statement; [other]
    solves what is not arithmetic. *)
Ltac expr_raises_with other :=
  cbn [get res_bind];
  lazymatch goal with
  | |- raises_only _ (Ok _) => apply raises_only_Ok
  | |- raises_only _ (res_bind _ _) =>
      apply raises_only_bind;
        [expr_raises_with other
        |let a := fresh "a" in intros a ?; expr_raises_with other]
  | |- raises_only _ (if ?b then _ else _) =>
      let E := fresh "E" in destruct b eqn:E; expr_raises_with other
  | |- raises_only _ (Py.add _ _) => apply arith_raises; by (left; left)
  | |- raises_only _ (Py.sub _ _) => apply arith_raises; by (left; left)
  | |- raises_only _ (Py.mul _ _) => apply arith_raises; by (left; left)
  | |- raises_only _ (Py.int _) =>
      apply int_raises; [by (left; left)|by (left; right)]
  | |- raises_only _ (Py.round _) =>
      apply round_raises; [by (left; left)|by (left; right)]
  | |- raises_only _ (Py.truediv _ _) =>
      apply truediv_raises; [by (left; left)|done]
  | |- _ => other
  end.

Lemma function_raises x v r :
  lookup_in_tax_table rule_bounds v _EMPLOYMENT_INCOME_FOR_TAX_TABLE = Ok r ->
  raises_only income_tax_error (function r x).
Proof.
  intros Hr. apply lookup_in_tax_table_In in Hr as [Hin _].
  unfold _EMPLOYMENT_INCOME_FOR_TAX_TABLE in Hin. cbn [In] in Hin.
  repeat (destruct Hin as [<-|Hin];
          [cbn [function]; unfold rounded_to_4000; expr_raises_with fail|]).
  done.
Qed.

Lemma lookup_raises {R} (bounds_of : R -> num * num) v rules :
  raises_only income_tax_error (lookup_in_tax_table bounds_of v rules).
Proof.
  intros err Herr. pose proof (lookup_in_tax_table_spec bounds_of v rules) as Hs.
  rewrite Herr in Hs. destruct Hs as [-> _]. right. by eexists.
Qed.

Ltac expr_raises :=
  expr_raises_with
    ltac:(first [ apply lookup_raises
                | eapply function_raises; eassumption ]).

(** The exceptions of a method, and the field that it sets. *)
Ltac step_raises :=
  lazymatch goal with
  | |- raises_only _ (outcome (when _ _ _)) =>
      eapply run_raises_when;
        [reflexivity|intros _; apply run_raises_assign; simpl_calc; expr_raises]
  | |- raises_only _ (outcome (assign _ _ _)) =>
      apply run_raises_assign; simpl_calc; expr_raises
  end.

Lemma computed_step today n m p :
  calculation_order today !! n = Some m -> computed n p ->
  raises_only income_tax_error (outcome (m p)) /\
  forall p', m p = (Ok tt, p') -> computed (S n) p'.
Proof.
  intros Hm Hp. unfold computed in *.
  do 17 (try (destruct n as [|n]; [injection Hm as <-|])); [..|done].
  all: cbn [take fields_in_order] in *.
  all: repeat match goal with
         | H : Forall _ (_ :: _) |- _ => apply Forall_cons in H as [[? ?] H]
         end; clear Hp.
  all: destruct p; simpl_calc; subst.
  all: lazymatch goal with
       | |- context [outcome (?f _)] => let h := head_of f in unfold h
       end.
  all: split; [step_raises|].
  all: intros p' Hrun; step_inv Hrun; simpl_calc.
  all: repeat (apply Forall_cons; split); simpl_calc;
         try done.
  all: try (cbn [get res_bind] in Hrun; res_inv Hrun; by injection Hrun as <-).
  all: match goal with
       | H : Ok (is_None ?o) = Ok false |- is_Some ?o => by destruct o
       end.
Qed.

Ltac walk today n H :=
  lazymatch goal with
  | |- raises_only _ (outcome (bind ?m _ ?p)) =>
      apply run_raises_bind;
        [exact (proj1 (computed_step today n m p eq_refl H))
        |let H' := fresh "H" in
         intros [] ? H';
         apply (proj2 (computed_step today n _ _ eq_refl H)) in H';
         walk today (Datatypes.S n) H']
  | |- raises_only _ (outcome (?m ?p)) =>
      exact (proj1 (computed_step today n m p eq_refl H))
  end.

(** A recomputation raises no [TypeError], since every derived field is
    computed before it is read, and no [ZeroDivisionError], since its one
    division is guarded: the only exceptions are the [OverflowError] and the
    [ValueError] of the conversions between [int] and [float] and the
    [ValueError] of an amount that a tax table has no rule for. *)
Theorem income_tax_recomputation_raises today p e :
  outcome (calculate_all_fields today p) = Raise e -> income_tax_error e.
Proof.
  revert e.
  change (raises_only income_tax_error
            (outcome (calculate_all_fields today p))).
  assert (H0 : computed 0 p) by constructor.
  unfold calculate_all_fields. walk today 0%nat H0.
Qed.

End IncomeTaxFacts.

(** * The real-estate pro-forma *)

Ltac simpl_re :=
  cbn [
    RealEstateCalc.purchase_date RealEstateCalc.purchase_price
    RealEstateCalc.building_to_land_ratio RealEstateCalc.size
    RealEstateCalc.age RealEstateCalc.mortgage_loan_to_value
    RealEstateCalc.bank_valuation_to_actual RealEstateCalc.mortgage_tenor
    RealEstateCalc.mortgage_rate RealEstateCalc.mortgage_initiation_fees
    RealEstateCalc.renovation_cost RealEstateCalc.agent_fee_variable
    RealEstateCalc.agent_fee_fixed RealEstateCalc.other_transaction_fees
    RealEstateCalc.monthly_fees RealEstateCalc.property_tax_rate
    RealEstateCalc.maintenance_per_m2 RealEstateCalc.useful_life
    RealEstateCalc.calc_year RealEstateCalc.income_tax_calculator
    RealEstateCalc.gross_rental_yield RealEstateCalc.renewal_income_rate
    RealEstateCalc.rental_management_rental_fee
    RealEstateCalc.rental_management_renewal_fee
    RealEstateCalc.is_primary_residence
    RealEstateCalc.is_resident_for_tax_purposes RealEstateCalc.sale_price
    RealEstateCalc.purchase_price_financed RealEstateCalc.mortgage
    RealEstateCalc.purchase_price_building
    RealEstateCalc.purchase_price_land RealEstateCalc.purchase_agent_fee
    RealEstateCalc.purchase_other_transaction_fees
    RealEstateCalc.purchase_price_and_fees
    RealEstateCalc.purchase_initial_outlay
    RealEstateCalc.depreciation_years
    RealEstateCalc.depreciation_percentage
    RealEstateCalc.depreciation_annual RealEstateCalc.rental_income
    RealEstateCalc.renewal_income RealEstateCalc.total_income
    RealEstateCalc.maintenance_expense
    RealEstateCalc.monthly_fees_annualized
    RealEstateCalc.rental_management_renewal_expense
    RealEstateCalc.rental_management_rental_expense
    RealEstateCalc.rental_management_total_expense
    RealEstateCalc.property_tax_expense RealEstateCalc.calc_date
    RealEstateCalc.total_expense RealEstateCalc.net_income_before_taxes
    RealEstateCalc.depreciation RealEstateCalc.net_income_taxable
    RealEstateCalc.home_loan_deduction RealEstateCalc.income_tax
    RealEstateCalc.income_tax_real_estate
    RealEstateCalc.net_income_after_taxes
    RealEstateCalc.cumulative_net_income
    RealEstateCalc.depreciation_cumulative RealEstateCalc.sale_agent_fee
    RealEstateCalc.sale_other_transaction_fees
    RealEstateCalc.depreciated_building_value RealEstateCalc.book_value
    RealEstateCalc.sale_proceeds_after_fees RealEstateCalc.acquisition_cost
    RealEstateCalc.capital_gains_tax_primary_residence_deduction
    RealEstateCalc.capital_gains RealEstateCalc.capital_gains_tax_rate
    RealEstateCalc.capital_gains_tax RealEstateCalc.sale_proceeds_net
    RealEstateCalc.net_income_on_realestate
    RealEstateCalc.set_purchase_date RealEstateCalc.set_purchase_price
    RealEstateCalc.set_building_to_land_ratio RealEstateCalc.set_size
    RealEstateCalc.set_age RealEstateCalc.set_mortgage_loan_to_value
    RealEstateCalc.set_bank_valuation_to_actual
    RealEstateCalc.set_mortgage_tenor RealEstateCalc.set_mortgage_rate
    RealEstateCalc.set_mortgage_initiation_fees
    RealEstateCalc.set_renovation_cost
    RealEstateCalc.set_agent_fee_variable
    RealEstateCalc.set_agent_fee_fixed
    RealEstateCalc.set_other_transaction_fees
    RealEstateCalc.set_monthly_fees RealEstateCalc.set_property_tax_rate
    RealEstateCalc.set_maintenance_per_m2 RealEstateCalc.set_useful_life
    RealEstateCalc.set_calc_year RealEstateCalc.set_income_tax_calculator
    RealEstateCalc.set_gross_rental_yield
    RealEstateCalc.set_renewal_income_rate
    RealEstateCalc.set_rental_management_rental_fee
    RealEstateCalc.set_rental_management_renewal_fee
    RealEstateCalc.set_is_primary_residence
    RealEstateCalc.set_is_resident_for_tax_purposes
    RealEstateCalc.set_sale_price
    RealEstateCalc.set_purchase_price_financed RealEstateCalc.set_mortgage
    RealEstateCalc.set_purchase_price_building
    RealEstateCalc.set_purchase_price_land
    RealEstateCalc.set_purchase_agent_fee
    RealEstateCalc.set_purchase_other_transaction_fees
    RealEstateCalc.set_purchase_price_and_fees
    RealEstateCalc.set_purchase_initial_outlay
    RealEstateCalc.set_depreciation_years
    RealEstateCalc.set_depreciation_percentage
    RealEstateCalc.set_depreciation_annual RealEstateCalc.set_rental_income
    RealEstateCalc.set_renewal_income RealEstateCalc.set_total_income
    RealEstateCalc.set_maintenance_expense
    RealEstateCalc.set_monthly_fees_annualized
    RealEstateCalc.set_rental_management_renewal_expense
    RealEstateCalc.set_rental_management_rental_expense
    RealEstateCalc.set_rental_management_total_expense
    RealEstateCalc.set_property_tax_expense RealEstateCalc.set_calc_date
    RealEstateCalc.set_total_expense
    RealEstateCalc.set_net_income_before_taxes
    RealEstateCalc.set_depreciation RealEstateCalc.set_net_income_taxable
    RealEstateCalc.set_home_loan_deduction RealEstateCalc.set_income_tax
    RealEstateCalc.set_income_tax_real_estate
    RealEstateCalc.set_net_income_after_taxes
    RealEstateCalc.set_cumulative_net_income
    RealEstateCalc.set_depreciation_cumulative
    RealEstateCalc.set_sale_agent_fee
    RealEstateCalc.set_sale_other_transaction_fees
    RealEstateCalc.set_depreciated_building_value
    RealEstateCalc.set_book_value
    RealEstateCalc.set_sale_proceeds_after_fees
    RealEstateCalc.set_acquisition_cost
    RealEstateCalc.set_capital_gains_tax_primary_residence_deduction
    RealEstateCalc.set_capital_gains
    RealEstateCalc.set_capital_gains_tax_rate
    RealEstateCalc.set_capital_gains_tax
    RealEstateCalc.set_sale_proceeds_net
    RealEstateCalc.set_net_income_on_realestate
  ] in *.

(** Evaluates an expression with the equations of the context. *)
Ltac eval_hyps :=
  simpl_re; cbn [is_None get res_bind];
  repeat (match goal with H : _ = _ |- _ => rewrite H end;
          cbn [res_bind get]);
  reflexivity.

Section Commutation.
Import RealEstateCalc.

(** ** Methods read only what earlier methods wrote *)

Lemma commutes_assign {V} k0 k1 (set : V -> t -> t) (e : t -> res V) :
  (forall l s, e (forget k0 l s) = e s) ->
  (forall l v s, set v (forget k0 l s) = forget k1 l (set v s)) ->
  commutes k0 k1 (assign set e).
Proof.
  intros He Hset l s. unfold assign. rewrite He.
  destruct (e s) as [v|x]; cbn; [|done]. by rewrite Hset.
Qed.

Lemma commutes_seq k0 k1 (m1 m2 : M t unit) :
  commutes k0 k1 m1 -> commutes k1 k1 m2 -> commutes k0 k1 (m1 ;; m2).
Proof.
  intros H1 H2 l s. unfold bind.
  destruct (H1 l s) as [Ho Hf].
  destruct (m1 s) as [[[]|x] s1], (m1 (forget k0 l s)) as [[[]|x'] s1'];
    cbn in *; try done.
  rewrite Hf by done. apply H2.
Qed.

Lemma commutes_when k0 k1 (c : t -> res bool) (body : M t unit) :
  (forall l s, c (forget k0 l s) = c s) ->
  (forall l s, forget k0 l s = forget k1 l s) ->
  commutes k0 k1 body -> commutes k0 k1 (when c body).
Proof.
  intros Hc Hk Hb l s. unfold when, bind, eval. rewrite Hc.
  destruct (c s) as [[]|x]; cbn; [apply Hb| |done].
  split; [done|]. intros _. apply Hk.
Qed.

Lemma commutes_ifelse k0 k1 (c : t -> res bool) (m1 m2 : M t unit) :
  (forall l s, c (forget k0 l s) = c s) ->
  commutes k0 k1 m1 -> commutes k0 k1 m2 -> commutes k0 k1 (ifelse c m1 m2).
Proof.
  intros Hc H1 H2 l s. unfold ifelse, bind, eval. rewrite Hc.
  destruct (c s) as [[]|x]; cbn; [apply H1|apply H2|done].
Qed.

(** ** Methods that do not read an attribute *)

Lemma transports_assign {V} f (set : V -> t -> t) (e : t -> res V) :
  (forall s, e (f s) = e s) ->
  (forall v s, set v (f s) = f (set v s)) ->
  transports f (assign set e).
Proof.
  intros He Hset s. unfold assign. rewrite He.
  destruct (e s) as [v|x]; cbn; [|done]. by rewrite Hset.
Qed.

Lemma transports_seq f (m1 m2 : M t unit) :
  transports f m1 -> transports f m2 -> transports f (m1 ;; m2).
Proof.
  intros H1 H2 s. unfold bind. rewrite H1.
  destruct (m1 s) as [[[]|x] s1]; cbn; [|done]. rewrite H2.
  by destruct (m2 s1).
Qed.

Lemma transports_when f (c : t -> res bool) (body : M t unit) :
  (forall s, c (f s) = c s) -> transports f body -> transports f (when c body).
Proof.
  intros Hc Hb s. unfold when, bind, eval. rewrite Hc.
  destruct (c s) as [[]|x]; cbn; [|done..]. rewrite Hb.
  by destruct (body s).
Qed.

(** ** Related scenarios are recomputed alike *)

Lemma sim_seq k0 k1 k2 (m1 m1' m2 m2' : M (t * gmap positive IncomeTaxCalc.t) unit) :
  sim k0 k1 m1 m1' -> sim k1 k2 m2 m2' -> sim k0 k2 (m1 ;; m2) (m1' ;; m2').
Proof.
  intros H1 H2 w w' Hw. unfold bind.
  destruct (H1 w w' Hw) as [Ho Hf].
  destruct (m1 w) as [[[]|x] w1], (m1' w') as [[[]|x'] w1'];
    cbn [outcome final fst snd] in *; try done.
  apply H2. by apply Hf.
Qed.

Lemma sim_on_self k0 k1 (m : M t unit) :
  commutes k0 k1 m -> preserves income_tax_calculator m ->
  sim k0 k1 (on_self m) (on_self m).
Proof.
  intros Hc Hp [s h] [s' h'] [Hf Ha]. cbn [fst snd] in *.
  destruct (Hc None s) as [Ho Hfin], (Hc None s') as [Ho' Hfin'].
  pose proof (Hp s) as Hps. pose proof (Hp s') as Hps'.
  unfold on_self. cbn [fst snd].
  rewrite Hf in Ho, Hfin.
  destruct (m s) as [r s1], (m s') as [r' s1'],
    (m (forget k0 None s')) as [r0 s0].
  cbn [outcome final fst snd] in *. split; [congruence|].
  intros ->. split; cbn [fst snd].
  - rewrite <- Hfin, <- Hfin'; congruence.
  - unfold attached in *. cbn [fst snd] in *. by rewrite Hps, Hps'.
Qed.

Lemma sim_ret k : sim k k (ret tt) (ret tt).
Proof. intros w w' Hw. by split. Qed.

End Commutation.

(** Proves [commutes k0 k1 m] for a method [m] made of assignments: the
    first statement of a sequence takes [k0] to [k1], the others start
    from [k1]. *)
Ltac commutes_leaf :=
  intros;
  match goal with s : RealEstateCalc.t |- _ => destruct s end;
  reflexivity.

Ltac commutes_tac :=
  lazymatch goal with
  | |- commutes _ _ (bind _ (fun _ => _)) =>
      apply commutes_seq; commutes_tac
  | |- commutes _ _ (when _ _) =>
      apply commutes_when; [commutes_leaf|commutes_leaf|commutes_tac]
  | |- commutes _ _ (ifelse _ _ _) =>
      apply commutes_ifelse; [commutes_leaf|commutes_tac|commutes_tac]
  | |- commutes _ _ (assign _ _) => apply commutes_assign; commutes_leaf
  | |- commutes _ _ ?m => let h := head_of m in unfold h; commutes_tac
  end.

Ltac transports_tac :=
  lazymatch goal with
  | |- transports _ (bind _ (fun _ => _)) =>
      apply transports_seq; transports_tac
  | |- transports _ (when _ _) =>
      apply transports_when; [commutes_leaf|transports_tac]
  | |- transports _ (assign _ _) => apply transports_assign; commutes_leaf
  | |- transports _ ?m => let h := head_of m in unfold h; transports_tac
  end.

Section RealEstateFacts.
Context `{NumPy}.
Import RealEstateCalc.

(** ** The methods that use the store *)

Lemma fresh_lookup (h : gmap positive IncomeTaxCalc.t) :
  h !! fresh (dom h) = None.
Proof. apply not_elem_of_dom, is_fresh. Qed.

Lemma on_object_run {A} l (m : t -> M IncomeTaxCalc.t A) s h c :
  h !! l = Some c ->
  on_object l m (s, h) = (outcome (m s c), (s, <[l := final (m s c)]> h)).
Proof.
  intros Hl. unfold on_object. cbn [fst snd]. rewrite Hl.
  by destruct (m s c).
Qed.

Lemma income_tax_run today s h :
  _calculate_income_tax today (s, h) =
  let s1 := set_income_tax (Some (Int 0)) s in
  match income_tax_calculator s with
  | None => (Ok tt, (s1, h))
  | Some l =>
      match h !! l with
      | None => (Raise ModelStuck, (s1, h))
      | Some c =>
          let r := hypothetical_calc today s1 c in
          let h' := <[fresh (dom h) := final r]> h in
          match outcome r with
          | Ok _ =>
              (Ok tt,
               (set_income_tax (IncomeTaxCalc.total_income_tax (final r)) s1,
                h'))
          | Raise e => (Raise e, (s1, h'))
          end
      end
  end.
Proof.
  unfold _calculate_income_tax.
  unfold bind at 1. unfold on_self at 1, assign at 1. cbn [fst snd].
  unfold bind at 1. unfold on_self at 1, eval at 1. cbn [fst snd].
  replace (income_tax_calculator (set_income_tax (Some (Int 0)) s))
    with (income_tax_calculator s) by (by destruct s).
  destruct (income_tax_calculator s) as [l|]; [|reflexivity].
  unfold bind at 1. unfold deepcopy_calc at 1. cbn [fst snd].
  destruct (h !! l) as [c|] eqn:Hl; [|reflexivity].
  cbv zeta.
  set (l' := fresh (dom h)). set (s1 := set_income_tax (Some (Int 0)) s).
  unfold hypothetical_calc, bind. cbn [outcome final fst snd].
  rewrite (on_object_run _ _ _ _ c) by apply lookup_insert_eq.
  cbn [outcome final fst snd].
  destruct (assign IncomeTaxCalc.set_current_date _ c) as [[[]|e] c1];
    cbn [fst snd]; rewrite insert_insert_eq; [|reflexivity].
  rewrite (on_object_run _ _ _ _ c1) by apply lookup_insert_eq.
  cbn [outcome final fst snd].
  destruct (assign IncomeTaxCalc.set_other_income _ c1) as [[[]|e] c2];
    cbn [fst snd]; rewrite insert_insert_eq; [|reflexivity].
  rewrite (on_object_run _ _ _ _ c2) by apply lookup_insert_eq.
  cbn [outcome final fst snd].
  destruct (assign IncomeTaxCalc.set_tax_deduction _ c2) as [[[]|e] c3];
    cbn [fst snd]; rewrite insert_insert_eq; [|reflexivity].
  rewrite (on_object_run _ _ _ _ c3) by apply lookup_insert_eq.
  cbn [outcome final fst snd].
  destruct (IncomeTaxCalc.calculate_all_fields today c3) as [[[]|e] c4];
    cbn [fst snd]; rewrite insert_insert_eq; [|reflexivity].
  unfold assign_w, deref. cbn [fst snd]. rewrite lookup_insert_eq.
  reflexivity.
Qed.

Lemma income_tax_real_estate_run s h :
  _calculate_income_tax_real_estate (s, h) =
  let s1 := set_income_tax_real_estate (Some (Int 0)) s in
  match income_tax_calculator s with
  | None => (Ok tt, (s1, h))
  | Some l =>
      match (let! tax := get (income_tax s1) in
             let! c := deref l h in
             let! base := get (IncomeTaxCalc.total_income_tax c) in
             let! d := Py.sub tax base in
             Ok (Some (Py.max (Int 0) d))) with
      | Ok v => (Ok tt, (set_income_tax_real_estate v s1, h))
      | Raise e => (Raise e, (s1, h))
      end
  end.
Proof.
  unfold _calculate_income_tax_real_estate.
  unfold bind at 1. unfold on_self at 1, assign at 1. cbn [fst snd].
  unfold bind at 1. unfold on_self at 1, eval at 1. cbn [fst snd].
  replace (income_tax_calculator (set_income_tax_real_estate (Some (Int 0)) s))
    with (income_tax_calculator s) by (by destruct s).
  destruct (income_tax_calculator s) as [l|]; reflexivity.
Qed.

Lemma cumulative_run rec s h :
  _calculate_cumulative_net_income rec (s, h) =
  if calc_year s <? 0
  then (Ok tt, (set_cumulative_net_income (Some (Int 0)) s, h))
  else
    let s1 := set_cumulative_net_income (net_income_after_taxes s) s in
    match previous_year_copy (s1, h) with
    | Raise e => (Raise e, (s1, h))
    | Ok w1 =>
        match rec w1 with
        | (Raise e, (_, h2)) => (Raise e, (s1, h2))
        | (Ok _, (copy, h2)) =>
            match (let! a := get (cumulative_net_income s1) in
                   let! b := get (cumulative_net_income copy) in
                   let! v := Py.add a b in
                   Ok (Some v)) with
            | Ok v => (Ok tt, (set_cumulative_net_income v s1, h2))
            | Raise e => (Raise e, (s1, h2))
            end
        end
    end.
Proof.
  unfold _calculate_cumulative_net_income.
  unfold bind at 1. unfold on_self at 1, eval at 1. cbn [fst snd].
  destruct (calc_year s <? 0); [reflexivity|].
  unfold bind at 1. unfold on_self at 1, assign at 1. cbn [fst snd].
  set (s1 := set_cumulative_net_income (net_income_after_taxes s) s).
  cbv zeta.
  unfold bind at 1.
  unfold deepcopy_self, previous_year_copy, deepcopy_calc. cbn [fst snd].
  destruct (income_tax_calculator s1) as [l|].
  - destruct (h !! l) as [c|]; [|reflexivity].
    unfold bind at 1. unfold on_other at 1. cbn [fst snd].
    destruct (rec _) as [[[]|e] [copy h2]]; [|reflexivity].
    unfold on_self, assign. cbn [fst snd].
    by destruct (res_bind _ _).
  - unfold bind at 1. unfold on_other at 1. cbn [fst snd].
    destruct (rec _) as [[[]|e] [copy h2]]; [|reflexivity].
    unfold on_self, assign. cbn [fst snd].
    by destruct (res_bind _ _).
Qed.

(** ** The store only grows *)

Lemma keeps_store_bind {A B}
    (m : M (t * gmap positive IncomeTaxCalc.t) A)
    (k : A -> M (t * gmap positive IncomeTaxCalc.t) B) :
  keeps_store m -> (forall a, keeps_store (k a)) -> keeps_store (bind m k).
Proof.
  intros Hm Hk w l c Hl. unfold bind. specialize (Hm w l c Hl).
  destruct (m w) as [[a|x] w1]; cbn [final snd] in *; [|done].
  by apply Hk.
Qed.

Lemma keeps_store_on_self {A} (m : M t A) : keeps_store (on_self m).
Proof.
  intros w l c Hl. unfold on_self. by destruct (m (fst w)).
Qed.

Lemma keeps_store_income_tax today : keeps_store (_calculate_income_tax today).
Proof.
  intros [s h] l c Hl. rewrite income_tax_run. cbv zeta. cbn [snd] in Hl.
  destruct (income_tax_calculator s) as [l0|]; [|done].
  destruct (h !! l0) as [c0|]; [|done].
  assert (fresh (dom h) <> l).
  { intros Heq. subst l. by rewrite fresh_lookup in Hl. }
  destruct (outcome _); cbn [final snd]; by rewrite lookup_insert_ne.
Qed.

Lemma keeps_store_income_tax_real_estate :
  keeps_store _calculate_income_tax_real_estate.
Proof.
  intros [s h] l c Hl. rewrite income_tax_real_estate_run. cbv zeta.
  destruct (income_tax_calculator s); [|done].
  by destruct (res_bind _ _).
Qed.

Lemma keeps_store_home_loan_deduction :
  keeps_store _calculate_home_loan_deduction.
Proof.
  unfold _calculate_home_loan_deduction.
  apply keeps_store_bind; [apply keeps_store_on_self|]. intros _.
  apply keeps_store_bind.
  - intros w l c Hl. exact Hl.
  - intros []; [apply keeps_store_on_self|]. intros w l c Hl. exact Hl.
Qed.

Lemma previous_year_copy_store w w1 l c :
  previous_year_copy w = Ok w1 -> snd w !! l = Some c -> snd w1 !! l = Some c.
Proof.
  unfold previous_year_copy. cbv zeta.
  destruct (income_tax_calculator (fst w)) as [l0|]; [|by intros [= <-]].
  destruct (snd w !! l0) as [c0|]; [|done]. intros [= <-] Hl. cbn [snd].
  rewrite lookup_insert_ne; [done|]. intros Heq. subst l.
  by rewrite fresh_lookup in Hl.
Qed.

Lemma keeps_store_cumulative rec :
  keeps_store rec -> keeps_store (_calculate_cumulative_net_income rec).
Proof.
  intros Hrec [s h] l c Hl. rewrite cumulative_run. cbn [snd] in Hl.
  destruct (calc_year s <? 0); [done|]. cbv zeta.
  destruct (previous_year_copy _) as [w1|e] eqn:Hcopy; [|done].
  pose proof (previous_year_copy_store _ _ _ _ Hcopy Hl) as Hl1.
  specialize (Hrec w1 l c Hl1).
  destruct (rec w1) as [[[]|e] [copy h2]]; cbn [final snd] in *; [|done].
  by destruct (res_bind _ _).
Qed.

Ltac keeps_store_steps :=
  repeat lazymatch goal with
  | |- keeps_store (bind _ (fun _ => _)) =>
      apply keeps_store_bind; [|intros _]
  | |- keeps_store (on_self _) => apply keeps_store_on_self
  | |- keeps_store _calculate_home_loan_deduction =>
      apply keeps_store_home_loan_deduction
  | |- keeps_store (_calculate_income_tax _) => apply keeps_store_income_tax
  | |- keeps_store _calculate_income_tax_real_estate =>
      apply keeps_store_income_tax_real_estate
  | |- keeps_store (_calculate_cumulative_net_income _) =>
      by apply keeps_store_cumulative
  | |- keeps_store (ret _) =>
      let w := fresh in let Hl := fresh in intros w ? ? Hl; exact Hl
  end.

Lemma keeps_store_body today rec :
  keeps_store rec -> keeps_store (calculate_all_fields_body today rec).
Proof.
  intros Hrec. unfold calculate_all_fields_body. keeps_store_steps.
Qed.

Lemma keeps_store_rec depth today :
  keeps_store (calculate_all_fields_rec depth today).
Proof.
  induction depth as [|depth IH]; cbn [calculate_all_fields_rec];
    apply keeps_store_body; [|done].
  intros w l c Hl. exact Hl.
Qed.

Lemma keeps_store_calculate_all_fields today :
  keeps_store (calculate_all_fields today).
Proof. intros w. apply keeps_store_rec. Qed.

(** ** Each method of the recomputation, on related scenarios *)

(** What [related] says of one attribute. *)
Lemma related_proj {X} k (f : t -> X) s h s' h' :
  related k (s, h) (s', h') ->
  (forall s, f (forget k None s) = f s) ->
  f s = f s'.
Proof.
  intros [Hf _] Hk. cbn [fst] in Hf. rewrite <- (Hk s), Hf. apply Hk.
Qed.

Lemma related_attached k w w' : related k w w' -> attached w = attached w'.
Proof. by intros [_ Ha]. Qed.

Lemma related_assign {V} k0 k1 (set : V -> t -> t) v s h s' h' :
  related k0 (s, h) (s', h') ->
  (forall l v s, set v (forget k0 l s) = forget k1 l (set v s)) ->
  (forall v s, income_tax_calculator (set v s) = income_tax_calculator s) ->
  related k1 (set v s, h) (set v s', h').
Proof.
  intros [Hf Ha] Hset Hc. split; cbn [fst snd] in *.
  - by rewrite <- !Hset, Hf.
  - unfold attached in *. cbn [fst snd] in *. by rewrite !Hc.
Qed.

Lemma sim_bind_eval {A} k k1 (e : t * gmap positive IncomeTaxCalc.t -> res A)
    (f f' : A -> M (t * gmap positive IncomeTaxCalc.t) unit) :
  (forall w w', related k w w' -> e w = e w') ->
  (forall a, sim k k1 (f a) (f' a)) ->
  sim k k1 (bind (fun w => (e w, w)) f) (bind (fun w => (e w, w)) f').
Proof.
  intros He Hf w w' Hw. unfold bind. rewrite (He w w' Hw).
  destruct (e w') as [a|x]; [by apply Hf|done].
Qed.

Lemma is_qualified_related k w w' :
  related k w w' ->
  is_qualified_for_deduction (fst w) (snd w)
  = is_qualified_for_deduction (fst w') (snd w').
Proof.
  destruct w as [s h], w' as [s' h']. intros Hw. cbn [fst snd].
  unfold is_qualified_for_deduction, mortgage_is_active.
  rewrite (related_proj k is_primary_residence _ _ _ _ Hw) by (by intros []).
  rewrite (related_proj k calc_year _ _ _ _ Hw) by (by intros []).
  rewrite (related_proj k size _ _ _ _ Hw) by (by intros []).
  rewrite (related_proj k mortgage _ _ _ _ Hw) by (by intros []).
  destruct (negb _); [done|].
  pose proof (related_attached _ _ _ Hw) as Ha. unfold attached in Ha.
  cbn [fst snd] in Ha.
  destruct (income_tax_calculator s) as [l|],
    (income_tax_calculator s') as [l'|]; cbn in Ha; try done.
  unfold deref. injection Ha as ->. done.
Qed.

Lemma sim_home_loan_deduction :
  sim 29 30 _calculate_home_loan_deduction _calculate_home_loan_deduction.
Proof.
  unfold _calculate_home_loan_deduction.
  apply (sim_seq 29 30 30); [apply sim_on_self; [commutes_tac|preserves_tac]|].
  apply sim_bind_eval; [apply is_qualified_related|].
  intros []; [|apply sim_ret].
  apply sim_on_self; [commutes_tac|preserves_tac].
Qed.

Lemma sim_income_tax today :
  sim 30 31 (_calculate_income_tax today) (_calculate_income_tax today).
Proof.
  intros [s h] [s' h'] Hw. rewrite !income_tax_run. cbv zeta.
  assert (Hw1 : related 31 (set_income_tax (Some (Int 0)) s, h)
                  (set_income_tax (Some (Int 0)) s', h')).
  { eapply related_assign; [exact Hw| |]; commutes_leaf. }
  assert (Hcalc : hypothetical_calc today (set_income_tax (Some (Int 0)) s)
                  = hypothetical_calc today (set_income_tax (Some (Int 0)) s')).
  { unfold hypothetical_calc.
    rewrite (related_proj 31 calc_date _ _ _ _ Hw1) by (by intros []).
    rewrite (related_proj 31 net_income_taxable _ _ _ _ Hw1) by (by intros []).
    rewrite (related_proj 31 home_loan_deduction _ _ _ _ Hw1) by (by intros []).
    done. }
  pose proof (related_attached _ _ _ Hw) as Ha. unfold attached in Ha.
  cbn [fst snd] in Ha.
  destruct (income_tax_calculator s) as [l|] eqn:Hl,
    (income_tax_calculator s') as [l'|] eqn:Hl'; cbn in Ha; try done.
  injection Ha as Ha. rewrite Ha.
  destruct (h' !! l') as [c|] eqn:Hc; [|by split].
  rewrite Hcalc.
  destruct (outcome (hypothetical_calc today _ c)) as [[]|e]; [|by split].
  split; [done|]. intros _. cbn [final snd].
  destruct Hw1 as [Hf1 _]. cbn [fst snd] in Hf1.
  split; cbn [fst snd].
  - transitivity (set_income_tax
        (IncomeTaxCalc.total_income_tax
           (final (hypothetical_calc today (set_income_tax (Some (Int 0)) s') c)))
        (forget 31 None (set_income_tax (Some (Int 0)) s))).
    + by destruct s.
    + rewrite Hf1. by destruct s'.
  - unfold attached. cbn [fst snd].
    replace (income_tax_calculator (set_income_tax _ (set_income_tax _ s)))
      with (income_tax_calculator s) by (by destruct s).
    replace (income_tax_calculator (set_income_tax _ (set_income_tax _ s')))
      with (income_tax_calculator s') by (by destruct s').
    rewrite Hl, Hl'. cbn.
    rewrite !lookup_insert_ne; [congruence| |].
    + intros Heq. rewrite <- Heq, fresh_lookup in Hc. done.
    + intros Heq. rewrite <- Heq, fresh_lookup in Ha. done.
Qed.

Lemma sim_income_tax_real_estate :
  sim 31 32 _calculate_income_tax_real_estate _calculate_income_tax_real_estate.
Proof.
  intros [s h] [s' h'] Hw. rewrite !income_tax_real_estate_run. cbv zeta.
  assert (Hw1 : related 32 (set_income_tax_real_estate (Some (Int 0)) s, h)
                  (set_income_tax_real_estate (Some (Int 0)) s', h')).
  { eapply related_assign; [exact Hw| |]; commutes_leaf. }
  rewrite (related_proj 32 income_tax _ _ _ _ Hw1) by (by intros []).
  pose proof (related_attached _ _ _ Hw) as Ha. unfold attached in Ha.
  cbn [fst snd] in Ha.
  destruct (income_tax_calculator s) as [l|] eqn:Hl,
    (income_tax_calculator s') as [l'|] eqn:Hl'; cbn in Ha; try done.
  injection Ha as Ha. unfold deref. rewrite Ha.
  destruct (res_bind _ _) as [v|e]; [|by split].
  split; [done|]. intros _. cbn [final snd].
  eapply related_assign; [exact Hw1| |]; commutes_leaf.
Qed.

Lemma forget_weaken k l s s' :
  forget k l s = forget k l s' -> forget 0 l s = forget 0 l s'.
Proof.
  intros Hf. apply (f_equal (forget 0 l)) in Hf.
  by destruct s, s'.
Qed.

Lemma previous_year_copy_related k w w' :
  related k w w' ->
  match previous_year_copy w, previous_year_copy w' with
  | Ok w1, Ok w1' => related 0 w1 w1'
  | Raise e, Raise e' => e = e'
  | _, _ => False
  end.
Proof.
  destruct w as [s h], w' as [s' h']. intros Hw.
  unfold previous_year_copy. cbn [fst snd] in *. cbv zeta.
  rewrite (related_proj k calc_year _ _ _ _ Hw) by (by intros []).
  pose proof (related_attached _ _ _ Hw) as Ha. unfold attached in Ha.
  destruct Hw as [Hf _]. apply forget_weaken in Hf.
  cbn [fst snd] in *.
  destruct (income_tax_calculator s) as [l|] eqn:Hl,
    (income_tax_calculator s') as [l'|] eqn:Hl'; cbn in Ha; try done.
  - injection Ha as Ha. rewrite Ha.
    destruct (h' !! l') as [c|]; [|done].
    split; cbn [fst snd].
    + transitivity (set_calc_year (calc_year s' - 1) (forget 0 None s)).
      * by destruct s.
      * rewrite Hf. by destruct s'.
    + unfold attached. cbn [fst snd].
      replace (income_tax_calculator (set_calc_year _ (set_income_tax_calculator (Some (fresh (dom h))) s)))
        with (Some (fresh (dom h))) by (by destruct s).
      replace (income_tax_calculator (set_calc_year _ (set_income_tax_calculator (Some (fresh (dom h'))) s')))
        with (Some (fresh (dom h'))) by (by destruct s').
      cbn. by rewrite !lookup_insert_eq.
  - split; cbn [fst snd].
    + transitivity (set_calc_year (calc_year s' - 1) (forget 0 None s)).
      * by destruct s.
      * rewrite Hf. by destruct s'.
    + unfold attached. cbn [fst snd].
      replace (income_tax_calculator (set_calc_year (calc_year s' - 1) s))
        with (@None positive) by (by destruct s; cbn in *).
      replace (income_tax_calculator (set_calc_year (calc_year s' - 1) s'))
        with (@None positive) by (by destruct s'; cbn in *).
      done.
Qed.

Lemma previous_year_copy_attached w w1 l :
  previous_year_copy w = Ok w1 ->
  income_tax_calculator (fst w) = Some l -> is_Some (snd w !! l).
Proof.
  unfold previous_year_copy. cbv zeta. intros Hcopy Hl. rewrite Hl in Hcopy.
  by destruct (snd w !! l).
Qed.

Lemma attached_after (s : t) (h h2 : gmap positive IncomeTaxCalc.t) :
  (forall l c, h !! l = Some c -> h2 !! l = Some c) ->
  (forall l, income_tax_calculator s = Some l -> is_Some (h !! l)) ->
  attached (s, h2) = attached (s, h).
Proof.
  intros Hgrow Hsome. unfold attached. cbn [fst snd].
  destruct (income_tax_calculator s) as [l|]; [|done]. cbn.
  destruct (Hsome l eq_refl) as [c Hc]. by rewrite Hc, (Hgrow l c Hc).
Qed.

Lemma sim_cumulative rec rec' :
  sim 0 47 rec rec' -> keeps_store rec -> keeps_store rec' ->
  sim 33 34 (_calculate_cumulative_net_income rec)
    (_calculate_cumulative_net_income rec').
Proof.
  intros Hrec Hstore Hstore' [s h] [s' h'] Hw. rewrite !cumulative_run.
  rewrite (related_proj 33 calc_year _ _ _ _ Hw) by (by intros []).
  destruct (calc_year s' <? 0).
  { split; [done|]. intros _. cbn [final snd].
    eapply related_assign; [exact Hw| |]; commutes_leaf. }
  cbv zeta.
  rewrite (related_proj 33 net_income_after_taxes _ _ _ _ Hw) by (by intros []).
  set (s1 := set_cumulative_net_income (net_income_after_taxes s') s).
  set (s1' := set_cumulative_net_income (net_income_after_taxes s') s').
  assert (Hw1 : related 34 (s1, h) (s1', h')).
  { eapply related_assign; [exact Hw| |]; commutes_leaf. }
  pose proof (previous_year_copy_related _ _ _ Hw1) as Hcopy.
  destruct (previous_year_copy (s1, h)) as [w1|e] eqn:E1,
    (previous_year_copy (s1', h')) as [w1'|e'] eqn:E1'; try done.
  all: try (subst e'; by split).
  destruct (Hrec w1 w1' Hcopy) as [Ho Hfin].
  pose proof (fun l c Hl => Hstore w1 l c (previous_year_copy_store _ _ l c E1 Hl)) as Hs.
  pose proof (fun l c Hl => Hstore' w1' l c (previous_year_copy_store _ _ l c E1' Hl)) as Hs'.
  destruct (rec w1) as [[[]|e] [copy h2]], (rec' w1') as [[[]|e'] [copy' h2']];
    cbn [outcome final fst snd] in *; try done.
  all: try (by split).
  specialize (Hfin eq_refl).
  rewrite (related_proj 34 cumulative_net_income _ _ _ _ Hw1) by (by intros []).
  rewrite (related_proj 47 cumulative_net_income _ _ _ _ Hfin) by (by intros []).
  destruct (res_bind _ _) as [v|e]; [|by split].
  split; [done|]. intros _. cbn [final snd].
  assert (Hw2 : related 34 (s1, h2) (s1', h2')).
  { destruct Hw1 as [Hf1 Ha1]. split; [exact Hf1|].
    rewrite (attached_after s1 h h2), (attached_after s1' h' h2'); try done.
    - intros l. apply (previous_year_copy_attached _ _ _ E1').
    - intros l. apply (previous_year_copy_attached _ _ _ E1). }
  eapply related_assign; [exact Hw2| |]; commutes_leaf.
Qed.

Lemma sim_stuck :
  sim 0 47 (fun w => (Raise ModelStuck, w)) (fun w => (Raise ModelStuck, w)).
Proof. intros w w' _. by split. Qed.

(** Walks the methods of [calculate_all_fields]: the method at position
    [k + 1] takes related scenarios at [k] to related scenarios at
    [k + 1]. *)
Ltac sim_leaf :=
  lazymatch goal with
  | |- sim _ _ (RealEstateCalc.on_self _) _ =>
      apply sim_on_self; [commutes_tac|preserves_tac]
  | |- sim _ _ RealEstateCalc._calculate_home_loan_deduction _ =>
      apply sim_home_loan_deduction
  | |- sim _ _ (RealEstateCalc._calculate_income_tax _) _ =>
      apply sim_income_tax
  | |- sim _ _ RealEstateCalc._calculate_income_tax_real_estate _ =>
      apply sim_income_tax_real_estate
  | |- sim _ _ (RealEstateCalc._calculate_cumulative_net_income _) _ =>
      apply sim_cumulative; assumption
  end.

Ltac sim_steps k :=
  lazymatch goal with
  | |- sim _ _ (bind _ (fun _ => _)) (bind _ (fun _ => _)) =>
      apply (sim_seq k (S k) 47); [sim_leaf | sim_steps (S k)]
  | |- _ => sim_leaf
  end.

Lemma sim_body today rec rec' :
  sim 0 47 rec rec' -> keeps_store rec -> keeps_store rec' ->
  sim 0 47 (calculate_all_fields_body today rec)
    (calculate_all_fields_body today rec').
Proof.
  intros Hrec Hs Hs'. unfold calculate_all_fields_body.
  sim_steps 0%nat.
Qed.

Lemma sim_rec depth today :
  sim 0 47 (calculate_all_fields_rec depth today)
    (calculate_all_fields_rec depth today).
Proof.
  induction depth as [|depth IH]; cbn [calculate_all_fields_rec].
  - apply sim_body; [apply sim_stuck| |]; intros w l c Hl; exact Hl.
  - apply sim_body; [exact IH| |]; apply keeps_store_rec.
Qed.

(** Related scenarios are recomputed to the same outcome and, when the
    recomputation completes, to scenarios with the same attribute
    values. *)
Lemma sim_calculate_all_fields today :
  sim 0 47 (calculate_all_fields today) (calculate_all_fields today).
Proof.
  intros [s h] [s' h'] Hw. unfold calculate_all_fields. cbn [fst].
  rewrite (related_proj 0 calc_year _ _ _ _ Hw) by (by intros []).
  by apply sim_rec.
Qed.

(** ** Attributes that the methods using the store leave alone *)

Lemma preserves_on_self {A X} (pi : t -> X) (m : M t A) :
  preserves pi m -> preserves (fun w => pi (fst w)) (on_self m).
Proof.
  intros Hm [s h]. unfold on_self. cbn [fst]. specialize (Hm s).
  by destruct (m s).
Qed.

Lemma preserves_home_loan_deduction {X} (pi : t -> X) :
  (forall v s, pi (set_home_loan_deduction v s) = pi s) ->
  preserves (fun w => pi (fst w)) _calculate_home_loan_deduction.
Proof.
  intros Hset. unfold _calculate_home_loan_deduction.
  apply preserves_bind.
  { apply preserves_on_self. by apply preserves_assign. }
  intros _. apply preserves_bind; [by intros w|].
  intros []; [|by intros w].
  apply preserves_on_self, preserves_bind.
  - apply preserves_ifelse; by apply preserves_assign.
  - intros _. by apply preserves_assign.
Qed.

Lemma preserves_income_tax {X} (pi : t -> X) today :
  (forall v s, pi (set_income_tax v s) = pi s) ->
  preserves (fun w => pi (fst w)) (_calculate_income_tax today).
Proof.
  intros Hset [s h]. rewrite income_tax_run. cbv zeta. cbn [fst].
  destruct (income_tax_calculator s) as [l|]; [|by cbn].
  destruct (h !! l) as [c|]; [|by cbn].
  destruct (outcome _); cbn [final snd fst]; by rewrite ?Hset.
Qed.

Lemma preserves_income_tax_real_estate {X} (pi : t -> X) :
  (forall v s, pi (set_income_tax_real_estate v s) = pi s) ->
  preserves (fun w => pi (fst w)) _calculate_income_tax_real_estate.
Proof.
  intros Hset [s h]. rewrite income_tax_real_estate_run. cbv zeta. cbn [fst].
  destruct (income_tax_calculator s) as [l|]; [|by cbn].
  destruct (res_bind _ _); cbn [final snd fst]; by rewrite ?Hset.
Qed.

Lemma preserves_cumulative {X} (pi : t -> X) rec :
  (forall v s, pi (set_cumulative_net_income v s) = pi s) ->
  preserves (fun w => pi (fst w)) (_calculate_cumulative_net_income rec).
Proof.
  intros Hset [s h]. rewrite cumulative_run. cbn [fst].
  destruct (calc_year s <? 0); [by cbn|]. cbv zeta.
  destruct (previous_year_copy _) as [w1|e]; [|by cbn].
  destruct (rec w1) as [[[]|e] [copy h2]]; [|by cbn].
  destruct (res_bind _ _); cbn [final snd fst]; by rewrite ?Hset.
Qed.

(** Walks a sequence of methods of [RealEstateCalc]. *)
Ltac preserves_blind :=
  let v := fresh in let s := fresh in intros v s; destruct s; reflexivity.

Ltac preserves_steps :=
  lazymatch goal with
  | |- preserves _ (bind _ (fun _ => _)) =>
      apply preserves_bind; [preserves_steps | intros _; preserves_steps]
  | |- preserves _ (on_self _) => apply preserves_on_self; preserves_tac
  | |- preserves _ _calculate_home_loan_deduction =>
      apply preserves_home_loan_deduction; preserves_blind
  | |- preserves _ (_calculate_income_tax _) =>
      apply preserves_income_tax; preserves_blind
  | |- preserves _ _calculate_income_tax_real_estate =>
      apply preserves_income_tax_real_estate; preserves_blind
  | |- preserves _ (_calculate_cumulative_net_income _) =>
      apply preserves_cumulative; preserves_blind
  | |- preserves _ (ret _) => apply preserves_ret
  end.

(** A recomputation never rebinds the reference to the tax calculator. *)
Lemma preserves_calculator_body today rec :
  preserves (fun w => income_tax_calculator (fst w))
    (calculate_all_fields_body today rec).
Proof. unfold calculate_all_fields_body. preserves_steps. Qed.

Lemma preserves_calculator today :
  preserves (fun w => income_tax_calculator (fst w))
    (calculate_all_fields today).
Proof.
  intros w. unfold calculate_all_fields.
  destruct (Z.to_nat _); apply preserves_calculator_body.
Qed.

(** ** The first six methods *)
Lemma body_split today rec w :
  calculate_all_fields_body today rec w
  = (on_self (resolve_inputs today) ;; derive_fields today rec) w.
Proof.
  unfold calculate_all_fields_body, resolve_inputs.
  change (on_self _calculate_purchase_price_building ;; _) with (derive_fields today rec).
  generalize (derive_fields today rec). intros rest.
  destruct w as [s h]. unfold bind, on_self. cbn [fst snd].
  repeat lazymatch goal with
  | |- context [match ?m ?x with _ => _ end] =>
      lazymatch type of (m x) with
      | (res unit * t)%type => destruct (m x) as [[[]|?] ?]; cbn [fst snd]
      end
  end; reflexivity.
Qed.

Lemma resolve_inputs_commutes today : commutes 6 6 (resolve_inputs today).
Proof. unfold resolve_inputs. commutes_tac. Qed.

Lemma resolve_inputs_again today today' s s6 :
  resolve_inputs today s = (Ok tt, s6) ->
  resolve_inputs today' s6 = (Ok tt, s6).
Proof.
  unfold resolve_inputs. intros Hrun. run_inv Hrun.
  assert (is_None (purchase_date s3) = false
          /\ is_None (renewal_income_rate s3) = false
          /\ is_None (rental_management_rental_fee s3) = false
          /\ is_None (rental_management_renewal_fee s3) = false)
    as (Hd1 & Hd2 & Hd3 & Hd4).
  { step_inv Hrun0; step_inv Hrun1; step_inv Hrun2; step_inv Hrun3;
      simpl_re;
      repeat match goal with
      | H : Ok _ = Ok ?x |- _ =>
          is_var x; injection H; clear H; intros H; subst x
      | H : Ok ?x = Ok false |- _ => injection H; clear H; intros H
      | H : res_bind _ _ = Ok ?x |- _ => is_var x; res_inv H
      end;
      simpl_re; by repeat split. }
  clear Hrun0 Hrun1 Hrun2 Hrun3.
  step_inv Hrun4. res_inv Hrun4. injection Hrun4 as <-.
  step_inv Hrun; simpl_re; cbn [get res_bind] in *.
  all: repeat match goal with
       | H : Ok ?x = Ok true |- _ => injection H; clear H; intros H
       | H : Ok ?x = Ok false |- _ => injection H; clear H; intros H
       | H : res_bind _ _ = Ok ?x |- _ =>
           is_var x; res_inv H; cbn [get res_bind] in *
       | H : Ok _ = Ok ?x |- _ =>
           is_var x; injection H; clear H; intros H; subst x
       end.
  all: do 4 (erewrite bind_ok;
             [|lazymatch goal with
               | |- ?m _ = _ => let h := head_of m in unfold h
               end;
               apply when_false; simpl_re;
               by rewrite ?Hd1, ?Hd2, ?Hd3, ?Hd4]).
  all: erewrite bind_ok;
         [|unfold _calculate_purchase_price_financed;
           apply assign_ok; eval_hyps].
  all: unfold _calculate_mortgage.
  - rewrite when_true by eval_hyps. erewrite assign_ok by eval_hyps.
    f_equal; by destruct s3.
  - rewrite when_false by eval_hyps. f_equal; by destruct s3.
Qed.

(** ** Recomputing a recomputed scenario *)

Lemma resolve_inputs_absorb today today' s s6 x :
  resolve_inputs today s = (Ok tt, s6) ->
  forget 6 None x = forget 6 None s6 ->
  outcome (resolve_inputs today' x) = Ok tt
  /\ forget 6 None (final (resolve_inputs today' x)) = forget 6 None s6.
Proof.
  intros Hrun Hx.
  pose proof (resolve_inputs_again today today' _ _ Hrun) as Hag.
  destruct (resolve_inputs_commutes today' None x) as [Ho Hf].
  destruct (resolve_inputs_commutes today' None s6) as [Ho' Hf'].
  rewrite Hx in Ho, Hf. rewrite Hag in Ho', Hf'. cbn in Ho', Hf'.
  rewrite Ho' in Ho. split; [done|]. rewrite <- Hf by done. by apply Hf'.
Qed.

Lemma resolve_inputs_calculator today :
  preserves income_tax_calculator (resolve_inputs today).
Proof. preserves_tac. Qed.

Lemma sim_derive_fields today rec rec' :
  sim 0 47 rec rec' -> keeps_store rec -> keeps_store rec' ->
  sim 6 47 (derive_fields today rec) (derive_fields today rec').
Proof. intros Hrec Hs Hs'. unfold derive_fields. sim_steps 6%nat. Qed.

Lemma derive_fields_inputs today rec :
  preserves (fun w => forget 6 None (fst w)) (derive_fields today rec).
Proof. unfold derive_fields. preserves_steps. Qed.

Lemma derive_fields_calculator today rec :
  preserves (fun w => income_tax_calculator (fst w))
    (derive_fields today rec).
Proof. unfold derive_fields. preserves_steps. Qed.

Lemma keeps_store_derive_fields today rec :
  keeps_store rec -> keeps_store (derive_fields today rec).
Proof.
  intros Hrec. unfold derive_fields. keeps_store_steps.
Qed.

(** A reference to a tax calculator that is not in the store stops the
    recomputation at [_calculate_income_tax]. *)
Lemma preserves_attached_on_self {A} (m : M t A) :
  preserves income_tax_calculator m -> preserves attached (on_self m).
Proof.
  intros Hm [s h]. unfold on_self, attached. cbn [fst snd].
  specialize (Hm s). destruct (m s) as [r s1]. cbn in *. by rewrite Hm.
Qed.

Lemma preserves_attached_home_loan_deduction :
  preserves attached _calculate_home_loan_deduction.
Proof.
  unfold _calculate_home_loan_deduction.
  apply preserves_bind; [apply preserves_attached_on_self; preserves_tac|].
  intros _. apply preserves_bind; [by intros w|].
  intros []; [|by intros w]. apply preserves_attached_on_self. preserves_tac.
Qed.

Lemma income_tax_dangling today :
  never_completes (fun w => attached w = Some None) (fun _ => tt)
    (_calculate_income_tax today).
Proof.
  intros [s h] Hd. split; [|done]. intros a. rewrite income_tax_run.
  unfold attached in Hd. cbn [fst snd] in Hd. cbv zeta.
  destruct (income_tax_calculator s) as [l|]; [|done].
  cbn in Hd. injection Hd as ->. done.
Qed.

Lemma derive_fields_dangling today rec :
  never_completes (fun w => attached w = Some None) (fun _ => tt)
    (derive_fields today rec).
Proof.
  unfold derive_fields.
  repeat lazymatch goal with
  | |- never_completes _ _ (bind (on_self _) _) =>
      apply never_completes_later;
        [ apply (invariant_of_preserves attached),
            preserves_attached_on_self; preserves_tac
        | by intros w
        | intros _ ]
  | |- never_completes _ _ (bind _calculate_home_loan_deduction _) =>
      apply never_completes_later;
        [ apply (invariant_of_preserves attached),
            preserves_attached_home_loan_deduction
        | by intros w
        | intros _ ]
  end.
  apply never_completes_first, income_tax_dangling.
Qed.

Lemma forget_all_inj a b :
  forget 47 None a = forget 47 None b ->
  income_tax_calculator a = income_tax_calculator b ->
  a = b.
Proof.
  destruct a, b. unfold forget, kept. simpl_re. cbn [Nat.leb].
  intros Hf Hc. injection Hf. intros. by subst.
Qed.

Lemma body_again today rec s h s1 h1 :
  sim 0 47 rec rec -> keeps_store rec ->
  calculate_all_fields_body today rec (s, h) = (Ok tt, (s1, h1)) ->
  calc_year s1 = calc_year s
  /\ exists h2, calculate_all_fields_body today rec (s1, h1) = (Ok tt, (s1, h2)).
Proof.
  intros Hsim Hstore. rewrite !body_split. intros Hrun.
  apply run_bind in Hrun. destruct Hrun as ([] & [s6 h6] & Hp & Hrun).
  unfold on_self in Hp. cbn [fst snd] in Hp.
  destruct (resolve_inputs today s) as [r s6'] eqn:Hrs.
  injection Hp as -> -> <-.
  pose proof (derive_fields_inputs today rec (s6, h)) as Hin.
  pose proof (derive_fields_calculator today rec (s6, h)) as Hcalc.
  pose proof (keeps_store_derive_fields today rec Hstore (s6, h)) as Hkeep.
  rewrite Hrun in Hin, Hcalc, Hkeep. cbn [final fst snd] in Hin, Hcalc, Hkeep.
  destruct (resolve_inputs_absorb today today s s6 s1 Hrs Hin) as [Ho Hf].
  pose proof (resolve_inputs_calculator today s1) as Hc1.
  assert (calc_year s1 = calc_year s) as Hyear.
  { transitivity (calc_year (forget 6 None s1)); [by destruct s1|].
    rewrite Hin. transitivity (calc_year s6); [by destruct s6|].
    assert (preserves calc_year (resolve_inputs today)) as Hy
      by preserves_tac.
    specialize (Hy s). by rewrite Hrs in Hy. }
  split; [exact Hyear|].
  unfold bind at 1. unfold on_self at 1. cbn [fst snd].
  destruct (resolve_inputs today s1) as [r1 x] eqn:Hx.
  cbn [outcome final fst snd] in Ho, Hf, Hc1. subst r1.
  assert (related 6 (x, h1) (s6, h)) as Hrel.
  { split; [exact Hf|]. unfold attached. cbn [fst snd].
    rewrite Hc1, Hcalc.
    destruct (income_tax_calculator s6) as [l|] eqn:Hl; [|done].
    cbn. f_equal.
    destruct (h !! l) as [c|] eqn:Hhl; [by apply Hkeep|].
    destruct (derive_fields_dangling today rec (s6, h)) as [Hno _].
    { unfold attached. cbn [fst snd]. by rewrite Hl, <- Hhl. }
    rewrite Hrun in Hno. by destruct (Hno tt). }
  destruct (sim_derive_fields today rec rec Hsim Hstore Hstore _ _ Hrel)
    as [Hout Hfin].
  rewrite Hrun in Hout, Hfin. cbn [outcome final] in Hout, Hfin.
  pose proof (derive_fields_calculator today rec (x, h1)) as Hcalc2.
  destruct (derive_fields today rec (x, h1)) as [r2 [s2 h2]].
  cbn [outcome final fst snd] in *. subst r2.
  destruct (Hfin eq_refl) as [Hf2 _]. cbn [fst] in Hf2.
  exists h2. do 2 f_equal. apply forget_all_inj; [exact Hf2|congruence].
Qed.

Lemma rec_again depth today s h s1 h1 :
  calculate_all_fields_rec depth today (s, h) = (Ok tt, (s1, h1)) ->
  calc_year s1 = calc_year s
  /\ exists h2, calculate_all_fields_rec depth today (s1, h1) = (Ok tt, (s1, h2)).
Proof.
  destruct depth as [|depth]; cbn [calculate_all_fields_rec];
    apply body_again.
  - apply sim_stuck.
  - intros w l c Hl. exact Hl.
  - apply sim_rec.
  - apply keeps_store_rec.
Qed.

(** C9: when a recomputation of a scenario completes, recomputing it once
    more completes too and leaves every attribute of the scenario, derived
    fields included, with the value it had after the first recomputation. *)
Theorem recomputation_is_idempotent today s h s1 h1 :
  calculate_all_fields today (s, h) = (Ok tt, (s1, h1)) ->
  exists h2, calculate_all_fields today (s1, h1) = (Ok tt, (s1, h2)).
Proof.
  unfold calculate_all_fields. cbn [fst]. intros Hrun.
  destruct (rec_again _ _ _ _ _ _ Hrun) as [-> Hagain]. exact Hagain.
Qed.

Lemma derive_fields_split today rec w :
  derive_fields today rec w
  = (ongoing_fields today ;;
     _calculate_cumulative_net_income rec ;;
     disposal_fields) w.
Proof.
  unfold derive_fields, ongoing_fields, disposal_fields.
  generalize (_calculate_cumulative_net_income rec ;;
              ltac:(let b := eval cbv delta [disposal_fields] in disposal_fields in exact b)).
  intros tail. unfold bind, ret. revert w.
  repeat (intros w;
    lazymatch goal with
    | |- match ?x with _ => _ end = _ =>
        let w' := fresh "w" in
        destruct x as [[[]|?] w']; [|reflexivity];
        cbv beta iota; clear w; revert w'
    end).
  intros w. by destruct (tail w) as [[[]|?] ?].
Qed.

(** ** The recomputation of the previous year *)

(** The first six methods read neither the evaluation year nor the tax
    calculator. *)
Lemma resolve_inputs_transports today y c :
  transports (fun s => set_calc_year y (set_income_tax_calculator c s))
    (resolve_inputs today).
Proof. transports_tac. Qed.

(** A recomputation only sees the arguments with their defaults filled
    in. *)
Lemma body_resolved today rec s h s6 :
  resolve_inputs today s = (Ok tt, s6) ->
  calculate_all_fields_body today rec (s, h)
  = calculate_all_fields_body today rec (s6, h).
Proof.
  intros Hs. rewrite !body_split. unfold bind, on_self. cbn [fst snd].
  by rewrite Hs, (resolve_inputs_again _ today _ _ Hs).
Qed.

Lemma resolve_inputs_transports_year today y :
  transports (set_calc_year y) (resolve_inputs today).
Proof. transports_tac. Qed.

Lemma derive_fields_attached today rec s h w1 l :
  derive_fields today rec (s, h) = (Ok tt, w1) ->
  income_tax_calculator s = Some l -> is_Some (h !! l).
Proof.
  intros Hrun Hl. destruct (h !! l) as [c|] eqn:Hhl; [by eexists|].
  destruct (derive_fields_dangling today rec (s, h)) as [Hno _].
  { unfold attached. cbn [fst snd]. by rewrite Hl, <- Hhl. }
  rewrite Hrun in Hno. by destruct (Hno tt).
Qed.

Lemma forget_proj {X} k (f : t -> X) a b :
  forget k None a = forget k None b ->
  (forall s, f (forget k None s) = f s) ->
  f a = f b.
Proof. intros Hf Hk. rewrite <- (Hk a), Hf. apply Hk. Qed.

(** The deep copy of a scenario is the deep copy of the scenario with
    its defaults filled in, before the defaults are filled in. *)
Lemma previous_year_copy_resolved today s h s6 c6 :
  resolve_inputs today s = (Ok tt, s6) ->
  previous_year_copy (s6, h) = Ok c6 ->
  exists sc,
    previous_year_copy (s, h) = Ok (sc, snd c6)
    /\ resolve_inputs today sc = (Ok tt, fst c6).
Proof.
  intros Hs. unfold previous_year_copy. cbn [fst snd]. cbv zeta.
  assert (preserves calc_year (resolve_inputs today)) as Hy by preserves_tac.
  pose proof (resolve_inputs_calculator today s) as Hc.
  specialize (Hy s). rewrite Hs in Hy, Hc. cbn [final snd] in Hy, Hc.
  rewrite Hy, Hc.
  destruct (income_tax_calculator s) as [l|].
  - destruct (h !! l) as [c|]; [|done]. intros [= <-]. eexists.
    split; [reflexivity|]. cbn [fst].
    by rewrite (resolve_inputs_transports today _ _ s), Hs.
  - intros [= <-]. eexists. split; [reflexivity|]. cbn [fst].
    by rewrite (resolve_inputs_transports_year today _ s), Hs.
Qed.

(** Scenarios with the same arguments, mortgage and tax calculator have
    the same [cumulative_net_income] the year before. *)
Lemma previous_year_related rec w w' wc copy h2 b :
  sim 0 47 rec rec -> related 0 w' w ->
  previous_year_copy w = Ok wc -> rec wc = (Ok tt, (copy, h2)) ->
  cumulative_net_income copy = Some b ->
  exists c' prev,
    previous_year_copy w' = Ok c' /\ rec c' = (Ok tt, prev)
    /\ cumulative_net_income (fst prev) = Some b.
Proof.
  intros Hsim Hrel Hcopy Hrec Hb.
  pose proof (previous_year_copy_related 0 w' w Hrel) as Hc.
  rewrite Hcopy in Hc. destruct (previous_year_copy w') as [c'|]; [|done].
  destruct (Hsim c' wc Hc) as [Ho Hf]. rewrite Hrec in Ho, Hf.
  cbn [outcome final] in Ho, Hf.
  destruct (rec c') as [r [sp hp]] eqn:Hr. cbn in Ho, Hf. subst r.
  exists c', (sp, hp). split; [done|]. split; [done|]. cbn [fst].
  rewrite <- Hb.
  apply (related_proj 47 cumulative_net_income _ _ _ _ (Hf eq_refl)).
  by intros [].
Qed.

Lemma ongoing_fields_inputs today :
  preserves (fun w => forget 6 None (fst w)) (ongoing_fields today).
Proof. unfold ongoing_fields. preserves_steps. Qed.

Lemma ongoing_fields_calculator today :
  preserves (fun w => income_tax_calculator (fst w)) (ongoing_fields today).
Proof. unfold ongoing_fields. preserves_steps. Qed.

Lemma keeps_store_ongoing_fields today : keeps_store (ongoing_fields today).
Proof. unfold ongoing_fields. keeps_store_steps. Qed.

Lemma disposal_fields_earlier :
  preserves (fun w => forget 34 None (fst w)) disposal_fields.
Proof. unfold disposal_fields. preserves_steps. Qed.

Lemma disposal_fields_calculator :
  preserves (fun w => income_tax_calculator (fst w)) disposal_fields.
Proof. unfold disposal_fields. preserves_steps. Qed.

Lemma keeps_store_disposal_fields : keeps_store disposal_fields.
Proof. unfold disposal_fields. keeps_store_steps. Qed.

Lemma previous_year_copy_year w c :
  previous_year_copy w = Ok c -> calc_year (fst c) = calc_year (fst w) - 1.
Proof.
  unfold previous_year_copy. cbv zeta.
  destruct (income_tax_calculator (fst w)) as [l|].
  - destruct (snd w !! l); [|done]. intros [= <-]. cbn [fst].
    by destruct (fst w).
  - intros [= <-]. cbn [fst]. by destruct (fst w).
Qed.

(** What [_calculate_cumulative_net_income] leaves in a recomputed
    scenario. *)
Lemma cumulative_body today rec s h s1 h1 :
  sim 0 47 rec rec -> keeps_store rec ->
  (forall s h s6 prev,
     resolve_inputs today s = (Ok tt, s6) ->
     rec (s6, h) = (Ok tt, prev) -> rec (s, h) = (Ok tt, prev)) ->
  calculate_all_fields_body today rec (s, h) = (Ok tt, (s1, h1)) ->
  if calc_year s <? 0 then cumulative_net_income s1 = Some (Int 0)
  else
    exists a b v,
      net_income_after_taxes s1 = Some a
      /\ Py.add a b = Ok v
      /\ cumulative_net_income s1 = Some v
      /\ forall w0, w0 = (s, h) \/ w0 = (s1, h1) ->
           exists c0 prev,
             previous_year_copy w0 = Ok c0 /\ rec c0 = (Ok tt, prev)
             /\ cumulative_net_income (fst prev) = Some b.
Proof.
  intros Hsim Hstore Hres. rewrite body_split. intros Hrun.
  apply run_bind in Hrun. destruct Hrun as ([] & [s6 h6] & Hp & Hrun).
  unfold on_self in Hp. cbn [fst snd] in Hp.
  destruct (resolve_inputs today s) as [r s6'] eqn:Hs.
  injection Hp as -> -> <-.
  pose proof (fun l => derive_fields_attached today rec s6 h _ l Hrun)
    as Hatt.
  rewrite derive_fields_split in Hrun.
  apply run_bind in Hrun. destruct Hrun as ([] & [s33 h33] & Hon & Hrun).
  apply run_bind in Hrun. destruct Hrun as ([] & [s34 h34] & Hcum & Hdis).
  pose proof (ongoing_fields_inputs today (s6, h)) as Hin.
  pose proof (ongoing_fields_calculator today (s6, h)) as Hcalc.
  pose proof (keeps_store_ongoing_fields today (s6, h)) as Hkeep.
  rewrite Hon in Hin, Hcalc, Hkeep. cbn [final fst snd] in Hin, Hcalc, Hkeep.
  pose proof (disposal_fields_earlier (s34, h34)) as Hin'.
  pose proof (disposal_fields_calculator (s34, h34)) as Hcalc'.
  pose proof (keeps_store_disposal_fields (s34, h34)) as Hkeep'.
  rewrite Hdis in Hin', Hcalc', Hkeep'.
  cbn [final fst snd] in Hin', Hcalc', Hkeep'.
  assert (calc_year s33 = calc_year s) as Hyear.
  { rewrite (forget_proj 6 calc_year _ _ Hin) by (by intros []).
    assert (preserves calc_year (resolve_inputs today)) as Hy
      by preserves_tac.
    specialize (Hy s). by rewrite Hs in Hy. }
  rewrite cumulative_run, Hyear in Hcum.
  destruct (calc_year s <? 0).
  { injection Hcum as <- <-.
    rewrite (forget_proj 34 cumulative_net_income _ _ Hin')
      by (by intros []).
    by destruct s33. }
  cbv zeta in Hcum.
  set (s33' := set_cumulative_net_income (net_income_after_taxes s33) s33)
    in Hcum.
  destruct (previous_year_copy (s33', h33)) as [wc|e] eqn:Hcopy; [|done].
  destruct (rec wc) as [[[]|e] [copy h2]] eqn:Hrec; [|done].
  destruct (res_bind _ _) as [v|e] eqn:Hv; [|done].
  injection Hcum as <- <-.
  res_inv Hv. injection Hv as <-.
  assert (net_income_after_taxes s33 = Some a) as Hnat.
  { replace (cumulative_net_income s33') with (net_income_after_taxes s33)
      in E by (by destruct s33).
    by destruct (net_income_after_taxes s33); simplify_eq/=. }
  assert (cumulative_net_income copy = Some a0) as Hb
    by (by destruct (cumulative_net_income copy); simplify_eq/=).
  exists a, a0, a1. split.
  { rewrite (forget_proj 34 net_income_after_taxes _ _ Hin')
      by (by intros []).
    rewrite <- Hnat. by destruct s33. }
  split; [done|]. split.
  { rewrite (forget_proj 34 cumulative_net_income _ _ Hin')
      by (by intros []).
    by destruct s33. }
  assert (forget 6 None s33' = forget 6 None s6) as Hin33
    by (rewrite <- Hin; by destruct s33).
  assert (income_tax_calculator s33' = income_tax_calculator s6) as Hcalc33
    by (rewrite <- Hcalc; by destruct s33).
  intros w0 [->| ->].
  - destruct (previous_year_related rec (s33', h33) (s6, h) wc copy h2 a0)
      as (c6 & prev & Hc6 & Hprev & Hcp); try done.
    { split; cbn [fst snd].
      - symmetry. by apply (forget_weaken 6).
      - unfold attached. cbn [fst snd]. rewrite Hcalc33.
        destruct (income_tax_calculator s6) as [l|] eqn:Hl; [|done].
        cbn. f_equal. destruct (Hatt l eq_refl) as [c Hc].
        by rewrite Hc, (Hkeep l c Hc). }
    destruct (previous_year_copy_resolved today s h s6 c6 Hs Hc6)
      as (sc & Hsc & Hrsc).
    exists (sc, snd c6), prev. split; [done|]. split; [|done].
    apply (Hres _ _ _ _ Hrsc). by destruct c6.
  - apply (previous_year_related rec (s33', h33) (s1, h1) wc copy h2 a0);
      try done.
    split; cbn [fst snd].
    + apply (forget_weaken 6).
      rewrite (forget_proj 34 (forget 6 None) _ _ Hin') by (by intros []).
      subst s33'. by destruct s33.
    + unfold attached. cbn [fst snd]. rewrite Hcalc'.
      replace (income_tax_calculator (set_cumulative_net_income (Some a1) s33'))
        with (income_tax_calculator s33') by (subst s33'; by destruct s33).
      destruct (income_tax_calculator s33') as [l|] eqn:Hl; [|done].
      cbn. f_equal.
      destruct (previous_year_copy_attached _ _ l Hcopy Hl) as [c Hc].
      cbn [snd] in Hc. rewrite Hc. apply Hkeep'.
      pose proof (Hstore wc l c) as Hst. rewrite Hrec in Hst. apply Hst.
      by apply (previous_year_copy_store _ _ _ _ Hcopy).
Qed.

Lemma rec_resolved depth today s h s6 prev :
  resolve_inputs today s = (Ok tt, s6) ->
  calculate_all_fields_rec depth today (s6, h) = (Ok tt, prev) ->
  calculate_all_fields_rec depth today (s, h) = (Ok tt, prev).
Proof.
  intros Hs. destruct depth; cbn [calculate_all_fields_rec];
    by rewrite (body_resolved _ _ _ _ _ Hs).
Qed.

(** C1: after a recomputation that completes, [cumulative_net_income] is
    0 when the evaluation year is negative; otherwise it is
    [net_income_after_taxes] plus the [cumulative_net_income] that the
    recomputation of a deep copy of the scenario with the evaluation year
    decremented gives, whether the copy is taken before or after the
    recomputation.  For the evaluation year 0 that term is 0, and the sum
    is [net_income_after_taxes] itself (a float [-0.0] becomes [0.0]). *)
Theorem cumulative_net_income_recurrence today s h s1 h1 :
  calculate_all_fields today (s, h) = (Ok tt, (s1, h1)) ->
  if calc_year s <? 0 then cumulative_net_income s1 = Some (Int 0)
  else
    exists a b v,
      net_income_after_taxes s1 = Some a
      /\ previous_year_cumulative_net_income today (s, h) = Ok b
      /\ previous_year_cumulative_net_income today (s1, h1) = Ok b
      /\ Py.add a b = Ok v
      /\ cumulative_net_income s1 = Some v
      /\ (calc_year s = 0 ->
          b = Int 0 /\ (v = a \/ (a = Flt (-0)%float /\ v = Flt 0%float))).
Proof.
  unfold calculate_all_fields at 1. cbn [fst]. intros Hrun.
  destruct (rec_again _ _ _ _ _ _ Hrun) as [Hyear _].
  assert (forall (s : t) (h : gmap positive IncomeTaxCalc.t) s6
      (prev : t * gmap positive IncomeTaxCalc.t),
    resolve_inputs today s = (Ok tt, s6) ->
    (Raise ModelStuck, (s6, h)) = (Ok tt, prev) ->
    (Raise ModelStuck, (s, h)) = (Ok tt, prev)) as Hstuck by done.
  assert (keeps_store (A := unit)
    (fun w : t * gmap positive IncomeTaxCalc.t => (Raise ModelStuck, w)))
    as Hks by (intros w l c Hl; exact Hl).
  destruct (calc_year s <? 0) eqn:Hy.
  - apply Z.ltb_lt in Hy as Hlt.
    replace (Z.to_nat (calc_year s + 1)) with 0%nat in Hrun by lia.
    cbn [calculate_all_fields_rec] in Hrun.
    apply cumulative_body in Hrun; [|apply sim_stuck|done..].
    by rewrite Hy in Hrun.
  - apply Z.ltb_ge in Hy as Hge.
    replace (Z.to_nat (calc_year s + 1)) with (S (Z.to_nat (calc_year s)))
      in Hrun by lia.
    cbn [calculate_all_fields_rec] in Hrun.
    apply cumulative_body in Hrun;
      [|apply sim_rec|apply keeps_store_rec
       |intros; by eapply rec_resolved].
    rewrite Hy in Hrun. destruct Hrun as (a & b & v & Ha & Hadd & Hv & Hw).
    assert (forall w0, w0 = (s, h) \/ w0 = (s1, h1) ->
      previous_year_cumulative_net_income today w0 = Ok b
      /\ (calc_year s = 0 -> b = Int 0)) as Hprev.
    { intros w0 Hw0. assert (calc_year (fst w0) = calc_year s) as Hy0
        by (by destruct Hw0 as [->| ->]).
      destruct (Hw w0 Hw0) as ([sc hc] & [sp hp] & Hc0 & Hp & Hb).
      pose proof (previous_year_copy_year _ _ Hc0) as Hyc.
      rewrite Hy0 in Hyc. cbn [fst] in Hyc, Hb.
      unfold previous_year_cumulative_net_income, calculate_all_fields.
      rewrite Hc0. cbn [res_bind fst]. rewrite Hyc.
      replace (calc_year s - 1 + 1) with (calc_year s) by lia.
      rewrite Hp. cbn [res_bind fst]. rewrite Hb. split; [done|].
      intros Hzero. rewrite Hzero in Hp. cbn [Z.to_nat] in Hp.
      cbn [calculate_all_fields_rec] in Hp.
      apply cumulative_body in Hp; [|apply sim_stuck|done..].
      rewrite Hyc, Hzero in Hp. cbn in Hp. congruence. }
    exists a, b, v.
    destruct (Hprev (s, h)) as [Hp0 Hz]; [by left|].
    destruct (Hprev (s1, h1)) as [Hp1 _]; [by right|].
    repeat (split; [done|]). intros Hzero.
    split; [by apply Hz|]. apply add_zero. by rewrite <- (Hz Hzero).
Qed.

(** ** The home loan deduction *)

Lemma is_qualified_for_deduction_spec s h b :
  is_qualified_for_deduction s h = Ok b ->
  b = true <-> qualifies_for_home_loan_deduction (s, h).
Proof.
  unfold is_qualified_for_deduction, qualifies_for_home_loan_deduction,
    mortgage_is_active, deref.
  cbn [fst snd].
  destruct (is_primary_residence s =? 0) eqn:Hp;
    [apply Z.eqb_eq in Hp|apply Z.eqb_neq in Hp]; cbn.
  { intros [= <-]. split; [done|]. by intros (? & _). }
  destruct (calc_year s <? 10) eqn:Hy;
    [apply Z.ltb_lt in Hy|apply Z.ltb_ge in Hy]; cbn.
  2:{ intros [= <-]. split; [done|]. intros (_ & ? & _). lia. }
  destruct (Py.gt (size s) (Int 50)) eqn:Hs; cbn.
  2:{ intros [= <-]. split; [done|]. by intros (_ & _ & ? & _). }
  destruct (mortgage s) as [m|] eqn:Hm; cbn.
  2:{ intros [= <-]. split; [done|]. by intros (_ & _ & _ & (? & ? & _) & _). }
  destruct (calc_year s <? Mortgage.tenor m) eqn:Ht;
    [apply Z.ltb_lt in Ht|apply Z.ltb_ge in Ht]; cbn.
  2:{ intros [= <-]. split; [done|].
      intros (_ & _ & _ & (m' & [= <-] & ?) & _). lia. }
  destruct (income_tax_calculator s) as [l|] eqn:Hl.
  2:{ intros [= <-]. split; [done|].
      by intros (_ & _ & _ & _ & (? & ? & ? & ? & _)). }
  destruct (h !! l) as [c|] eqn:Hc; [|done]. cbn.
  destruct (IncomeTaxCalc.taxable_income c) as [ti|] eqn:Hti; [|done]. cbn.
  intros [= <-]. split.
  - intros Hlt. repeat (split; [done|]). split; [by exists m|].
    by exists l, c, ti.
  - intros (_ & _ & _ & _ & (l' & c' & ti' & [= <-] & Hc' & Hti' & Hlt)).
    by simplify_eq.
Qed.

Lemma slice_from_nonneg {A} i (l : list A) :
  0 <= i -> Py.slice_from i l = drop (Z.to_nat i) l.
Proof.
  intros Hi. unfold Py.slice_from.
  by destruct (i <? 0) eqn:E; [apply Z.ltb_lt in E; lia|].
Qed.

(** C4: [_calculate_home_loan_deduction] only writes
    [home_loan_deduction].  It writes 0 unless the scenario is a primary
    residence, its evaluation year is below 10, its size above 50, it has
    a mortgage with a tenor above the evaluation year and a tax calculator
    with a taxable income below 30,000,000; then it writes the integer
    part of the minimum of 400,000 (for age 0, else 200,000) and the sum of
    the amortization schedule from the month 12 times the evaluation year
    on. *)
Theorem home_loan_deduction_value s h s' h' :
  _calculate_home_loan_deduction (s, h) = (Ok tt, (s', h')) ->
  h' = h
  /\ s' = set_home_loan_deduction (home_loan_deduction s') s
  /\ (~ qualifies_for_home_loan_deduction (s, h) ->
      home_loan_deduction s' = Some (Int 0))
  /\ (qualifies_for_home_loan_deduction (s, h) ->
      exists m schedule remaining v,
        mortgage s = Some m
        /\ Mortgage.amortization_schedule m = Some schedule
        /\ Py.sum (Py.slice_from (calc_year s * 12) schedule) = Ok remaining
        /\ Py.int
             (Py.min
                (Int (if Py.eq (age s) (Int 0) then 400000 else 200000))
                remaining) = Ok v
        /\ home_loan_deduction s' = Some v
        /\ (0 <= calc_year s ->
            Py.slice_from (calc_year s * 12) schedule
            = drop (Z.to_nat (calc_year s * 12)) schedule)).
Proof.
  unfold _calculate_home_loan_deduction.
  unfold bind at 1. unfold on_self at 1, assign at 1. cbn [fst snd].
  unfold bind at 1. cbn [fst snd].
  set (s0 := set_home_loan_deduction (Some (Int 0)) s).
  destruct (is_qualified_for_deduction s0 h) as [[]|e] eqn:Hq; [| |done].
  all: pose proof (is_qualified_for_deduction_spec _ _ _ Hq) as Hspec.
  all: assert (qualifies_for_home_loan_deduction (s0, h)
               <-> qualifies_for_home_loan_deduction (s, h)) as Hs0
         by (subst s0; by destruct s).
  all: rewrite Hs0 in Hspec.
  - intros Hrun. unfold on_self in Hrun. cbn [fst snd] in Hrun.
    destruct (bind _ _ s0) as [r s2] eqn:Hm. injection Hrun as -> -> <-.
    split; [done|].
    apply run_bind in Hm. destruct Hm as ([] & s1 & Hbase & Hmin).
    step_inv Hbase; step_inv Hmin; res_inv Hmin; injection Hmin as <-.
    all: injection Hbase as <-.
    all: (split; [subst s0; by destruct s|]).
    all: (split; [intros Hn; destruct Hn; by apply Hspec|]); intros _.
    all: subst s0; simpl_re.
    all: injection H0 as H0; injection E2 as <-.
    all: destruct (mortgage s) as [m|] eqn:Hm; [|done]; injection E as <-.
    all: destruct (Mortgage.amortization_schedule m) as [schedule|] eqn:Hsch;
           [|done]; injection E0 as <-.
    all: exists m, schedule, a1, a3; rewrite H0.
    all: repeat (split; [done|]); intros Hy; apply slice_from_nonneg; lia.
  - intros Hrun. injection Hrun as <- <-. split; [done|].
    split; [subst s0; by destruct s|].
    split; [subst s0; by destruct s|].
    intros Hq'. by apply Hspec in Hq'.
Qed.

(** ** The attached tax calculator *)

(** C8: [_calculate_income_tax] works on a deep copy of the attached tax
    calculator: the copy is a new object of the store, on which the
    evaluation date, the other income and the tax deduction are set and
    the fields recomputed, while the attached calculator, still referenced
    by the scenario, keeps every attribute, as does every other object of
    the store.  The same holds of a whole recomputation. *)
Theorem income_tax_keeps_attached_calculator today s h l c :
  income_tax_calculator s = Some l -> h !! l = Some c ->
  let w1 := final (_calculate_income_tax today (s, h)) in
  let w2 := final (calculate_all_fields today (s, h)) in
  income_tax_calculator (fst w1) = Some l
  /\ snd w1 !! l = Some c
  /\ snd w1 =
       <[fresh (dom h) :=
           final (hypothetical_calc today
                    (set_income_tax (Some (Int 0)) s) c)]> h
  /\ fresh (dom h) <> l
  /\ income_tax_calculator (fst w2) = Some l
  /\ snd w2 !! l = Some c.
Proof.
  intros Hl Hc. cbv zeta.
  pose proof (preserves_income_tax income_tax_calculator today) as Hp.
  rewrite (Hp ltac:(by intros ? [])).
  split; [done|]. split; [by apply keeps_store_income_tax|].
  split.
  { rewrite income_tax_run. cbv zeta. rewrite Hl, Hc.
    by destruct (outcome _). }
  split.
  { intros Heq. rewrite <- Heq, fresh_lookup in Hc. done. }
  rewrite (preserves_calculator today (s, h)).
  split; [done|]. by apply keeps_store_calculate_all_fields.
Qed.

(** ** A scenario without a sale price *)

(** The methods before [_calculate_sale_agent_fee] neither set the sale
    price nor write a field of the sale, and that method raises. *)
Lemma unset_sale_price_body today rec :
  never_completes (fun w => sale_price (fst w) = None)
    (fun w => sale_fields (fst w))
    (calculate_all_fields_body today rec).
Proof.
  unfold calculate_all_fields_body.
  do 35 (apply never_completes_later;
         [ apply (invariant_of_preserves (fun w => sale_price (fst w)));
           preserves_steps
         | preserves_steps
         | intros _ ]).
  apply never_completes_first. intros [s h] Hs. cbn [fst] in Hs.
  unfold on_self, _calculate_sale_agent_fee, assign. cbn [fst snd].
  rewrite Hs. by split.
Qed.

(** C2: when [sale_price] is [None], a recomputation does not complete:
    [calculate_all_fields] never calls [_calculate_sale_price], so that at
    the latest [_calculate_sale_agent_fee] raises a [TypeError] on
    [None * agent_fee_variable]; the sale price stays [None] and the fields
    of the sale keep the values they had. *)
Theorem unset_sale_price_is_not_estimated today s h :
  sale_price s = None ->
  (forall a, outcome (calculate_all_fields today (s, h)) <> Ok a)
  /\ sale_fields (fst (final (calculate_all_fields today (s, h))))
     = sale_fields s
  /\ _calculate_sale_agent_fee s = (Raise TypeError, s).
Proof.
  intros Hs. unfold calculate_all_fields. cbn [fst].
  destruct (unset_sale_price_body today
              match Z.to_nat (calc_year s + 1) with
              | O => fun w => (Raise ModelStuck, w)
              | S d => calculate_all_fields_rec d today
              end (s, h) Hs) as [Ho Hf].
  split; [|split].
  - by destruct (Z.to_nat _).
  - by destruct (Z.to_nat _).
  - unfold _calculate_sale_agent_fee, assign. by rewrite Hs.
Qed.

(** ** The deduction for a primary residence *)

Lemma calculate_all_fields_unfold today s h :
  calculate_all_fields today (s, h)
  = calculate_all_fields_body today (self_call today (calc_year s)) (s, h).
Proof.
  unfold calculate_all_fields, self_call. cbn [fst].
  by destruct (Z.to_nat _).
Qed.

Lemma deduction_run s :
  _calculate_capital_gains_tax_primary_residence_deduction s =
  let code := is_primary_residence s in
  if valid_residence_code code
  then (Ok tt,
        set_capital_gains_tax_primary_residence_deduction
          (Some (Int (30000000 * code))) s)
  else (Raise (ValueError (is_not_a_valid_value_for_is_primary_residence code)),
        s).
Proof.
  unfold _calculate_capital_gains_tax_primary_residence_deduction, assign,
    valid_residence_code.
  cbv zeta. by destruct (_ || _).
Qed.

Lemma invalid_code_body today rec :
  never_completes
    (fun w => has_valid_residence_code (fst w) = false)
    (fun w => deduction_fields (fst w))
    (calculate_all_fields_body today rec).
Proof.
  unfold calculate_all_fields_body.
  do 41 (apply never_completes_later;
         [ apply (invariant_of_preserves
                    (fun w => has_valid_residence_code (fst w)));
           preserves_steps
         | preserves_steps
         | intros _ ]).
  apply never_completes_first. intros [s h] Hs. cbn [fst] in Hs.
  unfold on_self. cbn [fst snd]. rewrite deduction_run. cbv zeta.
  unfold has_valid_residence_code in Hs. rewrite Hs. by split.
Qed.

Lemma on_self_run {A} (m : M t A) s h a s' h' :
  on_self m (s, h) = (Ok a, (s', h')) -> m s = (Ok a, s') /\ h' = h.
Proof.
  unfold on_self. cbn [fst snd]. destruct (m s) as [r s1].
  by intros [= -> -> ->].
Qed.

(** The deduction that a completed recomputation leaves. *)
Lemma disposal_fields_deduction s h s1 h1 :
  disposal_fields (s, h) = (Ok tt, (s1, h1)) ->
  valid_residence_code (is_primary_residence s) = true
  /\ capital_gains_tax_primary_residence_deduction s1
     = Some (Int (30000000 * is_primary_residence s)).
Proof.
  unfold disposal_fields. intros Hrun. run_inv Hrun.
  repeat match goal with
  | w : (t * gmap positive IncomeTaxCalc.t)%type |- _ => destruct w
  end.
  repeat match goal with
  | Hm : on_self _ _ = (Ok _, _) |- _ =>
      apply on_self_run in Hm; destruct Hm as [Hm _]
  end.
  match goal with
  | Hm : _calculate_capital_gains_tax_primary_residence_deduction _ = _
    |- _ => rewrite deduction_run in Hm; cbv zeta in Hm; rename Hm into Hded
  end.
  repeat match goal with
  | Hm : ?m ?a = (Ok tt, ?b) |- _ =>
      lazymatch m with
      | _calculate_depreciation_cumulative => idtac
      | _calculate_sale_agent_fee => idtac
      | _calculate_sale_other_transaction_fees => idtac
      | _calculate_depreciated_building_value => idtac
      | _calculate_book_value => idtac
      | _calculate_sale_proceeds_after_fees => idtac
      | _calculate_acquisition_cost => idtac
      end;
      let Hp := fresh in
      assert (preserves is_primary_residence m) as Hp by preserves_tac;
      specialize (Hp a); rewrite Hm in Hp; cbn [final snd] in Hp;
      clear Hm
  | Hm : ?m ?a = (Ok tt, ?b) |- _ =>
      lazymatch m with
      | _calculate_capital_gains => idtac
      | _calculate_capital_gains_tax_rate => idtac
      | _calculate_capital_gains_tax => idtac
      | _calculate_sale_proceeds_net => idtac
      | _calculate_net_income_on_realestate => idtac
      end;
      let Hp := fresh in
      assert (preserves capital_gains_tax_primary_residence_deduction m)
        as Hp by preserves_tac;
      specialize (Hp a); rewrite Hm in Hp; cbn [final snd] in Hp;
      clear Hm
  end.
  match goal with
  | Hm : (if valid_residence_code (is_primary_residence ?a) then _ else _)
         = (Ok tt, ?b) |- _ =>
      assert (is_primary_residence a = is_primary_residence s) as Hcode
        by congruence;
      assert (capital_gains_tax_primary_residence_deduction s1
              = capital_gains_tax_primary_residence_deduction b) as ->
        by congruence;
      rewrite Hcode in Hm; destruct (valid_residence_code _); [|done];
      injection Hm as <-; split; [done|]; by destruct a
  end.
Qed.

Lemma body_before_deduction today rec w w1 :
  has_valid_residence_code (fst w) = false ->
  methods_before_deduction today rec w = (Ok tt, w1) ->
  calculate_all_fields_body today rec w
  = (Raise (ValueError (is_not_a_valid_value_for_is_primary_residence
                          (is_primary_residence (fst w)))), w1).
Proof.
  intros Hcode Hrun.
  assert (preserves (fun w => is_primary_residence (fst w))
            (methods_before_deduction today rec)) as Hp
    by (unfold methods_before_deduction; preserves_steps).
  specialize (Hp w). rewrite Hrun in Hp. cbn [final snd] in Hp.
  rewrite <- Hp. unfold has_valid_residence_code in Hcode.
  rewrite <- Hp in Hcode. clear Hp.
  revert w Hrun.
  unfold calculate_all_fields_body, methods_before_deduction, bind, ret.
  repeat (intros w;
    lazymatch goal with
    | |- match ?x with _ => _ end = _ -> _ =>
        let w' := fresh "w" in
        destruct x as [[[]|?] w']; [|done];
        cbv beta iota; clear w; revert w'
    end).
  intros w [= ->]. destruct w1 as [s1 h1]. unfold on_self at 1.
  cbn [fst snd] in *.
  rewrite deduction_run. cbv zeta. by rewrite Hcode.
Qed.

Lemma reaches_deduction_raises today w :
  reaches_deduction today w ->
  has_valid_residence_code (fst w) = false ->
  outcome (calculate_all_fields today w)
  = Raise (ValueError (is_not_a_valid_value_for_is_primary_residence
                         (is_primary_residence (fst w)))).
Proof.
  induction 1 as [w w1 Hy Hrun|[s h] s6 s33 h33 copy Hy Hs Hon Hcopy _ IH];
    intros Hcode.
  - unfold calculate_all_fields.
    replace (Z.to_nat (calc_year (fst w) + 1)) with 0%nat by lia.
    cbn [calculate_all_fields_rec].
    by rewrite (body_before_deduction _ _ _ _ Hcode Hrun).
  - cbn [fst snd] in *.
    assert (is_primary_residence (fst copy) = is_primary_residence s) as Hc.
    { assert (preserves is_primary_residence (resolve_inputs today)) as H1
        by preserves_tac.
      assert (preserves (fun w => is_primary_residence (fst w))
                (ongoing_fields today)) as H2
        by (unfold ongoing_fields; preserves_steps).
      specialize (H1 s). specialize (H2 (s6, h)).
      rewrite Hs in H1. rewrite Hon in H2. cbn [final fst snd] in H1, H2.
      rewrite <- H1, <- H2. revert Hcopy. unfold previous_year_copy.
      cbn [fst snd]. cbv zeta.
      destruct (income_tax_calculator _) as [l|];
        [destruct (h33 !! l); [|done]|]; intros [= <-]; by destruct s33. }
    unfold has_valid_residence_code in *. rewrite Hc in IH.
    specialize (IH Hcode).
    assert (calc_year s33 = calc_year s) as Hy33.
    { assert (preserves calc_year (resolve_inputs today)) as H1
        by preserves_tac.
      assert (preserves (fun w => calc_year (fst w)) (ongoing_fields today))
        as H2 by (unfold ongoing_fields; preserves_steps).
      specialize (H1 s). specialize (H2 (s6, h)).
      rewrite Hs in H1. rewrite Hon in H2. cbn [final fst snd] in H1, H2.
      congruence. }
    pose proof (previous_year_copy_year _ _ Hcopy) as Hyc.
    cbn [fst] in Hyc.
    replace (calc_year (set_cumulative_net_income _ s33)) with (calc_year s)
      in Hyc by (rewrite <- Hy33; by destruct s33).
    unfold calculate_all_fields in *. cbn [fst] in *.
    replace (Z.to_nat (calc_year s + 1)) with (S (Z.to_nat (calc_year s)))
      by lia.
    rewrite Hyc in IH.
    replace (calc_year s - 1 + 1) with (calc_year s) in IH by lia.
    cbn [calculate_all_fields_rec].
    rewrite body_split. unfold bind at 1. unfold on_self at 1.
    cbn [fst snd]. rewrite Hs.
    rewrite derive_fields_split. unfold bind at 1. rewrite Hon.
    unfold bind at 1. rewrite cumulative_run, Hy33.
    replace (calc_year s <? 0) with false by (symmetry; by apply Z.ltb_ge).
    cbv zeta. rewrite Hcopy.
    destruct (calculate_all_fields_rec _ today copy) as [[[]|e] [c2 h2]];
      cbn [outcome] in IH; [done|]. by injection IH as ->.
Qed.

(** C7: the deduction for a primary residence is 30,000,000 times
    [is_primary_residence] when that is 0, 1 or 2, in the method that
    computes it and after a recomputation that completes.  For another
    value the method raises a [ValueError] and leaves the scenario as it
    is; a recomputation then does not complete, and leaves the deduction
    and the fields computed from it with the values they had; it raises
    that [ValueError] when it gets as far as the deduction, in the
    scenario or in one of the copies for the previous years. *)
Theorem primary_residence_deduction_codes today s h :
  let code := is_primary_residence s in
  let run := calculate_all_fields today (s, h) in
  (valid_residence_code code = true ->
   _calculate_capital_gains_tax_primary_residence_deduction s
   = (Ok tt,
      set_capital_gains_tax_primary_residence_deduction
        (Some (Int (30000000 * code))) s)
   /\ (outcome run = Ok tt ->
       capital_gains_tax_primary_residence_deduction (fst (final run))
       = Some (Int (30000000 * code))))
  /\ (valid_residence_code code = false ->
      _calculate_capital_gains_tax_primary_residence_deduction s
      = (Raise (ValueError (is_not_a_valid_value_for_is_primary_residence code)),
         s)
      /\ (forall a, outcome run <> Ok a)
      /\ deduction_fields (fst (final run)) = deduction_fields s
      /\ (reaches_deduction today (s, h) ->
          outcome run
          = Raise (ValueError
                     (is_not_a_valid_value_for_is_primary_residence code)))).
Proof.
  cbv zeta. split; intros Hcode.
  - split; [by rewrite deduction_run; cbv zeta; rewrite Hcode|].
    rewrite calculate_all_fields_unfold, body_split.
    destruct (bind _ _ (s, h)) as [r [s1 h1]] eqn:Hrun.
    cbn [outcome final fst snd].
    intros ->.
    apply run_bind in Hrun. destruct Hrun as ([] & [s6 h6] & Hp & Hrun).
    rewrite derive_fields_split in Hrun.
    apply run_bind in Hrun. destruct Hrun as ([] & [s33 h33] & Hon & Hrun).
    apply run_bind in Hrun. destruct Hrun as ([] & [s34 h34] & Hcum & Hdis).
    destruct (disposal_fields_deduction _ _ _ _ Hdis) as [_ ->].
    do 3 f_equal.
    pose proof (preserves_on_self is_primary_residence
                  (resolve_inputs today) ltac:(preserves_tac) (s, h)) as H1.
    assert (preserves (fun w => is_primary_residence (fst w))
              (ongoing_fields today)) as H2
      by (unfold ongoing_fields; preserves_steps).
    pose proof (preserves_cumulative is_primary_residence
                  (self_call today (calc_year s))
                  ltac:(by intros ? []) (s33, h33)) as H3.
    specialize (H2 (s6, h6)).
    rewrite Hp in H1. rewrite Hon in H2. rewrite Hcum in H3.
    cbn [final fst snd] in H1, H2, H3. congruence.
  - split; [by rewrite deduction_run; cbv zeta; rewrite Hcode|].
    rewrite calculate_all_fields_unfold.
    destruct (invalid_code_body today (self_call today (calc_year s)) (s, h))
      as [Ho Hf]; [done|].
    split; [done|]. split; [done|].
    rewrite <- calculate_all_fields_unfold. intros Hr.
    exact (reaches_deduction_raises today (s, h) Hr Hcode).
Qed.

(** ** The recursion budget

    [calculate_all_fields] calls itself on a copy whose evaluation year
    is one less, down to the year -1: the budget that the embedding gives
    it is never used up, a larger one changes nothing. *)

Lemma body_ext today rec rec' w :
  (0 <= calc_year (fst w) ->
   forall w', calc_year (fst w') = calc_year (fst w) - 1 -> rec w' = rec' w') ->
  calculate_all_fields_body today rec w
  = calculate_all_fields_body today rec' w.
Proof.
  intros Hrec. destruct w as [s h]. rewrite !body_split.
  apply bind_ext. intros [] [s6 h6] Hp.
  apply on_self_run in Hp as [Hp ->].
  rewrite !derive_fields_split.
  apply bind_ext. intros [] [s33 h33] Hon.
  assert (calc_year s33 = calc_year s) as Hy.
  { assert (preserves calc_year (resolve_inputs today)) as H1
      by preserves_tac.
    assert (preserves (fun w => calc_year (fst w)) (ongoing_fields today))
      as H2 by (unfold ongoing_fields; preserves_steps).
    specialize (H1 s). specialize (H2 (s6, h)).
    rewrite Hp in H1. rewrite Hon in H2. cbn [final fst snd] in H1, H2.
    congruence. }
  unfold bind. rewrite !cumulative_run, Hy.
  destruct (calc_year s <? 0) eqn:Hneg; [done|]. apply Z.ltb_ge in Hneg.
  cbv zeta. destruct (previous_year_copy _) as [wc|e] eqn:Hcopy; [|done].
  rewrite (Hrec Hneg wc); [done|].
  rewrite (previous_year_copy_year _ _ Hcopy). cbn [fst].
  rewrite <- Hy. by destruct s33.
Qed.

Lemma calculate_all_fields_budget depth today w :
  (Z.to_nat (calc_year (fst w) + 1) <= depth)%nat ->
  calculate_all_fields_rec depth today w = calculate_all_fields today w.
Proof.
  revert w. induction depth as [|depth IH]; intros w Hd;
    unfold calculate_all_fields.
  - by replace (Z.to_nat (calc_year (fst w) + 1)) with 0%nat by lia.
  - destruct (Z.to_nat (calc_year (fst w) + 1)) as [|d0] eqn:Hd0;
      cbn [calculate_all_fields_rec]; apply body_ext; intros Hy w' Hw'.
    + lia.
    + rewrite IH by lia. unfold calculate_all_fields.
      by replace (Z.to_nat (calc_year (fst w') + 1)) with d0 by lia.
Qed.

(** ** The day of the recomputation

    The day only serves as the default of [purchase_date]: the copy of the
    tax calculator is dated by [calc_date]. *)

Lemma hypothetical_calc_dated today today' s c d :
  calc_date s = Some d ->
  hypothetical_calc today s c = hypothetical_calc today' s c.
Proof.
  intros Hd. unfold hypothetical_calc.
  apply bind_ext. intros [] c1 H1. apply run_assign in H1 as (v & Hv & ->).
  apply bind_ext. intros [] c2 H2. apply run_assign in H2 as (v2 & _ & ->).
  apply bind_ext. intros [] c3 H3. apply run_assign in H3 as (v3 & _ & ->).
  apply (calculate_all_fields_dated _ _ _ d).
  rewrite Hd in Hv. injection Hv as <-. by destruct c.
Qed.

Lemma income_tax_dated today today' s h d :
  calc_date s = Some d ->
  _calculate_income_tax today (s, h) = _calculate_income_tax today' (s, h).
Proof.
  intros Hd. rewrite !income_tax_run. cbv zeta.
  destruct (income_tax_calculator s) as [l|]; [|done].
  destruct (h !! l) as [c|]; [|done].
  by rewrite (hypothetical_calc_dated today today' _ c d)
    by (by destruct s).
Qed.

Lemma ongoing_fields_today today today' w :
  ongoing_fields today w = ongoing_fields today' w.
Proof.
  unfold ongoing_fields. revert w.
  do 20 (intros w; apply bind_ext; intros [] ? _; clear w;
         match goal with w' : (t * _)%type |- _ => revert w' end).
  intros w. apply bind_ext. intros [] [s27 h27] H27.
  apply on_self_run in H27 as [H27 _]. step_inv H27. res_inv H27.
  injection H27 as <-.
  apply bind_ext. intros [] [s28 h28] H28.
  apply on_self_run in H28 as [H28 _].
  apply bind_ext. intros [] [s29 h29] H29.
  apply on_self_run in H29 as [H29 _].
  apply bind_ext. intros [] [s30 h30] H30.
  assert (preserves calc_date _calculate_net_income_before_taxes) as P28
    by preserves_tac.
  assert (preserves calc_date _calculate_net_income_taxable) as P29
    by preserves_tac.
  pose proof (preserves_home_loan_deduction calc_date
                ltac:(by intros ? []) (s29, h29)) as P30.
  specialize (P28 (set_calc_date (Some a0) (fst w))). specialize (P29 s28).
  rewrite H28 in P28. rewrite H29 in P29. rewrite H30 in P30.
  cbn [final fst snd] in P28, P29, P30.
  unfold bind at 1 3.
  rewrite (income_tax_dated today today' s30 h30 a0); [done|].
  rewrite P30, P29, P28. by destruct (fst w).
Qed.
Lemma resolve_inputs_dated today s s6 :
  resolve_inputs today s = (Ok tt, s6) -> is_None (purchase_date s6) = false.
Proof.
  unfold resolve_inputs. intros Hrun.
  apply run_bind in Hrun as ([] & s1 & H1 & Hrun).
  assert (preserves purchase_date
            (_calculate_renewal_income_rate ;;
             _calculate_rental_management_rental_fee ;;
             _calculate_rental_management_renewal_fee ;;
             _calculate_purchase_price_financed ;;
             _calculate_mortgage)) as Hp by preserves_tac.
  specialize (Hp s1). rewrite Hrun in Hp. cbn [final snd] in Hp. rewrite Hp.
  step_inv H1; simpl_re;
    repeat match goal with
    | H : Ok _ = Ok ?x |- _ =>
        is_var x; injection H; clear H; intros H; subst x
    | H : Ok ?x = Ok false |- _ => injection H; clear H; intros H
    | H : res_bind _ _ = Ok ?x |- _ => is_var x; res_inv H
    end; simpl_re;
    try match goal with
        | H : Some _ = purchase_date _ |- _ => rewrite <- H
        end; done.
Qed.

Lemma resolve_inputs_today today today' s :
  is_None (purchase_date s) = false ->
  resolve_inputs today s = resolve_inputs today' s.
Proof.
  intros Hd. unfold resolve_inputs.
  assert (forall day, _calculate_purchase_date day s = (Ok tt, s)) as Hday
    by (intros day; unfold _calculate_purchase_date; apply when_false;
        simpl_re; by rewrite Hd).
  by rewrite !(bind_ok _ _ _ _ _ (Hday _)).
Qed.

Lemma previous_year_copy_dated w c :
  previous_year_copy w = Ok c ->
  purchase_date (fst c) = purchase_date (fst w).
Proof.
  unfold previous_year_copy. cbv zeta.
  destruct (income_tax_calculator (fst w)) as [l|].
  - destruct (snd w !! l); [|done]. intros [= <-]. cbn [fst].
    by destruct (fst w).
  - intros [= <-]. cbn [fst]. by destruct (fst w).
Qed.

Lemma body_today today today' rec rec' w :
  is_None (purchase_date (fst w)) = false ->
  (forall w', is_None (purchase_date (fst w')) = false -> rec w' = rec' w') ->
  calculate_all_fields_body today rec w
  = calculate_all_fields_body today' rec' w.
Proof.
  intros Hd Hrec. destruct w as [s h]. cbn [fst] in Hd. rewrite !body_split.
  transitivity ((on_self (resolve_inputs today') ;; derive_fields today rec)
                  (s, h)).
  { unfold bind, on_self. cbn [fst snd].
    by rewrite (resolve_inputs_today today today' s Hd). }
  apply bind_ext. intros [] [s6 h6] Hp.
  apply on_self_run in Hp as [Hp ->].
  rewrite !derive_fields_split.
  transitivity ((ongoing_fields today' ;;
                 _calculate_cumulative_net_income rec ;;
                 disposal_fields) (s6, h)).
  { unfold bind. by rewrite (ongoing_fields_today today today'). }
  apply bind_ext. intros [] [s33 h33] Hon.
  assert (is_None (purchase_date s33) = false) as Hpd.
  { assert (preserves (fun w => purchase_date (fst w))
              (ongoing_fields today')) as H2
      by (unfold ongoing_fields; preserves_steps).
    specialize (H2 (s6, h)). rewrite Hon in H2. cbn [final fst snd] in H2.
    rewrite H2. exact (resolve_inputs_dated _ _ _ Hp). }
  unfold bind. rewrite !cumulative_run.
  destruct (calc_year s33 <? 0) eqn:Hneg; [done|].
  cbv zeta. destruct (previous_year_copy _) as [wc|e] eqn:Hcopy; [|done].
  rewrite (Hrec wc); [done|].
  by rewrite (previous_year_copy_dated _ _ Hcopy).
Qed.

Lemma rec_today depth today today' w :
  is_None (purchase_date (fst w)) = false ->
  calculate_all_fields_rec depth today w
  = calculate_all_fields_rec depth today' w.
Proof.
  revert w. induction depth as [|depth IH]; intros w Hd;
    cbn [calculate_all_fields_rec]; apply body_today; auto.
Qed.

Lemma calculate_all_fields_today today today' w :
  is_None (purchase_date (fst w)) = false ->
  calculate_all_fields today w = calculate_all_fields today' w.
Proof. intros Hd. unfold calculate_all_fields. by apply rec_today. Qed.

Lemma recomputed_scenario_dated today s h s1 h1 :
  calculate_all_fields today (s, h) = (Ok tt, (s1, h1)) ->
  is_None (purchase_date s1) = false.
Proof.
  unfold calculate_all_fields.
  destruct (Z.to_nat _) as [|depth]; cbn [calculate_all_fields_rec];
    rewrite body_split; intros Hrun;
    apply run_bind in Hrun as ([] & [s6 h6] & Hp & Hrun);
    apply on_self_run in Hp as [Hp ->];
    lazymatch type of Hrun with
    | derive_fields _ ?rec _ = _ =>
        pose proof (derive_fields_inputs today rec (s6, h)) as Hin
    end;
    rewrite Hrun in Hin; cbn [final fst snd] in Hin;
    apply resolve_inputs_dated in Hp;
    (transitivity (is_None (purchase_date (forget 6 None s1)));
       [by destruct s1|]);
    rewrite Hin; by destruct s6.
Qed.

(** Once the purchase date is set, a recomputation reads the current day
    nowhere: its outcome, the scenario and the store it leaves are the same
    on every day.  The day only serves as the default of [purchase_date];
    the copy of the tax calculator is dated by [calc_date]. *)
Theorem recomputation_ignores_the_day today today' s h :
  purchase_date s <> None ->
  calculate_all_fields today (s, h) = calculate_all_fields today' (s, h).
Proof.
  intros Hd. apply calculate_all_fields_today. cbn [fst].
  by destruct (purchase_date s).
Qed.

(** When a recomputation of a scenario completes, recomputing it on any
    later day completes too, leaves every attribute of the scenario with
    the value it had, and leaves every tax calculator of the store as it
    was: the second recomputation only adds copies to the store. *)
Theorem recomputation_on_another_day today today' s h s1 h1 :
  calculate_all_fields today (s, h) = (Ok tt, (s1, h1)) ->
  exists h2,
    calculate_all_fields today' (s1, h1) = (Ok tt, (s1, h2))
    /\ forall l c, h1 !! l = Some c -> h2 !! l = Some c.
Proof.
  intros Hrun.
  pose proof (recomputed_scenario_dated _ _ _ _ _ Hrun) as Hd.
  unfold calculate_all_fields in Hrun. cbn [fst] in Hrun.
  destruct (rec_again _ _ _ _ _ _ Hrun) as [Hy [h2 Hagain]].
  exists h2. split.
  - rewrite <- (calculate_all_fields_today today today') by done.
    unfold calculate_all_fields. cbn [fst]. by rewrite Hy.
  - intros l c Hl.
    pose proof (keeps_store_rec (Z.to_nat (calc_year s + 1)) today (s1, h1) l c
                  Hl) as Hk.
    rewrite Hagain in Hk. exact Hk.
Qed.

(** ** The arguments of a scenario *)

Lemma invariant_on_self {A} (I : t -> Prop) (m : M t A) :
  invariant I m -> invariant (fun w => I (fst w)) (on_self m).
Proof.
  intros Hm [s h] Hs. unfold on_self. cbn [fst] in *. specialize (Hm s Hs).
  by destruct (m s).
Qed.

(** A method that assigns a default leaves a value that is set. *)
Ltac sticky_one pi c :=
  apply (invariant_on_self (fun r => pi r = c));
  let r := fresh "r" in
  let Hr := fresh "Hr" in
  intros r Hr; cbv beta in *;
  lazymatch goal with
  | |- context [final (?m _)] => let h := head_of m in unfold h
  end;
  unfold when, bind, eval; rewrite Hr; exact Hr.

Ltac sticky_steps pi c :=
  (repeat lazymatch goal with
          | |- invariant _ (bind _ (fun _ => _)) =>
              apply invariant_bind; [|intros _]
          end);
  (try (apply (invariant_of_preserves (fun w => pi (fst w)) c);
        preserves_steps));
  (try sticky_one pi c).

Lemma purchase_date_kept today d :
  invariant (fun w => purchase_date (fst w) = Some d)
    (calculate_all_fields today).
Proof.
  assert (forall rec,
            invariant (fun w => purchase_date (fst w) = Some d)
              (calculate_all_fields_body today rec)) as Hbody
    by (intros rec; unfold calculate_all_fields_body;
        sticky_steps purchase_date (Some d)).
  intros w. unfold calculate_all_fields.
  destruct (Z.to_nat _); apply Hbody.
Qed.

Lemma renewal_income_rate_kept today v :
  invariant (fun w => renewal_income_rate (fst w) = Some v)
    (calculate_all_fields today).
Proof.
  assert (forall rec,
            invariant (fun w => renewal_income_rate (fst w) = Some v)
              (calculate_all_fields_body today rec)) as Hbody
    by (intros rec; unfold calculate_all_fields_body;
        sticky_steps renewal_income_rate (Some v)).
  intros w. unfold calculate_all_fields.
  destruct (Z.to_nat _); apply Hbody.
Qed.

Lemma rental_management_rental_fee_kept today v :
  invariant (fun w => rental_management_rental_fee (fst w) = Some v)
    (calculate_all_fields today).
Proof.
  assert (forall rec,
            invariant (fun w => rental_management_rental_fee (fst w) = Some v)
              (calculate_all_fields_body today rec)) as Hbody
    by (intros rec; unfold calculate_all_fields_body;
        sticky_steps rental_management_rental_fee (Some v)).
  intros w. unfold calculate_all_fields.
  destruct (Z.to_nat _); apply Hbody.
Qed.

Lemma rental_management_renewal_fee_kept today v :
  invariant (fun w => rental_management_renewal_fee (fst w) = Some v)
    (calculate_all_fields today).
Proof.
  assert (forall rec,
            invariant (fun w => rental_management_renewal_fee (fst w) = Some v)
              (calculate_all_fields_body today rec)) as Hbody
    by (intros rec; unfold calculate_all_fields_body;
        sticky_steps rental_management_renewal_fee (Some v)).
  intros w. unfold calculate_all_fields.
  destruct (Z.to_nat _); apply Hbody.
Qed.

Lemma preserves_given_arguments today :
  preserves (fun w => given_arguments (fst w)) (calculate_all_fields today).
Proof.
  assert (forall rec,
            preserves (fun w => given_arguments (fst w))
              (calculate_all_fields_body today rec)) as Hbody
    by (intros rec; unfold calculate_all_fields_body; preserves_steps).
  intros w. unfold calculate_all_fields.
  destruct (Z.to_nat _); apply Hbody.
Qed.

(** A recomputation, whether it completes or raises, leaves the arguments
    of the scenario as they are, the evaluation year and the reference to
    the tax calculator included: the years before are recomputed on copies.
    Of the four arguments whose default is [None], it leaves those that
    are set as they are. *)
Theorem recomputation_keeps_the_arguments today s h :
  let s' := fst (final (calculate_all_fields today (s, h))) in
  given_arguments s' = given_arguments s
  /\ (purchase_date s <> None -> purchase_date s' = purchase_date s)
  /\ (renewal_income_rate s <> None ->
      renewal_income_rate s' = renewal_income_rate s)
  /\ (rental_management_rental_fee s <> None ->
      rental_management_rental_fee s' = rental_management_rental_fee s)
  /\ (rental_management_renewal_fee s <> None ->
      rental_management_renewal_fee s' = rental_management_renewal_fee s).
Proof.
  cbv zeta. split; [apply (preserves_given_arguments today (s, h))|].
  split; [|split; [|split]]; intros Hset.
  - destruct (purchase_date s) as [d|] eqn:Hd; [|done].
    by apply (purchase_date_kept today d (s, h)).
  - destruct (renewal_income_rate s) as [v|] eqn:Hv; [|done].
    by apply (renewal_income_rate_kept today v (s, h)).
  - destruct (rental_management_rental_fee s) as [v|] eqn:Hv; [|done].
    by apply (rental_management_rental_fee_kept today v (s, h)).
  - destruct (rental_management_renewal_fee s) as [v|] eqn:Hv; [|done].
    by apply (rental_management_renewal_fee_kept today v (s, h)).
Qed.

(** ** The depreciation of the building *)

Lemma lt_Int a b : Py.lt (Int a) (Int b) = (a <? b).
Proof.
  unfold Py.lt. cbn [Py.compare].
  destruct (Z.compare_spec a b), (Z.ltb_spec a b); try done; lia.
Qed.

Lemma depreciation_per_year s n a l :
  depreciation_years s = Some (Int n) ->
  depreciation_annual s = Some (Int a) ->
  res_map (fun x => depreciation_for_year x s) l
  = Ok (map (fun x => Some (Int (if x <? n then a else 0))) l).
Proof.
  intros Hn Ha. induction l as [|x l IH]; [done|].
  cbn [res_map map]. rewrite IH. unfold depreciation_for_year.
  rewrite Hn, Ha. cbn [get res_bind]. rewrite lt_Int.
  by destruct (x <? n).
Qed.

Lemma sum_depreciation a n k acc :
  fold_left (fun acc d => let! x := acc in let! y := get d in Py.add x y)
    (map (fun x => Some (Int (if x <? n then a else 0)))
       (Py.range 0 (Z.of_nat k)))
    (Ok (Int acc))
  = Ok (Int (acc + a * Z.max 0 (Z.min (Z.of_nat k) n))).
Proof.
  induction k as [|k IH].
  - unfold Py.range. change (Z.to_nat (Z.of_nat 0 - 0)) with 0%nat.
    cbn [seq map fold_left]. do 2 f_equal. lia.
  - unfold Py.range in *.
    replace (Z.to_nat (Z.of_nat (S k) - 0)) with (S k) by lia.
    replace (Z.to_nat (Z.of_nat k - 0)) with k in IH by lia.
    rewrite seq_S, !map_app, fold_left_app, IH.
    cbn [map fold_left res_bind get Py.add Py.arith Nat.add].
    do 2 f_equal. destruct (Z.ltb_spec (0 + Z.of_nat k) n).
    + replace (Z.max 0 (Z.min (Z.of_nat (S k)) n))
        with (Z.max 0 (Z.min (Z.of_nat k) n) + 1) by lia.
      ring.
    + replace (Z.max 0 (Z.min (Z.of_nat (S k)) n))
        with (Z.max 0 (Z.min (Z.of_nat k) n)) by lia.
      ring.
Qed.

(** The cumulative depreciation is the annual depreciation times the
    number of the years from 0 to the evaluation year that are below
    [depreciation_years]: the building is depreciated neither before the
    year 0 nor for more than [depreciation_years] years. *)
Theorem depreciation_cumulative_closed_form s n a :
  depreciation_years s = Some (Int n) ->
  depreciation_annual s = Some (Int a) ->
  _calculate_depreciation_cumulative s
  = (Ok tt,
     set_depreciation_cumulative
       (Some (Int (a * Z.max 0 (Z.min (calc_year s + 1) n)))) s).
Proof.
  intros Hn Ha. unfold _calculate_depreciation_cumulative.
  apply assign_ok. cbv zeta.
  rewrite (depreciation_per_year s n a _ Hn Ha). cbn [res_bind].
  assert (Py.range 0 (calc_year s + 1)
          = Py.range 0 (Z.of_nat (Z.to_nat (calc_year s + 1)))) as ->
    by (unfold Py.range; do 2 f_equal; lia).
  rewrite sum_depreciation. cbn [res_bind]. do 3 f_equal. lia.
Qed.

(** ** What a completed recomputation leaves *)

(** The four phases of a recomputation that completes. *)
Lemma body_run_inv today rec s h s1 h1 :
  calculate_all_fields_body today rec (s, h) = (Ok tt, (s1, h1)) ->
  exists s6 s33 h33 s34 h34,
    resolve_inputs today s = (Ok tt, s6)
    /\ ongoing_fields today (s6, h) = (Ok tt, (s33, h33))
    /\ _calculate_cumulative_net_income rec (s33, h33) = (Ok tt, (s34, h34))
    /\ disposal_fields (s34, h34) = (Ok tt, (s1, h1)).
Proof.
  rewrite body_split. intros Hrun.
  apply run_bind in Hrun as ([] & [s6 h6] & Hp & Hrun).
  apply on_self_run in Hp as [Hp ->].
  rewrite derive_fields_split in Hrun.
  apply run_bind in Hrun as ([] & [s33 h33] & Hon & Hrun).
  apply run_bind in Hrun as ([] & [s34 h34] & Hcum & Hrun).
  by exists s6, s33, h33, s34, h34.
Qed.

(** From the hypothesis that a method of [self] completed, what a
    projection that it does not write is afterwards. *)
Ltac carry pi Hm :=
  lazymatch type of Hm with
  | ?m ?a = (Ok tt, ?b) =>
      let Hp := fresh "Hp" in
      assert (preserves pi m) as Hp by preserves_tac;
      specialize (Hp a); rewrite Hm in Hp; cbn [final snd] in Hp; clear Hm
  end.

Lemma disposal_fields_floors s h s1 h1 :
  disposal_fields (s, h) = (Ok tt, (s1, h1)) ->
  exists g c,
    capital_gains s1 = Some g /\ Py.ge g (Int 0) = true
    /\ capital_gains_tax s1 = Some c /\ Py.ge c (Int 0) = true.
Proof.
  unfold disposal_fields. intros Hrun. run_inv Hrun.
  repeat match goal with
  | w : (t * gmap positive IncomeTaxCalc.t)%type |- _ => destruct w
  end.
  repeat match goal with
  | Hm : on_self _ _ = (Ok _, _) |- _ =>
      apply on_self_run in Hm; destruct Hm as [Hm _]
  end.
  repeat match goal with
  | Hm : ?m _ = (Ok tt, _) |- _ =>
      lazymatch m with
      | _calculate_sale_proceeds_net => idtac
      | _calculate_net_income_on_realestate => idtac
      end;
      carry (fun r => (capital_gains r, capital_gains_tax r)) Hm
  end.
  match goal with
  | Hm : _calculate_capital_gains_tax _ = (Ok tt, _) |- _ =>
      step_inv Hm; res_inv Hm; injection Hm as <-
  end.
  match goal with
  | Hm : _calculate_capital_gains_tax_rate _ = (Ok tt, _) |- _ =>
      carry capital_gains Hm
  end.
  match goal with
  | Hm : _calculate_capital_gains _ = (Ok tt, _) |- _ =>
      step_inv Hm; res_inv Hm; injection Hm as <-
  end.
  simpl_re.
  repeat match goal with
         | Hp : (_, _) = (_, _) |- _ => injection Hp as ? ?
         end.
  eexists _, _.
  split; [repeat (etransitivity; [eassumption|]); reflexivity|].
  split; [apply max_zero_ge|].
  split; [repeat (etransitivity; [eassumption|]); reflexivity|].
  apply max_zero_ge.
Qed.

Lemma ongoing_fields_floor today w s33 h33 :
  ongoing_fields today w = (Ok tt, (s33, h33)) ->
  exists v, income_tax_real_estate s33 = Some v /\ Py.ge v (Int 0) = true.
Proof.
  unfold ongoing_fields. intros Hrun. run_inv Hrun.
  injection Hrun as ->.
  repeat match goal with
  | w : (t * gmap positive IncomeTaxCalc.t)%type |- _ => destruct w
  end.
  match goal with
  | Hm : on_self _calculate_net_income_after_taxes _ = (Ok _, _) |- _ =>
      apply on_self_run in Hm; destruct Hm as [Hm _];
      carry income_tax_real_estate Hm
  end.
  match goal with
  | Hm : _calculate_income_tax_real_estate _ = (Ok _, _) |- _ =>
      rewrite income_tax_real_estate_run in Hm; cbv zeta in Hm;
      destruct (income_tax_calculator _);
      [destruct (res_bind _ _) as [v|] eqn:Hv; [|done]; res_inv Hv;
       injection Hv as <-|];
      injection Hm as <- _
  end.
  all: rewrite Hp; simpl_re; eexists; split; [reflexivity|].
  - apply max_zero_ge.
  - reflexivity.
Qed.

(** Whenever a recomputation completes, the income tax due to the real
    estate, the capital gains and the capital gains tax that it leaves are
    not negative. *)
Theorem taxes_and_gains_are_not_negative today s h s1 h1 :
  calculate_all_fields today (s, h) = (Ok tt, (s1, h1)) ->
  exists v g c,
    income_tax_real_estate s1 = Some v /\ Py.ge v (Int 0) = true
    /\ capital_gains s1 = Some g /\ Py.ge g (Int 0) = true
    /\ capital_gains_tax s1 = Some c /\ Py.ge c (Int 0) = true.
Proof.
  rewrite calculate_all_fields_unfold. intros Hrun.
  apply body_run_inv in Hrun
    as (s6 & s33 & h33 & s34 & h34 & _ & Hon & Hcum & Hdis).
  destruct (ongoing_fields_floor _ _ _ _ Hon) as (v & Hv & Hv0).
  destruct (disposal_fields_floors _ _ _ _ Hdis) as (g & c & Hg & Hg0 & Hc & Hc0).
  exists v, g, c. split; [|done].
  pose proof (preserves_cumulative income_tax_real_estate
                (self_call today (calc_year s))
                ltac:(by intros ? []) (s33, h33)) as H1.
  rewrite Hcum in H1. cbn [final fst snd] in H1.
  pose proof (disposal_fields_earlier (s34, h34)) as H2.
  rewrite Hdis in H2. cbn [final fst snd] in H2.
  rewrite (forget_proj 34 income_tax_real_estate _ _ H2), H1; [done|].
  by intros [].
Qed.

(** ** A scenario without a tax calculator *)

Lemma home_loan_no_calculator s h :
  income_tax_calculator s = None ->
  _calculate_home_loan_deduction (s, h)
  = (Ok tt, (set_home_loan_deduction (Some (Int 0)) s, h)).
Proof.
  intros Hc. unfold _calculate_home_loan_deduction.
  unfold bind at 1. unfold on_self at 1, assign at 1. cbn [fst snd].
  unfold bind at 1. cbn [fst snd].
  assert (is_qualified_for_deduction
            (set_home_loan_deduction (Some (Int 0)) s) h = Ok false) as ->.
  { unfold is_qualified_for_deduction. destruct (negb _); [done|].
    replace (income_tax_calculator (set_home_loan_deduction (Some (Int 0)) s))
      with (income_tax_calculator s) by (by destruct s).
    by rewrite Hc. }
  reflexivity.
Qed.

(** As [step_inv], through the sequences of statements of a method. *)
Ltac seq_inv H :=
  lazymatch type of H with
  | assign _ _ _ = (Ok _, _) =>
      apply run_assign in H; destruct H as (? & H & ->); cbv beta in H
  | when _ _ _ = (Ok _, _) =>
      apply run_when in H; destruct H as [[? H]|[? ->]]; [seq_inv H|]
  | ifelse _ _ _ _ = (Ok _, _) =>
      apply run_ifelse in H; destruct H as [[? H]|[? H]]; seq_inv H
  | bind _ _ _ = (Ok _, _) =>
      let a := fresh "a" in
      let s := fresh "s" in
      let H1 := fresh "Hseq" in
      apply run_bind in H; destruct H as (a & s & H1 & H); destruct a;
      seq_inv H1; seq_inv H
  | ?m _ = (Ok _, _) => let h := head_of m in unfold h in H; seq_inv H
  end.

Lemma ongoing_fields_no_calculator today s h s33 h33 :
  income_tax_calculator s = None ->
  ongoing_fields today (s, h) = (Ok tt, (s33, h33)) ->
  home_loan_deduction s33 = Some (Int 0)
  /\ income_tax s33 = Some (Int 0)
  /\ income_tax_real_estate s33 = Some (Int 0)
  /\ net_income_after_taxes s33 = net_income_before_taxes s33.
Proof.
  intros Hc. unfold ongoing_fields. intros Hrun. run_inv Hrun.
  injection Hrun as ->.
  repeat match goal with
  | w : (t * gmap positive IncomeTaxCalc.t)%type |- _ => destruct w
  end.
  repeat match goal with
  | Hm : on_self _ _ = (Ok _, _) |- _ =>
      apply on_self_run in Hm; destruct Hm as [Hm ->]
  end.
  repeat match goal with
  | Hm : ?m _ = (Ok tt, _) |- _ =>
      lazymatch m with
      | _calculate_home_loan_deduction => fail
      | _calculate_income_tax _ => fail
      | _calculate_income_tax_real_estate => fail
      | _ => seq_inv Hm
      end
  end.
  all: rewrite home_loan_no_calculator in Hrun23 by (simpl_re; exact Hc).
  all: injection Hrun23 as <- <-.
  all: rewrite income_tax_run in Hrun24; cbv zeta in Hrun24.
  all: simpl_re; rewrite Hc in Hrun24; injection Hrun24 as <- <-.
  all: rewrite income_tax_real_estate_run in Hrun25; cbv zeta in Hrun25.
  all: simpl_re; rewrite Hc in Hrun25; injection Hrun25 as <- _.
  all: simpl_re; cbn [get res_bind] in *.
  all: do 3 (split; [reflexivity|]).
  all: match goal with
       | Hm : (let! a := get ?y in _) = Ok ?x |- ?x = ?y =>
           destruct y as [nb|]; [|discriminate Hm];
           cbn [get res_bind] in Hm; res_inv Hm; injection Hm as <-;
           f_equal; by eapply sub_zero
       end.
Qed.

Lemma no_calculator_on_self {A} (m : M t A) h0 :
  preserves income_tax_calculator m ->
  invariant (fun w => income_tax_calculator (fst w) = None /\ snd w = h0)
    (on_self m).
Proof.
  intros Hm [s h] [Hc Hh]. unfold on_self. cbn [fst snd] in *.
  specialize (Hm s). destruct (m s) as [r s1]. cbn [final fst snd] in *.
  by rewrite Hm.
Qed.

Lemma no_calculator_body today rec h0 :
  (forall w, income_tax_calculator (fst w) = None ->
             snd (final (rec w)) = snd w) ->
  invariant (fun w => income_tax_calculator (fst w) = None /\ snd w = h0)
    (calculate_all_fields_body today rec).
Proof.
  intros Hrec. unfold calculate_all_fields_body.
  repeat lazymatch goal with
         | |- invariant _ (bind _ (fun _ => _)) =>
             apply invariant_bind; [|intros _]
         end.
  all: try (apply no_calculator_on_self; preserves_tac).
  - intros [s h] [Hc Hh]. cbn [fst snd] in *.
    rewrite home_loan_no_calculator by done. cbn [final fst snd].
    split; [by destruct s|done].
  - intros [s h] [Hc Hh]. cbn [fst snd] in *.
    rewrite income_tax_run. cbv zeta. rewrite Hc. cbn [final fst snd].
    split; [by destruct s|done].
  - intros [s h] [Hc Hh]. cbn [fst snd] in *.
    rewrite income_tax_real_estate_run. cbv zeta. rewrite Hc.
    cbn [final fst snd]. split; [by destruct s|done].
  - intros [s h] [Hc Hh]. cbn [fst snd] in *.
    rewrite cumulative_run.
    destruct (calc_year s <? 0);
      [cbn [final fst snd]; split; [by destruct s|done]|].
    cbv zeta. unfold previous_year_copy. cbn [fst snd].
    replace (income_tax_calculator
               (set_cumulative_net_income (net_income_after_taxes s) s))
      with (income_tax_calculator s) by (by destruct s).
    rewrite Hc.
    match goal with
    | |- context [rec ?w1] =>
        pose proof (Hrec w1 ltac:(by destruct s)) as Hh2;
        destruct (rec w1) as [[[]|e] [copy h2]]
    end; cbn [final fst snd] in *; subst h2.
    + destruct (res_bind _ _); cbn [final fst snd];
        (split; [by destruct s|done]).
    + split; [by destruct s|done].
Qed.

Lemma no_calculator_rec depth today w :
  income_tax_calculator (fst w) = None ->
  snd (final (calculate_all_fields_rec depth today w)) = snd w.
Proof.
  revert w. induction depth as [|depth IH]; intros w Hc;
    cbn [calculate_all_fields_rec].
  - by apply (no_calculator_body today _ (snd w)).
  - by apply (no_calculator_body today _ (snd w)).
Qed.

(** A scenario without a tax calculator pays no income tax: a
    recomputation, whether it completes or raises, leaves the store as it
    is, and when it completes the home loan deduction, the income tax and
    the income tax due to the real estate are 0 and the net income after
    taxes is the net income before taxes. *)
Theorem without_tax_calculator today s h :
  income_tax_calculator s = None ->
  snd (final (calculate_all_fields today (s, h))) = h
  /\ forall s1 h1,
       calculate_all_fields today (s, h) = (Ok tt, (s1, h1)) ->
       home_loan_deduction s1 = Some (Int 0)
       /\ income_tax s1 = Some (Int 0)
       /\ income_tax_real_estate s1 = Some (Int 0)
       /\ net_income_after_taxes s1 = net_income_before_taxes s1.
Proof.
  intros Hc. split.
  - unfold calculate_all_fields. by apply no_calculator_rec.
  - intros s1 h1. rewrite calculate_all_fields_unfold. intros Hrun.
    apply body_run_inv in Hrun
      as (s6 & s33 & h33 & s34 & h34 & Hp & Hon & Hcum & Hdis).
    assert (income_tax_calculator s6 = None) as Hc6.
    { pose proof (resolve_inputs_calculator today s) as Hpc.
      rewrite Hp in Hpc. cbn [final snd] in Hpc. congruence. }
    destruct (ongoing_fields_no_calculator _ _ _ _ _ Hc6 Hon)
      as (H1 & H2 & H3 & H4).
    pose proof (preserves_cumulative (forget 33 None)
                  (self_call today (calc_year s))
                  ltac:(by intros ? []) (s33, h33)) as Hk.
    rewrite Hcum in Hk. cbn [final fst snd] in Hk.
    pose proof (disposal_fields_earlier (s34, h34)) as Hd.
    rewrite Hdis in Hd. cbn [final fst snd] in Hd.
    assert (forall {X} (f : t -> X),
              (forall r, f (forget 33 None r) = f r) -> f s1 = f s33) as Hf.
    { intros X f Hfr.
      rewrite <- (Hfr s33), <- Hk, Hfr.
      apply (forget_proj 34 f _ _ Hd). intros r. rewrite <- (Hfr r).
      rewrite <- (Hfr (forget 34 None r)). f_equal; by destruct r. }
    rewrite !Hf by (by intros []). done.
Qed.

End RealEstateFacts.

(** * The theorems at the examples *)

(** C1 at the example scenario. *)
Lemma cumulative_net_income_recurrence_witness :
  RealEstateCalc.calculate_all_fields (H := numpy_formulas) example_day
    (example_scenario, example_store)
  = (Ok tt, (fst example_recomputed, snd example_recomputed))
  /\ exists a b v,
       RealEstateCalc.net_income_after_taxes (fst example_recomputed) = Some a
       /\ previous_year_cumulative_net_income (H := numpy_formulas)
            example_day (example_scenario, example_store) = Ok b
       /\ previous_year_cumulative_net_income (H := numpy_formulas)
            example_day (fst example_recomputed, snd example_recomputed)
          = Ok b
       /\ Py.add a b = Ok v
       /\ RealEstateCalc.cumulative_net_income (fst example_recomputed)
          = Some v
       /\ (RealEstateCalc.calc_year example_scenario = 0 ->
           b = Int 0
           /\ (v = a \/ (a = Flt (-0)%float /\ v = Flt 0%float))).
Proof.
  assert (RealEstateCalc.calculate_all_fields (H := numpy_formulas)
            example_day (example_scenario, example_store)
          = (Ok tt, (fst example_recomputed, snd example_recomputed)))
    as Hrun by (vm_compute; reflexivity).
  split; [exact Hrun|].
  exact (cumulative_net_income_recurrence (H := numpy_formulas) _ _ _ _ _ Hrun).
Defined.

(** C9 at the example scenario. *)
Lemma recomputation_is_idempotent_witness :
  RealEstateCalc.calculate_all_fields (H := numpy_formulas) example_day
    (example_scenario, example_store)
  = (Ok tt, (fst example_recomputed, snd example_recomputed))
  /\ exists h2,
       RealEstateCalc.calculate_all_fields (H := numpy_formulas) example_day
         (fst example_recomputed, snd example_recomputed)
       = (Ok tt, (fst example_recomputed, h2)).
Proof.
  assert (RealEstateCalc.calculate_all_fields (H := numpy_formulas)
            example_day (example_scenario, example_store)
          = (Ok tt, (fst example_recomputed, snd example_recomputed)))
    as Hrun by (vm_compute; reflexivity).
  split; [exact Hrun|].
  exact (recomputation_is_idempotent (H := numpy_formulas) _ _ _ _ _ Hrun).
Defined.

(** C8 at the example scenario. *)
Lemma income_tax_keeps_attached_calculator_witness :
  let w1 :=
    final (RealEstateCalc._calculate_income_tax example_day
             (example_scenario, example_store)) in
  let w2 :=
    final (RealEstateCalc.calculate_all_fields (H := numpy_formulas)
             example_day (example_scenario, example_store)) in
  (RealEstateCalc.income_tax_calculator example_scenario = Some 1%positive
   /\ example_store !! 1%positive = Some example_calculator)
  /\ RealEstateCalc.income_tax_calculator (fst w1) = Some 1%positive
  /\ snd w1 !! 1%positive = Some example_calculator
  /\ snd w1 =
       <[fresh (dom example_store) :=
           final (hypothetical_calc example_day
                    (RealEstateCalc.set_income_tax (Some (Int 0))
                       example_scenario)
                    example_calculator)]> example_store
  /\ fresh (dom example_store) <> 1%positive
  /\ RealEstateCalc.income_tax_calculator (fst w2) = Some 1%positive
  /\ snd w2 !! 1%positive = Some example_calculator.
Proof.
  assert (RealEstateCalc.income_tax_calculator example_scenario
          = Some 1%positive) as Hl by reflexivity.
  assert (example_store !! 1%positive = Some example_calculator) as Hc
    by reflexivity.
  split; [by split|].
  exact (income_tax_keeps_attached_calculator (H := numpy_formulas)
           example_day _ _ _ _ Hl Hc).
Defined.

(** C4 at the example scenario, recomputed. *)
Lemma home_loan_deduction_value_witness :
  let s := fst example_recomputed in
  let h := snd example_recomputed in
  let w' := final (RealEstateCalc._calculate_home_loan_deduction (s, h)) in
  RealEstateCalc._calculate_home_loan_deduction (s, h)
  = (Ok tt, (fst w', snd w'))
  /\ snd w' = h
  /\ fst w' =
       RealEstateCalc.set_home_loan_deduction
         (RealEstateCalc.home_loan_deduction (fst w')) s
  /\ (~ qualifies_for_home_loan_deduction (s, h) ->
      RealEstateCalc.home_loan_deduction (fst w') = Some (Int 0))
  /\ (qualifies_for_home_loan_deduction (s, h) ->
      exists m schedule remaining v,
        RealEstateCalc.mortgage s = Some m
        /\ Mortgage.amortization_schedule m = Some schedule
        /\ Py.sum (Py.slice_from (RealEstateCalc.calc_year s * 12) schedule)
           = Ok remaining
        /\ Py.int
             (Py.min
                (Int (if Py.eq (RealEstateCalc.age s) (Int 0)
                      then 400000 else 200000))
                remaining) = Ok v
        /\ RealEstateCalc.home_loan_deduction (fst w') = Some v
        /\ (0 <= RealEstateCalc.calc_year s ->
            Py.slice_from (RealEstateCalc.calc_year s * 12) schedule
            = drop (Z.to_nat (RealEstateCalc.calc_year s * 12)) schedule)).
Proof.
  cbv zeta.
  assert (RealEstateCalc._calculate_home_loan_deduction
            (fst example_recomputed, snd example_recomputed)
          = (Ok tt,
             (fst (final (RealEstateCalc._calculate_home_loan_deduction
                            (fst example_recomputed,
                             snd example_recomputed))),
              snd (final (RealEstateCalc._calculate_home_loan_deduction
                            (fst example_recomputed,
                             snd example_recomputed))))))
    as Hrun by (vm_compute; reflexivity).
  split; [exact Hrun|].
  exact (home_loan_deduction_value _ _ _ _ Hrun).
Defined.

(** C2 at the example scenario without a sale price. *)
Lemma unset_sale_price_is_not_estimated_witness :
  let s := RealEstateCalc.set_sale_price None example_scenario in
  let run :=
    RealEstateCalc.calculate_all_fields (H := numpy_formulas) example_day
      (s, example_store) in
  RealEstateCalc.sale_price s = None
  /\ (forall a, outcome run <> Ok a)
  /\ sale_fields (fst (final run)) = sale_fields s
  /\ RealEstateCalc._calculate_sale_agent_fee s = (Raise TypeError, s).
Proof.
  cbv zeta.
  assert (RealEstateCalc.sale_price
            (RealEstateCalc.set_sale_price None example_scenario) = None)
    as Hs by reflexivity.
  split; [exact Hs|].
  exact (unset_sale_price_is_not_estimated (H := numpy_formulas)
           example_day _ example_store Hs).
Defined.

(** [RealEstateCalc(sale_price=None)] raises a [TypeError]. *)
Lemma unset_sale_price_raises :
  outcome
    (RealEstateCalc.__init__ (H := numpy_formulas) example_day
       (RealEstateCalc.set_sale_price None RealEstateCalc.default_fields) ∅)
  = Raise TypeError.
Proof. vm_compute. reflexivity. Qed.

(** C7 at [RealEstateCalc(is_primary_residence=3)]: the recomputation
    raises the [ValueError] of the deduction. *)
Lemma primary_residence_deduction_codes_witness :
  let s :=
    RealEstateCalc.set_is_primary_residence 3 RealEstateCalc.default_fields in
  let run :=
    RealEstateCalc.calculate_all_fields (H := numpy_formulas) example_day
      (s, ∅) in
  valid_residence_code 3 = false
  /\ RealEstateCalc._calculate_capital_gains_tax_primary_residence_deduction s
     = (Raise (ValueError (is_not_a_valid_value_for_is_primary_residence 3)),
        s)
  /\ (forall a, outcome run <> Ok a)
  /\ deduction_fields (fst (final run)) = deduction_fields s
  /\ outcome run
     = Raise (ValueError (is_not_a_valid_value_for_is_primary_residence 3)).
Proof.
  cbv zeta.
  assert (valid_residence_code 3 = false) as Hcode by reflexivity.
  split; [exact Hcode|].
  destruct (proj2 (primary_residence_deduction_codes (H := numpy_formulas)
                     example_day
                     (RealEstateCalc.set_is_primary_residence 3
                        RealEstateCalc.default_fields) ∅) Hcode)
    as (Hm & Hno & Hf & Hbefore).
  split; [exact Hm|]. split; [exact Hno|]. split; [exact Hf|].
  apply Hbefore.
  eapply reaches_deduction_in_copy;
    [ done
    | vm_compute; reflexivity
    | vm_compute; reflexivity
    | vm_compute; reflexivity
    | eapply reaches_deduction_now; [done|vm_compute; reflexivity] ].
Defined.

(** C7 as stated fails: [RealEstateCalc(is_primary_residence=3,
    purchase_price=10 ** 400)] raises an [OverflowError], in
    [_calculate_purchase_price_building], not the [ValueError] of the
    deduction. *)
Lemma invalid_code_raises_other_errors :
  let s :=
    RealEstateCalc.set_purchase_price (Int (10 ^ 400))
      (RealEstateCalc.set_is_primary_residence 3
         RealEstateCalc.default_fields) in
  valid_residence_code (RealEstateCalc.is_primary_residence s) = false
  /\ RealEstateCalc.__init__ (H := numpy_formulas) example_day s ∅
     = (Raise OverflowError,
        (final (RealEstateCalc.on_self
                  (resolve_inputs (H := numpy_formulas) example_day) (s, ∅))))
  /\ outcome
       (RealEstateCalc.on_self
          (RealEstateCalc._calculate_purchase_price_building) 
          (final (RealEstateCalc.on_self
                    (resolve_inputs (H := numpy_formulas) example_day)
                    (s, ∅))))
     = Raise OverflowError.
Proof.
  cbv zeta. split; [reflexivity|]. split; vm_compute; reflexivity.
Qed.

(** C6 at a tax payer whose income after deductions is negative and whose
    tax deduction exceeds the tax: both floors apply and the recomputation
    completes with a taxable income and a total income tax of 0.  With a tax
    deduction of 10^400 the recomputation raises [OverflowError] where it
    computes the total income tax, and leaves the taxable income of 0. *)
Lemma income_tax_floors_witness :
  let r := IncomeTaxCalc.calculate_all_fields example_day
             example_loss_profile in
  let r' := IncomeTaxCalc.calculate_all_fields example_day
              example_overflow_profile in
  (outcome r = Ok tt
   /\ IncomeTaxCalc.total_income_for_tax (final r) = Some (Int (-1000000))
   /\ IncomeTaxCalc.taxable_income (final r) = Some (Int 0)
   /\ IncomeTaxCalc.total_income_tax (final r) = Some (Int 0))
  /\ (outcome r' = Raise OverflowError
      /\ IncomeTaxCalc.taxable_income (final r') = Some (Int 0)
      /\ IncomeTaxCalc.total_income_tax (final r') = None)
  /\ exists ti tax,
       IncomeTaxCalc.taxable_income (final r) = Some ti
       /\ Py.ge ti (Int 0) = true
       /\ IncomeTaxCalc.total_income_tax (final r) = Some tax
       /\ Py.ge tax (Int 0) = true.
Proof.
  cbv zeta.
  assert (outcome (IncomeTaxCalc.calculate_all_fields example_day
                     example_loss_profile) = Ok tt) as Hrun
    by (vm_compute; reflexivity).
  split; [split; [exact Hrun|repeat split; vm_compute; reflexivity]|].
  split; [repeat split; vm_compute; reflexivity|].
  exact (proj2 (proj2 (income_tax_floors example_day example_loss_profile))
           Hrun).
Defined.

(** C3 at the example profile. *)
Lemma national_income_tax_formula_witness :
  IncomeTaxCalc.calculate_all_fields example_day example_profile
  = (Ok tt, example_calculator)
  /\ IncomeTaxCalc._NATIONAL_INCOME_TAX_TABLE
     = national_income_tax_table_of_spec
  /\ exists ti d b v,
       IncomeTaxCalc.taxable_income example_calculator = Some ti
       /\ IncomeTaxCalc.current_date example_calculator = Some d
       /\ IncomeTaxCalc.national_income_tax_bracket example_calculator
          = Some b
       /\ IncomeTaxCalc.lookup_in_tax_table IncomeTaxCalc.bounds ti
            national_income_tax_table_of_spec = Ok b
       /\ In b national_income_tax_table_of_spec
       /\ Py.le (fst (IncomeTaxCalc.bounds b)) ti = true
       /\ Py.le ti (snd (IncomeTaxCalc.bounds b)) = true
       /\ national_income_tax_of_spec b ti d = Ok v
       /\ IncomeTaxCalc.national_income_tax example_calculator = Some v.
Proof.
  assert (IncomeTaxCalc.calculate_all_fields example_day example_profile
          = (Ok tt, example_calculator)) as Hrun by (vm_compute; reflexivity).
  split; [exact Hrun|]. exact (national_income_tax_formula _ _ _ Hrun).
Defined.

(** C10 at the example profile. *)
Lemma defaulted_inputs_are_sticky_witness :
  (IncomeTaxCalc.social_security_expense example_profile = None
   /\ IncomeTaxCalc.calculate_all_fields example_day example_profile
      = (Ok tt, example_calculator))
  /\ (exists income v,
        IncomeTaxCalc.employment_income_after_rent_program example_calculator
        = Some income
        /\ estimated_social_security_expense income = Ok v
        /\ IncomeTaxCalc.social_security_expense example_calculator = Some v
        /\ forall today' q,
             IncomeTaxCalc.social_security_expense q
             = IncomeTaxCalc.social_security_expense example_calculator ->
             IncomeTaxCalc.social_security_expense
               (final (IncomeTaxCalc.calculate_all_fields today' q))
             = Some v)
  /\ (IncomeTaxCalc.current_date example_profile = None ->
      IncomeTaxCalc.current_date example_calculator = Some example_day
      /\ forall today' q,
           IncomeTaxCalc.current_date q
           = IncomeTaxCalc.current_date example_calculator ->
           IncomeTaxCalc.current_date
             (final (IncomeTaxCalc.calculate_all_fields today' q))
           = Some example_day).
Proof.
  assert (IncomeTaxCalc.social_security_expense example_profile = None)
    as Hnone by reflexivity.
  assert (IncomeTaxCalc.calculate_all_fields example_day example_profile
          = (Ok tt, example_calculator)) as Hrun by (vm_compute; reflexivity).
  split; [by split|]. exact (defaulted_inputs_are_sticky _ _ _ Hnone Hrun).
Defined.

(** The recomputation of the example scenario, bought on 2015-03-01, on
    two days. *)
Lemma recomputation_ignores_the_day_witness :
  let s := RealEstateCalc.set_purchase_date (Some (mk_date 2015 3 1))
             example_scenario in
  RealEstateCalc.purchase_date s <> None
  /\ RealEstateCalc.calculate_all_fields (H := numpy_formulas) example_day
       (s, example_store)
     = RealEstateCalc.calculate_all_fields (H := numpy_formulas)
         (mk_date 2031 2 28) (s, example_store).
Proof.
  cbv zeta.
  assert (RealEstateCalc.purchase_date
            (RealEstateCalc.set_purchase_date (Some (mk_date 2015 3 1))
               example_scenario) <> None) as Hd by done.
  split; [exact Hd|].
  exact (recomputation_ignores_the_day (H := numpy_formulas) _ _ _ _ Hd).
Defined.

(** The example scenario, recomputed on 2017-06-01 and again on
    2031-02-28. *)
Lemma recomputation_on_another_day_witness :
  RealEstateCalc.calculate_all_fields (H := numpy_formulas) example_day
    (example_scenario, example_store)
  = (Ok tt, (fst example_recomputed, snd example_recomputed))
  /\ exists h2,
       RealEstateCalc.calculate_all_fields (H := numpy_formulas)
         (mk_date 2031 2 28)
         (fst example_recomputed, snd example_recomputed)
       = (Ok tt, (fst example_recomputed, h2))
       /\ forall l c,
            snd example_recomputed !! l = Some c -> h2 !! l = Some c.
Proof.
  assert (RealEstateCalc.calculate_all_fields (H := numpy_formulas)
            example_day (example_scenario, example_store)
          = (Ok tt, (fst example_recomputed, snd example_recomputed)))
    as Hrun by (vm_compute; reflexivity).
  split; [exact Hrun|].
  exact (recomputation_on_another_day (H := numpy_formulas) _ _ _ _ _ _ Hrun).
Defined.

(** A loan of 200,000 over 30 years at 6.5 percent: 360 months. *)
Lemma mortgage_schedules_cover_the_tenor_witness :
  exists m,
    Mortgage.new (H := numpy_formulas) (Int 200000) 30 (Flt 0.065) = Ok m
    /\ Mortgage.principal m = Int 200000 /\ Mortgage.tenor m = 30
    /\ Mortgage.rate m = Flt 0.065
    /\ Mortgage.loan_periods m = Some (Py.range 1 (30 * 12 + 1))
    /\ exists i p a,
         Mortgage.interest_schedule m = Some i
         /\ Mortgage.principal_schedule m = Some p
         /\ Mortgage.amortization_schedule m = Some a
         /\ length i = Z.to_nat (30 * 12)
         /\ length p = Z.to_nat (30 * 12)
         /\ length a = Z.to_nat (30 * 12).
Proof.
  destruct (Mortgage.new (H := numpy_formulas) (Int 200000) 30 (Flt 0.065))
    as [m|e] eqn:Hm; [|vm_compute in Hm; discriminate Hm].
  exists m. split; [reflexivity|].
  exact (mortgage_schedules_cover_the_tenor (H := numpy_formulas) _ _ _ _ Hm).
Defined.

(** The same loan: each month pays interest plus principal. *)
Lemma mortgage_payment_is_interest_plus_principal_witness :
  exists m,
    Mortgage.new (H := numpy_formulas) (Int 200000) 30 (Flt 0.065) = Ok m
    /\ exists i p a,
         Mortgage.interest_schedule m = Some i
         /\ Mortgage.principal_schedule m = Some p
         /\ Mortgage.amortization_schedule m = Some a
         /\ (forall k x y,
               i !! k = Some x -> p !! k = Some y ->
               exists z, Py.add x y = Ok z /\ a !! k = Some z)
         /\ Mortgage.monthly_payment m = Some (default (Int 0) (head a))
         /\ (30 <= 0 -> Mortgage.monthly_payment m = Some (Int 0)).
Proof.
  destruct (Mortgage.new (H := numpy_formulas) (Int 200000) 30 (Flt 0.065))
    as [m|e] eqn:Hm; [|vm_compute in Hm; discriminate Hm].
  exists m. split; [reflexivity|].
  exact (mortgage_payment_is_interest_plus_principal (H := numpy_formulas)
           _ _ _ _ Hm).
Defined.

(** A tenor of -1 year, at the rates 0 and 1 percent. *)
Lemma mortgage_negative_tenor_witness :
  -1 < 0
  /\ Mortgage.new (H := numpy_formulas) (Int 1000) (-1) (Int 0)
     = Raise ZeroDivisionError
  /\ Mortgage.new (H := numpy_formulas) (Int 1000) (-1) (Flt 0.01)
     = Ok (Mortgage.mk (Int 1000) (-1) (Flt 0.01) (Some []) (Some [])
             (Some []) (Some []) (Some (Int 0))).
Proof.
  assert (-1 < 0) as HT by lia.
  split; [exact HT|]. split.
  - exact (mortgage_negative_tenor (H := numpy_formulas) (Int 1000) (-1)
             (Int 0) HT).
  - exact (mortgage_negative_tenor (H := numpy_formulas) (Int 1000) (-1)
             (Flt 0.01) HT).
Defined.

(** An income of 5,000,000.0 yen, a [float]. *)
Lemma tax_tables_cover_whole_amounts_witness :
  Py.eq (Flt 5000000) (Int 5000000) = true
  /\ 0 <= 5000000
  /\ (exists b,
        IncomeTaxCalc.lookup_in_tax_table IncomeTaxCalc.bounds (Flt 5000000)
          IncomeTaxCalc._NATIONAL_INCOME_TAX_TABLE = Ok b)
  /\ (5000000 <= 10000000000000 ->
      exists r,
        IncomeTaxCalc.lookup_in_tax_table IncomeTaxCalc.rule_bounds
          (Flt 5000000) IncomeTaxCalc._EMPLOYMENT_INCOME_FOR_TAX_TABLE
        = Ok r).
Proof.
  assert (Py.eq (Flt 5000000) (Int 5000000) = true) as Hx by reflexivity.
  assert (0 <= 5000000) as Hz by lia.
  split; [exact Hx|]. split; [exact Hz|].
  exact (tax_tables_cover_whole_amounts _ _ Hx Hz).
Defined.

(** A taxable income of 1,950,000.5 yen and an employment income of
    650,999.5 yen; the first is the taxable income of
    [IncomeTaxCalc(other_income=2330000.5)], which cannot be built. *)
Lemma fraction_between_rules_is_rejected_witness :
  let p := IncomeTaxCalc.set_taxable_income (Some (Flt 1950000.5))
             IncomeTaxCalc.default_fields in
  let q := IncomeTaxCalc.set_employment_income_after_rent_program
             (Some (Flt 650999.5)) IncomeTaxCalc.default_fields in
  IncomeTaxCalc._calculate_national_income_tax_bracket p
  = (Raise (ValueError (is_not_a_valid_income (Flt 1950000.5))), p)
  /\ IncomeTaxCalc._calculate_employment_income_for_tax q
     = (Raise (ValueError (is_not_a_valid_income (Flt 650999.5))), q)
  /\ IncomeTaxCalc.new example_day
       (IncomeTaxCalc.set_other_income (Flt 2330000.5)
          IncomeTaxCalc.default_fields)
     = Raise (ValueError (is_not_a_valid_income (Flt 1950000.5))).
Proof.
  cbv zeta. split; [|split].
  - exact (proj1 (fraction_between_rules_is_rejected
                    (IncomeTaxCalc.set_taxable_income (Some (Flt 1950000.5))
                       IncomeTaxCalc.default_fields)
                    (Flt 1950000.5) 1950000 eq_refl eq_refl)
             ltac:(cbn; tauto) eq_refl).
  - exact (proj2 (fraction_between_rules_is_rejected
                    (IncomeTaxCalc.set_employment_income_after_rent_program
                       (Some (Flt 650999.5)) IncomeTaxCalc.default_fields)
                    (Flt 650999.5) 650999 eq_refl eq_refl)
             ltac:(cbn; tauto) eq_refl).
  - vm_compute. reflexivity.
Defined.

(** Employment incomes of -1 yen and of 10,000,000,000,001 yen. *)
Lemma employment_income_out_of_range_is_rejected_witness :
  let p := IncomeTaxCalc.set_employment_income_after_rent_program
             (Some (Flt (-1))) IncomeTaxCalc.default_fields in
  let q := IncomeTaxCalc.set_employment_income_after_rent_program
             (Some (Int 10000000000001)) IncomeTaxCalc.default_fields in
  IncomeTaxCalc._calculate_employment_income_for_tax p
  = (Raise (ValueError (is_not_a_valid_income (Flt (-1)))), p)
  /\ IncomeTaxCalc._calculate_employment_income_for_tax q
     = (Raise (ValueError (is_not_a_valid_income (Int 10000000000001))), q).
Proof.
  cbv zeta. split.
  - exact (employment_income_out_of_range_is_rejected
             (IncomeTaxCalc.set_employment_income_after_rent_program
                (Some (Flt (-1))) IncomeTaxCalc.default_fields)
             (Flt (-1)) eq_refl (or_introl eq_refl)).
  - exact (employment_income_out_of_range_is_rejected
             (IncomeTaxCalc.set_employment_income_after_rent_program
                (Some (Int 10000000000001)) IncomeTaxCalc.default_fields)
             (Int 10000000000001) eq_refl (or_intror eq_refl)).
Defined.

(** The example profile, recomputed on 2017-06-01 and again on
    2031-02-28. *)
Lemma income_tax_recomputation_is_idempotent_witness :
  IncomeTaxCalc.calculate_all_fields example_day example_profile
  = (Ok tt, example_calculator)
  /\ IncomeTaxCalc.calculate_all_fields (mk_date 2031 2 28) example_calculator
     = (Ok tt, example_calculator).
Proof.
  assert (IncomeTaxCalc.calculate_all_fields example_day example_profile
          = (Ok tt, example_calculator)) as Hrun by (vm_compute; reflexivity).
  split; [exact Hrun|].
  exact (income_tax_recomputation_is_idempotent _ _ _ _ Hrun).
Defined.

(** The example scenario, bought on 2015-03-01. *)
Lemma recomputation_keeps_the_arguments_witness :
  let s := RealEstateCalc.set_purchase_date (Some (mk_date 2015 3 1))
             example_scenario in
  let s' := fst (final (RealEstateCalc.calculate_all_fields
                          (H := numpy_formulas) example_day
                          (s, example_store))) in
  RealEstateCalc.purchase_date s <> None
  /\ given_arguments s' = given_arguments s
  /\ RealEstateCalc.purchase_date s' = RealEstateCalc.purchase_date s.
Proof.
  cbv zeta.
  assert (RealEstateCalc.purchase_date
            (RealEstateCalc.set_purchase_date (Some (mk_date 2015 3 1))
               example_scenario) <> None) as Hd by done.
  split; [exact Hd|].
  destruct (recomputation_keeps_the_arguments (H := numpy_formulas)
              example_day
              (RealEstateCalc.set_purchase_date (Some (mk_date 2015 3 1))
                 example_scenario)
              example_store) as (Ha & Hp & _).
  split; [exact Ha|exact (Hp Hd)].
Defined.

(** A building depreciated over 22 years by 1,000,000 a year, at the
    evaluation year 30. *)
Lemma depreciation_cumulative_closed_form_witness :
  let s := RealEstateCalc.set_depreciation_years (Some (Int 22))
             (RealEstateCalc.set_depreciation_annual (Some (Int 1000000))
                (RealEstateCalc.set_calc_year 30
                   RealEstateCalc.default_fields)) in
  RealEstateCalc._calculate_depreciation_cumulative s
  = (Ok tt,
     RealEstateCalc.set_depreciation_cumulative
       (Some (Int (1000000 * Z.max 0 (Z.min (30 + 1) 22)))) s).
Proof.
  exact (depreciation_cumulative_closed_form
           (RealEstateCalc.set_depreciation_years (Some (Int 22))
              (RealEstateCalc.set_depreciation_annual (Some (Int 1000000))
                 (RealEstateCalc.set_calc_year 30
                    RealEstateCalc.default_fields)))
           22 1000000 eq_refl eq_refl).
Defined.

(** The example scenario, recomputed. *)
Lemma taxes_and_gains_are_not_negative_witness :
  RealEstateCalc.calculate_all_fields (H := numpy_formulas) example_day
    (example_scenario, example_store)
  = (Ok tt, (fst example_recomputed, snd example_recomputed))
  /\ exists v g c,
       RealEstateCalc.income_tax_real_estate (fst example_recomputed)
       = Some v
       /\ Py.ge v (Int 0) = true
       /\ RealEstateCalc.capital_gains (fst example_recomputed) = Some g
       /\ Py.ge g (Int 0) = true
       /\ RealEstateCalc.capital_gains_tax (fst example_recomputed) = Some c
       /\ Py.ge c (Int 0) = true.
Proof.
  assert (RealEstateCalc.calculate_all_fields (H := numpy_formulas)
            example_day (example_scenario, example_store)
          = (Ok tt, (fst example_recomputed, snd example_recomputed)))
    as Hrun by (vm_compute; reflexivity).
  split; [exact Hrun|].
  exact (taxes_and_gains_are_not_negative (H := numpy_formulas) _ _ _ _ _ Hrun).
Defined.

(** The example scenario without its tax calculator. *)
Lemma without_tax_calculator_witness :
  let s := RealEstateCalc.set_income_tax_calculator None example_scenario in
  let w := final (RealEstateCalc.calculate_all_fields (H := numpy_formulas)
                    example_day (s, example_store)) in
  RealEstateCalc.income_tax_calculator s = None
  /\ RealEstateCalc.calculate_all_fields (H := numpy_formulas) example_day
       (s, example_store) = (Ok tt, (fst w, snd w))
  /\ snd w = example_store
  /\ RealEstateCalc.home_loan_deduction (fst w) = Some (Int 0)
  /\ RealEstateCalc.income_tax (fst w) = Some (Int 0)
  /\ RealEstateCalc.income_tax_real_estate (fst w) = Some (Int 0)
  /\ RealEstateCalc.net_income_after_taxes (fst w)
     = RealEstateCalc.net_income_before_taxes (fst w).
Proof.
  cbv zeta.
  set (s := RealEstateCalc.set_income_tax_calculator None example_scenario).
  assert (RealEstateCalc.income_tax_calculator s = None) as Hc
    by reflexivity.
  assert (RealEstateCalc.calculate_all_fields (H := numpy_formulas)
            example_day (s, example_store)
          = (Ok tt,
             (fst (final (RealEstateCalc.calculate_all_fields
                            (H := numpy_formulas) example_day
                            (s, example_store))),
              snd (final (RealEstateCalc.calculate_all_fields
                            (H := numpy_formulas) example_day
                            (s, example_store))))))
    as Hrun by (vm_compute; reflexivity).
  destruct (without_tax_calculator (H := numpy_formulas) example_day s
              example_store Hc) as [Hs Hv].
  split; [exact Hc|]. split; [exact Hrun|]. split; [exact Hs|].
  exact (Hv _ _ Hrun).
Defined.

(** [IncomeTaxCalc(other_income=float('inf'))]: the national income tax
    is infinite and its conversion to an [int] raises [OverflowError]. *)
Lemma income_tax_recomputation_raises_witness :
  let p := IncomeTaxCalc.set_other_income (Flt infinity)
             IncomeTaxCalc.default_fields in
  outcome (IncomeTaxCalc.calculate_all_fields example_day p)
  = Raise OverflowError
  /\ income_tax_error OverflowError.
Proof.
  cbv zeta. split; [vm_compute; reflexivity|].
  apply (income_tax_recomputation_raises example_day
           (IncomeTaxCalc.set_other_income (Flt infinity)
              IncomeTaxCalc.default_fields)).
  vm_compute. reflexivity.
Defined.
